(** * Release-verification scripts of Plex-Show-Subtitles-On-Rewind

    A shallow embedding of [scripts/verify_build.py] and
    [scripts/verify_docker.py].  Both scripts are straight-line sequences of
    external commands, file-system calls and console output.  The embedding
    threads an explicit world (the file system or the state of the container
    runtime, plus the chronological trace of observable effects) through a
    small outcome monad that distinguishes a normal return, a raised Python
    exception and [sys.exit].

    Modelling boundaries, stated once:
    - a [str] is kept as the bytes of its UTF-8 encoding;
    - an external command is an oracle from the argument vector and the
      current world to a completed process (return code, captured output)
      and a new world.  Whether the program it names can be started at all
      is a property of the host that does not change during a run; when it
      cannot, [subprocess.run] raises an [OSError] and nothing else
      happens.  What a program prints can be decoded as text;
    - paths are POSIX strings resolved from the root directory, which is
      also the working directory; ["."], [".."] and symbolic links are not
      interpreted;
    - a regular file carries its size, its permission bits and the class
      (superuser, owner, group, others) under which the kernel checks the
      calling process against it; access control lists and mount options
      are left out.  Directories carry no permission bits: they can be
      searched, listed and written to;
    - of the pattern language of [glob] only the part the script writes
      itself, the file name [*.exe], is spelled out; what a directory name
      with pattern characters expands to is an oracle. *)

From Stdlib Require Import String Ascii List ZArith Lia Bool DecimalString.
Import ListNotations.
Open Scope string_scope.
Open Scope Z_scope.
Set Warnings "-register-all,-notation-for-abbreviation".

(* ================================================================== *)
(** * Python primitives shared by both scripts *)
(* ================================================================== *)

Module Py.

(** ** Strings

    One [ascii] per byte of the UTF-8 encoding.  Comparing, searching and
    joining work on the bytes as they do on the characters, since the
    encoding of one character never occurs inside the encoding of other
    ones. *)

Definition nl : string := String (ascii_of_nat 10) "".
Definition esc : string := String (ascii_of_nat 27) "".

(** [str(n)] for an integer. *)
Definition str_of_Z (n : Z) : string := NilZero.string_of_int (Z.to_int n).

(** [s.startswith(p)]. *)
Fixpoint startswith (p s : string) : bool :=
  match p, s with
  | EmptyString, _ => true
  | String a p', String b s' => Ascii.eqb a b && startswith p' s'
  | String _ _, EmptyString => false
  end.

(** [p in s] for strings: [p] occurs as a contiguous substring of [s]. *)
Fixpoint contains (p s : string) : bool :=
  startswith p s ||
  match s with
  | EmptyString => false
  | String _ s' => contains p s'
  end.

(** [s.endswith(p)]. *)
Fixpoint endswith (p s : string) : bool :=
  String.eqb p s ||
  match s with
  | EmptyString => false
  | String _ s' => endswith p s'
  end.

(** [sep.join(l)]. *)
Definition str_join (sep : string) (l : list string) : string :=
  String.concat sep l.

(** The characters removed by [str.strip()], those for which
    [str.isspace()] holds, each as the bytes of its encoding: U+0009 to
    U+000D, U+001C to U+0020, U+0085, U+00A0, U+1680, U+2000 to U+200A,
    U+2028, U+2029, U+202F, U+205F and U+3000. *)
Definition whitespace : list (list nat) :=
  (map (fun n => [n]) [9; 10; 11; 12; 13; 28; 29; 30; 31; 32]
   ++ [[194; 133]; [194; 160]; [225; 154; 128]]
   ++ map (fun n => [226; 128; n])
          [128; 129; 130; 131; 132; 133; 134; 135; 136; 137; 138;
           168; 169; 175]
   ++ [[226; 129; 159]; [227; 128; 128]])%list%nat.

Fixpoint same_bytes (a : list ascii) (b : list nat) : bool :=
  match a, b with
  | [], [] => true
  | x :: a', y :: b' => Nat.eqb (nat_of_ascii x) y && same_bytes a' b'
  | _, _ => false
  end.

(** [bytes] is the encoding of one white-space character. *)
Definition is_space (bytes : list ascii) : bool :=
  existsb (same_bytes bytes) whitespace.

(** [s.lstrip()]: white-space characters of one, two or three bytes are
    removed from the front as long as there are any. *)
Fixpoint lstrip (s : string) : string :=
  match s with
  | String a s1 =>
      if is_space [a] then lstrip s1
      else
        match s1 with
        | String b s2 =>
            if is_space [a; b] then lstrip s2
            else
              match s2 with
              | String c s3 => if is_space [a; b; c] then lstrip s3 else s
              | EmptyString => s
              end
        | EmptyString => s
        end
  | EmptyString => EmptyString
  end.

(** The same from the other end, on the bytes in reverse order. *)
Fixpoint lstrip_reversed (s : list ascii) : list ascii :=
  match s with
  | c :: s1 =>
      if is_space [c] then lstrip_reversed s1
      else
        match s1 with
        | b :: s2 =>
            if is_space [b; c] then lstrip_reversed s2
            else
              match s2 with
              | a :: s3 =>
                  if is_space [a; b; c] then lstrip_reversed s3 else s
              | [] => s
              end
        | [] => s
        end
  | [] => []
  end.

(** [s.rstrip()] *)
Definition rstrip (s : string) : string :=
  string_of_list_ascii
    (rev (lstrip_reversed (rev (list_ascii_of_string s)))).

(** [s.strip()] *)
Definition strip (s : string) : string := rstrip (lstrip s).

(** ** Paths ([posixpath]) *)

(** [os.path.join(a, b)]. *)
Definition join2 (a b : string) : string :=
  if startswith "/" b then b
  else if String.eqb a "" || endswith "/" a then a ++ b
  else a ++ "/" ++ b.

(** [os.path.join(a, *ps)]. *)
Definition path_join (a : string) (ps : list string) : string :=
  fold_left join2 ps a.

(** The components of a path: the maximal slash-free pieces, empty ones
    dropped (so repeated and trailing slashes are ignored here). *)
Fixpoint split_acc (cur : string) (s : string) : list string :=
  match s with
  | EmptyString => if String.eqb cur "" then [] else [cur]
  | String c s' =>
      if Ascii.eqb c "/"%char
      then (if String.eqb cur "" then [] else [cur]) ++ split_acc "" s'
      else split_acc (cur ++ String c "") s'
  end.

Definition split_path (s : string) : list string := split_acc "" s.

(** [os.path.basename(p)]: what follows the last slash. *)
Definition basename (p : string) : string :=
  (fix go (cur s : string) : string :=
     match s with
     | EmptyString => cur
     | String c s' =>
         if Ascii.eqb c "/"%char then go "" s' else go (cur ++ String c "") s'
     end) "" p.

(** ** Outcomes, exceptions and the world *)

(** The result of a finished process ([subprocess.CompletedProcess]; a
    [CalledProcessError] carries the same three fields). *)
Record completed : Type :=
  Completed { returncode : Z; stdout : string; stderr : string }.

Inductive exn : Type :=
| CalledProcessError (process : completed)
| FileNotFoundError
| NotADirectoryError
| IsADirectoryError
| FileExistsError
| PermissionError
| SameFileError
| JSONDecodeError
| KeyError
| IndexError
| TypeError
| AttributeError.

(** Why the host cannot start a program: no file of that name is on the
    search path, or the file may not be executed.  [subprocess.run] raises
    [FileNotFoundError] in the first case and [PermissionError] in the
    second. *)
Inductive launch_error : Type :=
| NotInstalled
| NotExecutable.

Definition launch_exception (why : launch_error) : exn :=
  match why with
  | NotInstalled => FileNotFoundError
  | NotExecutable => PermissionError
  end.

(** How a Python call ends: it returns, it raises an [Exception], or it
    raises [SystemExit] through [sys.exit(code)]. *)
Inductive outcome (A : Type) : Type :=
| Ret (a : A)
| Raise (e : exn)
| SysExit (code : Z).
Arguments Ret {A} a.
Arguments Raise {A} e.
Arguments SysExit {A} code.

(** Observable effects, in the order they happen. *)
Inductive event : Type :=
| Out (text : string)                 (* text written to standard output *)
| Run (command : list string)         (* subprocess.run(command, ...) *)
| Sleep (seconds : Z)                 (* time.sleep(seconds) *)
| Makedirs (path : string)            (* os.makedirs(path, exist_ok=True) *)
| Copy2 (src dst : string)            (* shutil.copy2(src, dst) *)
| Chmod (path : string) (mode : Z).   (* os.chmod(path, mode) *)

Record world (E : Type) : Type := World { env : E; trace : list event }.
Arguments World {E} env trace.
Arguments env {E} w.
Arguments trace {E} w.

Definition M (E A : Type) : Type := world E -> outcome A * world E.

Definition ret {E A} (a : A) : M E A := fun w => (Ret a, w).

Definition bind {E A B} (m : M E A) (k : A -> M E B) : M E B :=
  fun w =>
    match m w with
    | (Ret a, w') => k a w'
    | (Raise e, w') => (Raise e, w')
    | (SysExit c, w') => (SysExit c, w')
    end.

Definition raise {E A} (e : exn) : M E A := fun w => (Raise e, w).

(** [sys.exit(code)]. *)
Definition sys_exit {E A} (code : Z) : M E A := fun w => (SysExit code, w).

Definition emit {E} (ev : event) : M E unit :=
  fun w => (Ret tt, World (env w) (trace w ++ [ev])).

Definition get_env {E} : M E E := fun w => (Ret (env w), w).

Definition set_env {E} (e : E) : M E unit :=
  fun w => (Ret tt, World e (trace w)).

(** [try: body / except <class> as e: handler(e)], where [catches] says
    which exceptions belong to the class.  [SystemExit] is not an
    [Exception] and always passes through. *)
Definition try_except {E A} (catches : exn -> bool)
    (body : M E A) (handler : exn -> M E A) : M E A :=
  fun w =>
    match body w with
    | (Raise e, w') => if catches e then handler e w' else (Raise e, w')
    | r => r
    end.

Definition any_Exception (e : exn) : bool := true.

Definition is_CalledProcessError (e : exn) : bool :=
  match e with CalledProcessError _ => true | _ => false end.

(** [try: body / finally: fin].  The [finally] block runs on every way out
    of [body]; if it ends abnormally itself, that replaces the outcome of
    [body]. *)
Definition try_finally {E A} (body : M E A) (fin : M E unit) : M E A :=
  fun w =>
    match body w with
    | (o, w') =>
        match fin w' with
        | (Ret _, w'') => (o, w'')
        | (Raise e, w'') => (Raise e, w'')
        | (SysExit c, w'') => (SysExit c, w'')
        end
    end.

(** Every event a computation adds to the trace satisfies [P]. *)
Definition emits {E A} (P : event -> Prop) (m : M E A) : Prop :=
  forall w, exists evs, trace (snd (m w)) = (trace w ++ evs)%list /\ Forall P evs.

(** A computation that never ends in [sys.exit]. *)
Definition never_exits {E A} (m : M E A) : Prop :=
  forall w, match fst (m w) with SysExit _ => False | _ => True end.


(** Whatever the world, the first events a computation adds are [pre]. *)
Definition begins {E A} (pre : list event) (m : M E A) : Prop :=
  forall w, exists evs, trace (snd (m w)) = (trace w ++ pre ++ evs)%list.

Definition is_output (ev : event) : Prop :=
  match ev with Out _ => True | _ => False end.

(** Equality of argument vectors, and how often a command was run. *)
Fixpoint same_command (a b : list string) : bool :=
  match a, b with
  | [], [] => true
  | x :: a', y :: b' => String.eqb x y && same_command a' b'
  | _, _ => false
  end.

Fixpoint occurrences (command : list string) (tr : list event) : nat :=
  match tr with
  | [] => 0
  | Run c :: tr' =>
      ((if same_command c command then 1 else 0) + occurrences command tr')%nat
  | _ :: tr' => occurrences command tr'
  end.

(** The exit status of [sys.exit(main())]: the value [main] returned, the
    code given to [sys.exit], or 1 after an uncaught exception. *)
Definition exit_code (o : outcome Z) : Z :=
  match o with
  | Ret c => c
  | Raise _ => 1
  | SysExit c => c
  end.

(** [print(message)] and [print(message, end="")]. *)
Definition print {E} (message : string) : M E unit := emit (Out (message ++ nl)).
Definition print_no_newline {E} (message : string) : M E unit := emit (Out message).

End Py.

Export Py.

Declare Scope py_scope.
Delimit Scope py_scope with py.
Notation "x <- m ;; k" := (bind m (fun x => k))
  (at level 61, m at next level, right associativity) : py_scope.
Notation "m ;;; k" := (bind m (fun _ => k))
  (at level 61, right associativity) : py_scope.
Open Scope py_scope.

(** [for item in items: body(item)] *)
Fixpoint for_each {E A} (items : list A) (body : A -> M E unit) : M E unit :=
  match items with
  | [] => ret tt
  | item :: rest => body item ;;; for_each rest body
  end.

(* ================================================================== *)
(** * scripts/verify_build.py *)
(* ================================================================== *)

Module VerifyBuild.

(** ** Configuration *)

Definition DEFAULT_VERSION : string := "0.0.1-test".
Definition PLATFORMS : list string := ["win-x64"; "linux-x64"; "osx-x64"].
Definition MIN_FILE_SIZE : Z := 1000000.

Module Colors.
Definition RED : string := esc ++ "[0;31m".
Definition GREEN : string := esc ++ "[0;32m".
Definition YELLOW : string := esc ++ "[0;33m".
Definition NC : string := esc ++ "[0m".
End Colors.

Definition print_colored {E} (message color : string) : M E unit :=
  print (color ++ message ++ Colors.NC).

(** The events of [print(message)] and [print_colored(message, color)]. *)
Definition line (message : string) : event := Out (message ++ nl).
Definition colored (message color : string) : event :=
  Out ((color ++ message ++ Colors.NC) ++ nl).

(** ** The file system *)

(** The class under which the kernel checks the calling process against a
    file: it compares the user and group ids of the process with the owner
    and the group of the file, and the superuser is checked as such
    whoever owns the file. *)
Inductive accessor : Type :=
| Superuser
| Owner
| Group
| Others.

(** A regular file has a size in bytes, permission bits and the class of
    the calling process for it; a directory has named entries, in the order
    the operating system lists them. *)
Inductive node : Type :=
| File (size : Z) (mode : Z) (who : accessor)
| Dir (entries : list (string * node)).

Definition is_dir (n : node) : bool :=
  match n with Dir _ => true | File _ _ _ => false end.

(** The three permissions, by the position of their bit for others
    ([os.X_OK] is 1, [os.W_OK] is 2 and [os.R_OK] is 4). *)
Definition X_OK : Z := 0.
Definition W_OK : Z := 1.
Definition R_OK : Z := 2.

(** Whether permission bits [mode] grant [who] the permission [bit]: the
    bits of the group stand three places above those of the others and the
    bits of the owner six.  The superuser reads and writes any file, and
    executes a regular file as soon as one of its execute bits is set. *)
Definition permits (who : accessor) (mode : Z) (bit : Z) : bool :=
  match who with
  | Owner => Z.testbit mode (bit + 6)
  | Group => Z.testbit mode (bit + 3)
  | Others => Z.testbit mode bit
  | Superuser =>
      negb (bit =? X_OK)
      || Z.testbit mode 6 || Z.testbit mode 3 || Z.testbit mode 0
  end.

(** Who may change the permission bits and the times of a file. *)
Definition owns (who : accessor) : bool :=
  match who with
  | Superuser | Owner => true
  | Group | Others => false
  end.

(** The class of the calling process for a file it creates, given its
    class for any other file: the superuser stays the superuser, everybody
    else owns what they create. *)
Definition creator (who : accessor) : accessor :=
  match who with
  | Superuser => Superuser
  | Owner | Group | Others => Owner
  end.

Fixpoint find_entry (name : string) (es : list (string * node)) : option node :=
  match es with
  | [] => None
  | (k, v) :: es' => if String.eqb k name then Some v else find_entry name es'
  end.

(** Replace the entry called [name], or add it after the existing ones. *)
Fixpoint set_entry (name : string) (n : node) (es : list (string * node))
  : list (string * node) :=
  match es with
  | [] => [(name, n)]
  | (k, v) :: es' =>
      if String.eqb k name then (name, n) :: es'
      else (k, v) :: set_entry name n es'
  end.

Fixpoint resolve (n : node) (p : list string) : option node :=
  match p with
  | [] => Some n
  | c :: p' =>
      match n with
      | Dir es =>
          match find_entry c es with
          | Some child => resolve child p'
          | None => None
          end
      | File _ _ _ => None
      end
  end.

(** What a path names: nothing for the empty path, and a path that ends in
    a slash names directories only. *)
Definition lookup (fs : node) (path : string) : option node :=
  if String.eqb path "" then None
  else
    match resolve fs (split_path path) with
    | Some (File s m o) =>
        if endswith "/" path then None else Some (File s m o)
    | r => r
    end.

(** [os.path.isfile], [os.path.isdir]. *)
Definition isfile (fs : node) (path : string) : bool :=
  match lookup fs path with Some (File _ _ _) => true | _ => false end.

Definition isdir (fs : node) (path : string) : bool :=
  match lookup fs path with Some (Dir _) => true | _ => false end.

(** The position of the owner's execute bit, [0o100]. *)
Definition X_BIT : Z := 6.

(** [os.access(path, os.X_OK)]: the execute permission of the calling
    process, by its class for the file.  A directory counts as
    searchable. *)
Definition os_access_X (fs : node) (path : string) : bool :=
  match lookup fs path with
  | Some (File _ mode who) => permits who mode X_OK
  | Some (Dir _) => true
  | None => false
  end.

(** Put [new] at the path [p], replacing a regular file or creating the
    last component inside an existing directory. *)
Fixpoint put (n : node) (p : list string) (new : node) : exn + node :=
  match p with
  | [] =>
      match n with
      | File _ _ _ => inr new
      | Dir _ => inl IsADirectoryError
      end
  | c :: p' =>
      match n with
      | File _ _ _ => inl NotADirectoryError
      | Dir es =>
          match find_entry c es with
          | Some child =>
              match put child p' new with
              | inr child' => inr (Dir (set_entry c child' es))
              | inl e => inl e
              end
          | None =>
              match p' with
              | [] => inr (Dir (set_entry c new es))
              | _ :: _ => inl FileNotFoundError
              end
          end
      end
  end.

(** Opening [path] for writing and storing a regular file there. *)
Definition write_file (fs : node) (path : string) (new : node) : exn + node :=
  if String.eqb path "" then inl FileNotFoundError
  else if endswith "/" path then inl IsADirectoryError
  else put fs (split_path path) new.

(** [os.makedirs(path, exist_ok=True)] on the tree. *)
Fixpoint mkdirs (n : node) (p : list string) : exn + node :=
  match p with
  | [] =>
      match n with
      | Dir _ => inr n
      | File _ _ _ => inl FileExistsError
      end
  | c :: p' =>
      match n with
      | File _ _ _ => inl NotADirectoryError
      | Dir es =>
          let child :=
            match find_entry c es with
            | Some ch => ch
            | None => Dir []
            end in
          match mkdirs child p' with
          | inr child' => inr (Dir (set_entry c child' es))
          | inl e => inl e
          end
      end
  end.

(** [os.walk(top)] below a node already opened: top-down, one triple
    (directory, sub-directory names, other names) per directory. *)
Fixpoint walk (top : string) (n : node) {struct n}
  : list (string * list string * list string) :=
  match n with
  | File _ _ _ => []
  | Dir es =>
      (top,
       map fst (filter (fun e => is_dir (snd e)) es),
       map fst (filter (fun e => negb (is_dir (snd e))) es))
      :: (fix below (l : list (string * node))
            : list (string * list string * list string) :=
            match l with
            | [] => []
            | (name, child) :: l' =>
                ((if is_dir child then walk (join2 top name) child else [])
                 ++ below l')%list
            end) es
  end.

(** [os.walk(directory)]: a directory that cannot be listed yields nothing. *)
Definition os_walk (fs : node) (directory : string)
  : list (string * list string * list string) :=
  match lookup fs directory with
  | Some n => walk directory n
  | None => []
  end.

Definition PRODUCT : string := "RewindSubtitleDisplayerForPlex".

(** [glob.has_magic]: one of the pattern characters occurs. *)
Definition has_magic (s : string) : bool :=
  contains "*" s || contains "?" s || contains "[" s.

Fixpoint all_slashes (s : string) : bool :=
  match s with
  | EmptyString => true
  | String c s' => Ascii.eqb c "/"%char && all_slashes s'
  end.

(** [s.rstrip('/')] *)
Fixpoint rstrip_slashes (s : string) : string :=
  match s with
  | EmptyString => EmptyString
  | String c s' =>
      if Ascii.eqb c "/"%char && all_slashes s' then EmptyString
      else String c (rstrip_slashes s')
  end.

(** The directory part of the pattern [os.path.join(directory, "*.exe")],
    as [os.path.split] gives it to [glob]: the directory without its
    trailing slashes, unless it consists of slashes only. *)
Definition glob_dirname (directory : string) : string :=
  if all_slashes directory then directory else rstrip_slashes directory.

(** The names [*.exe] selects among the entries of a directory: those that
    end in [.exe] and do not start with a dot. *)
Definition exe_names (es : list (string * node)) : list string :=
  filter (fun name => endswith ".exe" name && negb (startswith "." name))
         (map fst es).

(** [glob]'s listing of one directory for [*.exe]; the empty name stands
    for the working directory, and what cannot be listed yields nothing. *)
Definition glob1_exe (fs : node) (dirname : string) : list string :=
  match (if String.eqb dirname "" then Some fs else lookup fs dirname) with
  | Some (Dir es) => exe_names es
  | _ => []
  end.

(** ** The script *)

Section Script.

(** The external tools ([git], [dotnet]): given the argument vector and the
    file system, the finished process and the file system it leaves. *)
Variable system : list string -> node -> completed * node.

(** The programs the host cannot start, by the name given as [argv[0]]. *)
Variable launch : string -> option launch_error.

(** What [glob] makes of a directory name that contains pattern characters:
    the directories the name stands for. *)
Variable glob_dirs : node -> string -> list string.

(** [glob.glob(os.path.join(directory, "*.exe"))]: the pattern is split
    into its directory part and [*.exe]; a directory part without pattern
    characters is taken as it is, and each directory is listed for
    [*.exe].  The names are joined to the directory they were found in,
    except when the directory part is empty. *)
Definition glob_exe (fs : node) (directory : string) : list string :=
  let dirname := glob_dirname directory in
  if String.eqb dirname "" then glob1_exe fs ""
  else
    let dirs := if has_magic dirname then glob_dirs fs dirname
                else [dirname] in
    flat_map (fun d => map (join2 d) (glob1_exe fs d)) dirs.

(** [find_executable(directory, platform)] *)
Definition find_executable (fs : node) (directory platform : string)
  : option string :=
  if String.eqb platform "win-x64" then
    let files := glob_exe fs directory in
    find (fun f => contains PRODUCT f) files
  else
    let executables :=
      flat_map
        (fun '(root, _, files) =>
           flat_map
             (fun file =>
                if contains PRODUCT file then
                  let file_path := join2 root file in
                  if os_access_X fs file_path then [file_path] else []
                else [])
             files)
        (os_walk fs directory) in
    hd_error executables.

(** [subprocess.run(command, check=check)]; the process is created from
    [command[0]]. *)
Definition subprocess_run (command : list string) (check : bool)
  : M node completed :=
  emit (Run command) ;;;
  match command with
  | [] => raise IndexError
  | program :: _ =>
      match launch program with
      | Some why => raise (launch_exception why)
      | None =>
          fs <- get_env ;;
          let r := system command fs in
          set_env (snd r) ;;;
          if check && negb (returncode (fst r) =? 0)
          then raise (CalledProcessError (fst r))
          else ret (fst r)
      end
  end.

(** [os.path.getsize(path)].  Only regular files carry a size here; the
    script asks for it only after [os.path.isfile] has succeeded. *)
Definition getsize (path : string) : M node Z :=
  fs <- get_env ;;
  match lookup fs path with
  | Some (File size _ _) => ret size
  | Some (Dir _) => raise IsADirectoryError
  | None => raise FileNotFoundError
  end.

(** [os.listdir(path)] *)
Definition listdir (path : string) : M node (list string) :=
  fs <- get_env ;;
  match lookup fs path with
  | Some (Dir es) => ret (map fst es)
  | Some (File _ _ _) => raise NotADirectoryError
  | None => raise FileNotFoundError
  end.

(** [os.makedirs(path, exist_ok=True)] *)
Definition makedirs (path : string) : M node unit :=
  emit (Makedirs path) ;;;
  fs <- get_env ;;
  if String.eqb path "" then raise FileNotFoundError
  else
    match mkdirs fs (split_path path) with
    | inr fs' => set_env fs'
    | inl e => raise e
    end.

(** Storing a regular file at [path], as [open(path, 'wb')] and the
    writes that follow do. *)
Definition store (path : string) (new : node) : M node unit :=
  fs <- get_env ;;
  match write_file fs path new with
  | inr fs' => set_env fs'
  | inl e => raise e
  end.

(** [shutil.copy2(src, dst)]: into the directory [dst] under the name of the
    source if [dst] is a directory.  The source is opened for reading and
    the target for writing, the contents are copied, and then the times and
    the permission bits of the source are given to the target, which only
    the owner of the target may do.  A target that did not exist belongs to
    the calling process. *)
Definition copy2 (src dst : string) : M node string :=
  emit (Copy2 src dst) ;;;
  fs <- get_env ;;
  let dst := if isdir fs dst then join2 dst (basename src) else dst in
  match lookup fs src, lookup fs dst with
  | Some _, Some _ =>
      if list_eq_dec string_dec (split_path src) (split_path dst)
      then raise SameFileError
      else ret tt
  | _, _ => ret tt
  end ;;;
  match lookup fs src with
  | None => raise FileNotFoundError
  | Some (Dir _) => raise IsADirectoryError
  | Some (File size mode who) =>
      if negb (permits who mode R_OK) then raise PermissionError
      else
        match lookup fs dst with
        | Some (File _ old_mode holder) =>
            if negb (permits holder old_mode W_OK) then raise PermissionError
            else if owns holder then
              store dst (File size mode holder) ;;; ret dst
            else
              store dst (File size old_mode holder) ;;;
              raise PermissionError
        | _ => store dst (File size mode (creator who)) ;;; ret dst
        end
  end.

(** [os.chmod(path, mode)], which only the owner of the file may do;
    directories carry no permission bits here. *)
Definition chmod (path : string) (mode : Z) : M node unit :=
  emit (Chmod path mode) ;;;
  fs <- get_env ;;
  match lookup fs path with
  | None => raise FileNotFoundError
  | Some (Dir _) => ret tt
  | Some (File size _ who) =>
      if owns who then
        match put fs (split_path path) (File size mode who) with
        | inr fs' => set_env fs'
        | inl e => raise e
        end
      else raise PermissionError
  end.

(** [find_repo_root()] *)
Definition find_repo_root : M node string :=
  try_except is_CalledProcessError
    (result <- subprocess_run ["git"; "rev-parse"; "--show-toplevel"] true ;;
     ret (strip (stdout result)))
    (fun _ =>
       print_colored "Error: Not a git repository" Colors.RED ;;;
       sys_exit 1).

(** [check_executable(file_path, platform_name)] *)
Definition check_executable (file_path platform_name : string) : M node bool :=
  print_no_newline ("Checking " ++ platform_name ++ " executable: ") ;;;
  fs <- get_env ;;
  if negb (isfile fs file_path) then
    print_colored "FAILED - File not found" Colors.RED ;;;
    ret false
  else
    file_size <- getsize file_path ;;
    if file_size <? MIN_FILE_SIZE then
      print_colored
        ("FAILED - File too small (" ++ str_of_Z file_size ++ " bytes)")
        Colors.RED ;;;
      ret false
    else if negb (String.eqb platform_name "win-x64")
            && negb (os_access_X fs file_path) then
      print_colored "FAILED - File not executable" Colors.RED ;;;
      ret false
    else
      print_colored "PASSED" Colors.GREEN ;;;
      ret true.

(** The argument vector of the build command. *)
Definition publish_command (platform_name version : string) : list string :=
  ["dotnet"; "publish";
   "-c"; "Release";
   "-r"; platform_name;
   "--self-contained"; "true";
   "-p:PublishSingleFile=true";
   "-p:PublishTrimmed=true";
   "-p:Version=" ++ version].

(** The name of the copy in the release-assets directory. *)
Definition target_name (version platform_name : string) : string :=
  let ext := if String.eqb platform_name "win-x64" then ".exe" else "" in
  "RewindSubtitleDisplayerForPlex_" ++ version ++ "_" ++ platform_name ++ ext.

(** [build_for_platform(platform_name, version, build_dir, assets_dir)] *)
Definition build_for_platform
    (platform_name version build_dir assets_dir : string) : M node bool :=
  print_colored (nl ++ "Building for " ++ platform_name ++ "...")
                Colors.YELLOW ;;;
  built <- try_except is_CalledProcessError
             (subprocess_run (publish_command platform_name version) true ;;;
              ret true)
             (fun _ =>
                print_colored ("ERROR: Build failed for " ++ platform_name)
                              Colors.RED ;;;
                ret false) ;;
  if negb built then ret false
  else
    let publish_dir := path_join build_dir [platform_name; "publish"] in
    fs <- get_env ;;
    match find_executable fs publish_dir platform_name with
    | None | Some EmptyString =>
        print_colored ("ERROR: Could not find executable for " ++ platform_name)
                      Colors.RED ;;;
        print "Contents of publish directory:" ;;;
        items <- listdir publish_dir ;;
        for_each items (fun item => print ("  " ++ item)) ;;;
        ret false
    | Some executable =>
        print ("Found executable: " ++ executable) ;;;
        let target_file :=
          path_join assets_dir [target_name version platform_name] in
        copy2 executable target_file ;;;
        (if negb (String.eqb platform_name "win-x64")
         then chmod target_file 493 (* 0o755 *)
         else ret tt) ;;;
        check_executable target_file platform_name
    end.

(** The body of [for platform_name in args.platforms], with the running
    value of [success]. *)
Fixpoint platform_loop (version build_dir assets_dir : string)
    (success : bool) (platforms : list string) : M node bool :=
  match platforms with
  | [] => ret success
  | platform_name :: rest =>
      (if negb (existsb (String.eqb platform_name) PLATFORMS)
       then print_colored ("WARNING: Unknown platform " ++ platform_name)
                          Colors.YELLOW
       else ret tt) ;;;
      ok <- build_for_platform platform_name version build_dir assets_dir ;;
      platform_loop version build_dir assets_dir
                    (if negb ok then false else success) rest
  end.

(** The outcomes of the calls of [build_for_platform] that the loop makes,
    in the order of the requested platforms; the list ends with the first
    call that does not return. *)
Fixpoint loop_outcomes (version build_dir assets_dir : string)
    (platforms : list string) (w : world node) : list (outcome bool) :=
  match platforms with
  | [] => []
  | platform_name :: rest =>
      let w1 :=
        snd ((if negb (existsb (String.eqb platform_name) PLATFORMS)
              then print_colored ("WARNING: Unknown platform " ++ platform_name)
                                 Colors.YELLOW
              else ret tt) w) in
      match build_for_platform platform_name version build_dir assets_dir w1
      with
      | (Ret ok, w2) =>
          Ret ok :: loop_outcomes version build_dir assets_dir rest w2
      | (o, _) => [o]
      end
  end.

(** [main()], after [argparse] has produced [args.version] and
    [args.platforms]. *)
Definition main (version : string) (platforms : list string) : M node Z :=
  repo_root <- find_repo_root ;;
  let build_dir := path_join repo_root ["bin"; "Release"; "net9.0"] in
  let assets_dir := path_join repo_root ["release-assets"] in
  makedirs assets_dir ;;;
  print_colored ("Verifying build assets for version " ++ version)
                Colors.YELLOW ;;;
  success <- platform_loop version build_dir assets_dir true platforms ;;
  if success then
    print_colored (nl ++ "All build assets verified successfully!")
                  Colors.GREEN ;;;
    print ("Release assets are available in: " ++ assets_dir) ;;;
    items <- listdir assets_dir ;;
    for_each items (fun item => print ("  " ++ item)) ;;;
    ret 0
  else
    print_colored (nl ++ "Verification failed for one or more platforms")
                  Colors.RED ;;;
    ret 1.

(** The exit status of the process, [sys.exit(main())]. *)
Definition run (version : string) (platforms : list string)
    (w : world node) : Z :=
  exit_code (fst (main version platforms w)).

End Script.

End VerifyBuild.

(* ================================================================== *)
(** * scripts/verify_docker.py *)
(* ================================================================== *)

Module VerifyDocker.

Module Colors.
Definition RED : string := esc ++ "[0;31m".
Definition GREEN : string := esc ++ "[0;32m".
Definition YELLOW : string := esc ++ "[0;33m".
Definition BLUE : string := esc ++ "[0;34m".
Definition NC : string := esc ++ "[0m".
End Colors.

Definition print_colored {E} (message color : string) : M E unit :=
  print (color ++ message ++ Colors.NC).

(** ** Decoded JSON

    What [json.loads] returns.  Numbers are integers, as in the inspect
    output of the container runtime; the members of an object are the items
    of the Python dict, keys distinct, in insertion order. *)
Inductive json : Type :=
| JNull
| JBool (b : bool)
| JInt (n : Z)
| JString (s : string)
| JArray (items : list json)
| JObject (members : list (string * json)).

(** Truth value of a decoded value ([if not image_info]). *)
Definition truthy (j : json) : bool :=
  match j with
  | JNull => false
  | JBool b => b
  | JInt n => negb (n =? 0)
  | JString s => negb (String.eqb s "")
  | JArray items => match items with [] => false | _ :: _ => true end
  | JObject members => match members with [] => false | _ :: _ => true end
  end.

Fixpoint assoc (key : string) (members : list (string * json)) : option json :=
  match members with
  | [] => None
  | (k, v) :: rest => if String.eqb k key then Some v else assoc key rest
  end.

(** [j[0]] *)
Definition item0 {E} (j : json) : M E json :=
  match j with
  | JArray (x :: _) => ret x
  | JArray [] => raise IndexError
  | JString (String c _) => ret (JString (String c ""))
  | JString EmptyString => raise IndexError
  | JObject _ => raise KeyError
  | JNull | JBool _ | JInt _ => raise TypeError
  end.

(** [j[key]] for a string key. *)
Definition getitem {E} (j : json) (key : string) : M E json :=
  match j with
  | JObject members =>
      match assoc key members with
      | Some v => ret v
      | None => raise KeyError
      end
  | _ => raise TypeError
  end.

(** [j.get(key, default)] *)
Definition get {E} (j : json) (key : string) (default : json) : M E json :=
  match j with
  | JObject members =>
      match assoc key members with
      | Some v => ret v
      | None => ret default
      end
  | _ => raise AttributeError
  end.

(** [j.items()] *)
Definition items {E} (j : json) : M E (list (string * json)) :=
  match j with
  | JObject members => ret members
  | _ => raise AttributeError
  end.

(** The two commands of the final teardown. *)
Definition stop_command (container_name : string) : list string :=
  ["docker"; "stop"; container_name].
Definition rm_command (container_name : string) : list string :=
  ["docker"; "rm"; container_name].

(** The events of [print(message)] and [print_colored(message, color)]. *)
Definition line (message : string) : event := Out (message ++ nl).
Definition colored (message color : string) : event :=
  Out ((color ++ message ++ Colors.NC) ++ nl).

(** What the teardown adds to the trace. *)
Definition cleanup_events (container_name : string) (keep_container : bool)
  : list event :=
  (if keep_container then
     [colored ("Keeping container running: " ++ container_name) Colors.YELLOW]
   else
     [colored ("Stopping and removing container: " ++ container_name)
              Colors.YELLOW;
      Run (stop_command container_name);
      Run (rm_command container_name)])
  ++ [colored "Verification complete." Colors.GREEN].

(** What the teardown adds to the trace when the container is not kept and
    the [docker] program cannot be started: the attempt to stop the
    container is the last thing that happens. *)
Definition aborted_cleanup_events (container_name : string) : list event :=
  [colored ("Stopping and removing container: " ++ container_name)
           Colors.YELLOW;
   Run (stop_command container_name)].

Section Script.

(** The state of the host and of the container runtime. *)
Variable R : Type.

(** An external command: the argument vector and the current state give the
    finished process and the next state. *)
Variable runtime : list string -> R -> completed * R.

(** The programs the host cannot start, by the name given as [argv[0]]. *)
Variable launch : string -> option launch_error.

(** What [secs] seconds of waiting do to the state. *)
Variable wait : Z -> R -> R.

(** [os.makedirs(path, exist_ok=True)] on the host. *)
Variable host_makedirs : string -> R -> option exn * R.

(** [json.loads]; [None] stands for a [JSONDecodeError]. *)
Variable json_loads : string -> option json.

(** [os.path.abspath]. *)
Variable abspath : string -> string.

(** Text that belongs to the Python runtime: [str(e)] of an exception,
    [str(v)] of a decoded list or dict, and [f"{n / (1024*1024):.2f}"]. *)
Variable str_of_exn : exn -> string.
Variable repr_container : json -> string.
Variable format_mb : Z -> string.

(** [str(v)], as an f-string prints a decoded value. *)
Definition py_str (v : json) : string :=
  match v with
  | JNull => "None"
  | JBool true => "True"
  | JBool false => "False"
  | JInt n => str_of_Z n
  | JString s => s
  | JArray _ | JObject _ => repr_container v
  end.

(** [subprocess.run(command, capture_output=capture_output, text=True,
    check=check)]; the process is created from [command[0]]. *)
Definition subprocess_run (command : list string)
    (capture_output check : bool) : M R completed :=
  emit (Run command) ;;;
  match command with
  | [] => raise IndexError
  | program :: _ =>
      match launch program with
      | Some why => raise (launch_exception why)
      | None =>
          st <- get_env ;;
          let r := runtime command st in
          set_env (snd r) ;;;
          let result :=
            if capture_output then fst r
            else Completed (returncode (fst r)) "" "" in
          if check && negb (returncode result =? 0)
          then raise (CalledProcessError result)
          else ret result
      end
  end.

(** [time.sleep(secs)] *)
Definition sleep (secs : Z) : M R unit :=
  emit (Sleep secs) ;;;
  st <- get_env ;;
  set_env (wait secs st).

(** [os.makedirs(path, exist_ok=True)] *)
Definition makedirs (path : string) : M R unit :=
  emit (Makedirs path) ;;;
  st <- get_env ;;
  let r := host_makedirs path st in
  set_env (snd r) ;;;
  match fst r with
  | Some e => raise e
  | None => ret tt
  end.

(** [run_command(command, check=True, capture_output=True)]; the handler
    returns the exception object in place of the result when [check] is
    false. *)
Definition run_command (command : list string)
    (check capture_output : bool) : M R completed :=
  try_except is_CalledProcessError
    (subprocess_run command capture_output check)
    (fun e =>
       let p := match e with
                | CalledProcessError p => p
                | _ => Completed 0 "" ""
                end in
       print_colored ("Error running command: " ++ str_join " " command)
                     Colors.RED ;;;
       print ("Exit code: " ++ str_of_Z (returncode p)) ;;;
       (if negb (String.eqb (stdout p) "")
        then print ("STDOUT: " ++ stdout p) else ret tt) ;;;
       (if negb (String.eqb (stderr p) "")
        then print ("STDERR: " ++ stderr p) else ret tt) ;;;
       if check then sys_exit 1 else ret p).

(** [check_docker_running()] *)
Definition check_docker_running : M R unit :=
  print_colored "Checking if Docker is running..." Colors.YELLOW ;;;
  result <- run_command ["docker"; "info"] false true ;;
  (if negb (returncode result =? 0) then
     print_colored "Docker is not running. Starting Docker..."
                   Colors.YELLOW ;;;
     run_command ["sudo"; "dockerd"; ">"; "/tmp/docker.log"; "2>&1"; "&"]
                 false false ;;;
     print "Waiting for Docker to start..." ;;;
     sleep 5 ;;;
     result <- run_command ["docker"; "info"] false true ;;
     if negb (returncode result =? 0) then
       print_colored "Failed to start Docker. Please start it manually."
                     Colors.RED ;;;
       sys_exit 1
     else ret tt
   else ret tt) ;;;
  print_colored "Docker is running." Colors.GREEN.

(** [pull_docker_image(image_name)] *)
Definition pull_docker_image (image_name : string) : M R unit :=
  print_colored ("Pulling Docker image: " ++ image_name) Colors.YELLOW ;;;
  run_command ["docker"; "pull"; image_name] true true ;;;
  print_colored "Image pulled successfully." Colors.GREEN.

(** [size / (1024*1024)] formatted with [.2f]; only numbers divide. *)
Definition megabytes {E} (size : json) : M E string :=
  match size with
  | JInt n => ret (format_mb n)
  | JBool b => ret (format_mb (if b then 1 else 0))
  | _ => raise TypeError
  end.

(** [inspect_docker_image(image_name)] *)
Definition inspect_docker_image (image_name : string) : M R json :=
  print_colored ("Inspecting Docker image: " ++ image_name) Colors.YELLOW ;;;
  result <- run_command ["docker"; "inspect"; image_name] true true ;;
  image_info <- match json_loads (stdout result) with
                | Some j => ret j
                | None => raise JSONDecodeError
                end ;;
  if negb (truthy image_info) then
    print_colored "Failed to get image information." Colors.RED ;;;
    sys_exit 1
  else
    first <- item0 image_info ;;
    image_id <- getitem first "Id" ;;
    created <- getitem first "Created" ;;
    size <- getitem first "Size" ;;
    print ("Image ID: " ++ py_str image_id) ;;;
    print ("Created: " ++ py_str created) ;;;
    mb <- megabytes size ;;
    print ("Size: " ++ py_str size ++ " bytes (" ++ mb ++ " MB)") ;;;
    config <- get first "Config" (JObject []) ;;
    labels <- get config "Labels" (JObject []) ;;
    print (nl ++ "Image Labels:") ;;;
    pairs <- items labels ;;
    for_each pairs
      (fun kv => print ("  " ++ fst kv ++ ": " ++ py_str (snd kv))) ;;;
    ret image_info.

(** [run_docker_container(image_name, container_name, config_dir)] *)
Definition run_docker_container
    (image_name container_name config_dir : string) : M R string :=
  print_colored ("Running Docker container from image: " ++ image_name)
                Colors.YELLOW ;;;
  makedirs config_dir ;;;
  run_command ["docker"; "rm"; "-f"; container_name] false true ;;;
  result <- run_command
              ["docker"; "run"; "-d";
               "--name"; container_name;
               "-v"; config_dir ++ ":/app/config";
               image_name;
               "-auth-device-name"; "DockerTest"] true true ;;
  let container_id := strip (stdout result) in
  print_colored ("Container started with ID: " ++ container_id)
                Colors.GREEN ;;;
  ret container_id.

Definition error_patterns : list string :=
  ["Error:"; "Exception:"; "Failed:"; "Could not"; "Unhandled exception"].

(** [check_container_logs(container_name, timeout=10)] *)
Definition check_container_logs (container_name : string) (timeout : Z)
  : M R string :=
  print_colored ("Checking container logs (waiting up to "
                 ++ str_of_Z timeout ++ " seconds)...") Colors.YELLOW ;;;
  sleep 2 ;;;
  result <- run_command ["docker"; "logs"; container_name] true true ;;
  let logs := stdout result in
  print_colored "Container logs:" Colors.BLUE ;;;
  print logs ;;;
  for_each error_patterns
    (fun pattern =>
       if contains pattern logs then
         print_colored ("WARNING: Found potential error in logs: '"
                        ++ pattern ++ "'") Colors.YELLOW
       else ret tt) ;;;
  ret logs.

(** [cleanup(container_name, config_dir, keep_container)] *)
Definition cleanup (container_name config_dir : string)
    (keep_container : bool) : M R unit :=
  (if negb keep_container then
     print_colored ("Stopping and removing container: " ++ container_name)
                   Colors.YELLOW ;;;
     run_command (stop_command container_name) false true ;;;
     run_command (rm_command container_name) false true ;;;
     ret tt
   else
     print_colored ("Keeping container running: " ++ container_name)
                   Colors.YELLOW) ;;;
  print_colored "Verification complete." Colors.GREEN.

(** The statements of the [try] block of [main]. *)
Definition pipeline (image container_name config_dir : string) : M R Z :=
  check_docker_running ;;;
  pull_docker_image image ;;;
  image_info <- inspect_docker_image image ;;
  container_id <- run_docker_container image container_name config_dir ;;
  logs <- check_container_logs container_name 10 ;;
  print_colored (nl ++ "Docker image verification successful!")
                Colors.GREEN ;;;
  ret 0.

(** The four stages that precede the log scan. *)
Definition fatal_stages (image container_name config_dir : string)
  : M R string :=
  check_docker_running ;;;
  pull_docker_image image ;;;
  image_info <- inspect_docker_image image ;;
  run_docker_container image container_name config_dir.

(** [args.image] after [if not args.image: args.image = f"..."]. *)
Definition image_name (version : string) (image : option string) : string :=
  match image with
  | None | Some EmptyString =>
      "ghcr.io/thetechnetwork/plex-show-subtitles-on-rewind:" ++ version
  | Some name => name
  end.

(** [main()], after [argparse] has produced [args]. *)
Definition main (version : string) (image : option string)
    (container_name config_dir : string) (keep_container : bool) : M R Z :=
  let image := image_name version image in
  print_colored ("Verifying Docker image: " ++ image) Colors.YELLOW ;;;
  let config_dir := abspath config_dir in
  try_finally
    (try_except any_Exception
       (pipeline image container_name config_dir)
       (fun e =>
          print_colored ("Error during verification: " ++ str_of_exn e)
                        Colors.RED ;;;
          ret 1))
    (cleanup container_name config_dir keep_container).

(** The exit status of the process, [sys.exit(main())]. *)
Definition run (version : string) (image : option string)
    (container_name config_dir : string) (keep_container : bool)
    (w : world R) : Z :=
  exit_code (fst (main version image container_name config_dir
                       keep_container w)).

End Script.

(** What a failed command that was run with [check=True] makes
    [run_command] print before it exits. *)
Definition error_report (command : list string) (p : completed) : list event :=
  ([colored ("Error running command: " ++ str_join " " command) Colors.RED;
    line ("Exit code: " ++ str_of_Z (returncode p))]
   ++ (if negb (String.eqb (stdout p) "")
       then [line ("STDOUT: " ++ stdout p)] else [])
   ++ (if negb (String.eqb (stderr p) "")
       then [line ("STDERR: " ++ stderr p)] else []))%list.

(** The warnings of the log scan: one per pattern that occurs in the logs,
    in the order of [error_patterns]. *)
Definition log_warnings (logs : string) : list event :=
  map (fun pattern =>
         colored ("WARNING: Found potential error in logs: '"
                  ++ pattern ++ "'") Colors.YELLOW)
      (filter (fun pattern => contains pattern logs) error_patterns).

End VerifyDocker.

(* ================================================================== *)
(** * Concrete worlds used by the examples below *)
(* ================================================================== *)

Module Samples.

Import VerifyBuild.

(** A file of exactly the minimum size, without and with the execute bit. *)
Definition fs_minimum : node :=
  Dir [("a", File 1000000 420 Owner); ("b", File 1000000 493 Owner)].

(** Two files with the bits [0o654]: the owner may not execute them, the
    group may.  The superuser is asked about the first, the owner about the
    second. *)
Definition fs_group_executable : node :=
  Dir [("root", File 2000000 428 Superuser);
       ("mine", File 2000000 428 Owner)].

(** A host on which every program can be started, and a way of expanding
    directory patterns that finds nothing. *)
Definition installed (program : string) : option launch_error := None.
Definition no_patterns (fs : node) (pattern : string) : list string := [].

(** A checkout at [/repo] with nothing built yet. *)
Definition fs_repo : node := Dir [("repo", Dir [])].

(** A tool chain.  [git] prints the root of the checkout.  [dotnet publish]
    exits 0 after writing one executable of [size] bytes and permission bits
    [mode] to [bin/Release/<framework>/<platform>/publish] below the root. *)
Definition toolchain (framework : string) (size mode : Z)
    (command : list string) (fs : node) : completed * node :=
  match command with
  | ["git"; "rev-parse"; "--show-toplevel"] =>
      (Completed 0 ("/repo" ++ nl) "", fs)
  | "dotnet" :: "publish" :: "-c" :: "Release" :: "-r" :: platform_name :: _ =>
      let publish_dir :=
        "/repo/bin/Release/" ++ framework ++ "/" ++ platform_name
        ++ "/publish" in
      let name :=
        PRODUCT
        ++ (if String.eqb platform_name "win-x64" then ".exe" else "") in
      match mkdirs fs (split_path publish_dir) with
      | inr fs1 =>
          match put fs1 (split_path (publish_dir ++ "/" ++ name))
                    (File size mode Owner) with
          | inr fs2 => (Completed 0 "" "", fs2)
          | inl _ => (Completed 1 "" "", fs)
          end
      | inl _ => (Completed 1 "" "", fs)
      end
  | _ => (Completed 127 "" "", fs)
  end.

(** A linux-x64 publish directory: a debug file that may not be executed,
    and the product one level down. *)
Definition fs_linux_publish : node :=
  Dir [("publish",
        Dir [("RewindSubtitleDisplayerForPlex.pdb", File 40000 420 Owner);
             ("native",
              Dir [("RewindSubtitleDisplayerForPlex",
                    File 2000000 493 Owner)])])].

(** A checkout in a directory named after the product, whose win-x64
    publish directory lists a helper program before the product. *)
Definition named_checkout_publish_dir : string :=
  "/RewindSubtitleDisplayerForPlex/bin/Release/net9.0/win-x64/publish".

Definition fs_named_checkout : node :=
  Dir [("RewindSubtitleDisplayerForPlex",
        Dir [("bin",
              Dir [("Release",
                    Dir [("net9.0",
                          Dir [("win-x64",
                                Dir [("publish",
                                      Dir [("createdump.exe",
                                            File 60000 493 Owner);
                                           ("RewindSubtitleDisplayerForPlex.exe",
                                            File 2000000 493 Owner)])])])])])])].

End Samples.

Module DockerSamples.

Import VerifyDocker.

(** The decoded inspect output of an image with one label. *)
Definition image_info : json :=
  JArray
    [JObject
       [("Id", JString "sha256:0f3c");
        ("Created", JString "2025-01-01T00:00:00Z");
        ("Size", JInt 104857600);
        ("Config",
         JObject
           [("Labels",
             JObject [("org.opencontainers.image.title", JString "plex")])])]].

(** A decoder that knows two texts: the inspect output above and an empty
    list. *)
Definition json_loads (text : string) : option json :=
  if String.eqb text "inspect-output" then Some image_info
  else if String.eqb text "empty-list" then Some (JArray [])
  else None.

(** A container runtime without state of its own: the return codes of
    [docker info], [docker pull] and [docker logs], the text printed by
    [docker inspect] and the logs of the container are given; every other
    command succeeds. *)
Definition runtime (info_rc pull_rc logs_rc : Z) (inspect_text logs : string)
    (command : list string) (st : unit) : completed * unit :=
  match command with
  | ["docker"; "info"] => (Completed info_rc "" "", st)
  | ["docker"; "pull"; _] => (Completed pull_rc "" "manifest unknown", st)
  | ["docker"; "inspect"; _] => (Completed 0 inspect_text "", st)
  | "docker" :: "run" :: _ => (Completed 0 ("4f2a9c" ++ nl) "", st)
  | ["docker"; "logs"; _] => (Completed logs_rc logs "", st)
  | _ => (Completed 0 "" "", st)
  end.

(** Every program can be started. *)
Definition installed (program : string) : option launch_error := None.

Definition wait (secs : Z) (st : unit) : unit := st.
Definition host_makedirs (path : string) (st : unit) : option exn * unit :=
  (None, st).
Definition abspath (path : string) : string := path.
Definition str_of_exn (e : exn) : string := "error".
Definition repr_container (v : json) : string := "...".
Definition format_mb (n : Z) : string := str_of_Z (n / 1048576) ++ ".00".

(** [main] and the exit status on such a runtime, for the default image,
    container name and configuration directory. *)
Definition main_on (info_rc pull_rc logs_rc : Z) (inspect_text logs : string)
    (keep_container : bool) : outcome Z * world unit :=
  main unit (runtime info_rc pull_rc logs_rc inspect_text logs) installed
       wait host_makedirs json_loads abspath str_of_exn repr_container
       format_mb "latest" None "plex-subtitles-test" "./docker-test-config"
       keep_container (World tt []).

End DockerSamples.

Module MoreSamples.

Import VerifyDocker.

(** Inspect outputs of an image without labels, as the runtime prints it
    ([Labels] is [null]), and of an image whose metadata lacks [Size]. *)
Definition unlabelled_image_info : json :=
  JArray
    [JObject
       [("Id", JString "sha256:0f3c");
        ("Created", JString "2025-01-01T00:00:00Z");
        ("Size", JInt 104857600);
        ("Config", JObject [("Labels", JNull)])]].

Definition sizeless_image_info : json :=
  JArray
    [JObject
       [("Id", JString "sha256:0f3c");
        ("Created", JString "2025-01-01T00:00:00Z")]].

Definition json_loads (text : string) : option json :=
  if String.eqb text "unlabelled" then Some unlabelled_image_info
  else if String.eqb text "sizeless" then Some sizeless_image_info
  else DockerSamples.json_loads text.

(** [main] on the runtime of [DockerSamples] with this decoder. *)
Definition main_on (info_rc pull_rc logs_rc : Z) (inspect_text logs : string)
    (keep_container : bool) : outcome Z * world unit :=
  main unit (DockerSamples.runtime info_rc pull_rc logs_rc inspect_text logs)
       DockerSamples.installed
       DockerSamples.wait DockerSamples.host_makedirs json_loads
       DockerSamples.abspath DockerSamples.str_of_exn
       DockerSamples.repr_container DockerSamples.format_mb
       "latest" None "plex-subtitles-test" "./docker-test-config"
       keep_container (World tt []).

(** A runtime that needs the start attempt: it answers [docker info] only
    after [sudo dockerd] has been run and some time has passed.  The state
    counts how far the start has come. *)
Definition starting_runtime (command : list string) (st : nat)
  : completed * nat :=
  match command with
  | ["docker"; "info"] =>
      (Completed (if Nat.leb 2 st then 0 else 1) "" "", st)
  | "sudo" :: "dockerd" :: _ => (Completed 0 "" "", 1%nat)
  | ["docker"; "pull"; _] => (Completed 0 "" "", st)
  | ["docker"; "inspect"; _] => (Completed 0 "inspect-output" "", st)
  | "docker" :: "run" :: _ => (Completed 0 ("4f2a9c" ++ nl) "", st)
  | _ => (Completed 0 "" "", st)
  end.

Definition starting_wait (secs : Z) (st : nat) : nat :=
  match st with
  | 1%nat => 2%nat
  | _ => st
  end.

(** A host on which the configuration directory cannot be created. *)
Definition failing_makedirs (path : string) (st : unit) : option exn * unit :=
  (Some FileExistsError, st).

(** A host without the [docker] program, and one that has [docker] but
    not [sudo]. *)
Definition without_docker (program : string) : option launch_error :=
  if String.eqb program "docker" then Some NotInstalled else None.

Definition without_sudo (program : string) : option launch_error :=
  if String.eqb program "sudo" then Some NotInstalled else None.

(** [main] on the runtime of [DockerSamples], started with these
    programs. *)
Definition main_with (launch : string -> option launch_error)
    (info_rc pull_rc logs_rc : Z) (inspect_text logs : string)
    (keep_container : bool) : outcome Z * world unit :=
  main unit (DockerSamples.runtime info_rc pull_rc logs_rc inspect_text logs)
       launch DockerSamples.wait DockerSamples.host_makedirs
       DockerSamples.json_loads DockerSamples.abspath
       DockerSamples.str_of_exn DockerSamples.repr_container
       DockerSamples.format_mb "latest" None "plex-subtitles-test"
       "./docker-test-config" keep_container (World tt []).

End MoreSamples.

Module BuildSamples.

Import VerifyBuild.

(** A checkout at [/repo] whose release-assets directory exists. *)
Definition fs_ready : node :=
  Dir [("repo", Dir [("release-assets", Dir [])])].

(** A tool chain whose [dotnet publish] fails. *)
Definition failing_toolchain (command : list string) (fs : node)
  : completed * node :=
  match command with
  | ["git"; "rev-parse"; "--show-toplevel"] =>
      (Completed 0 ("/repo" ++ nl) "", fs)
  | _ => (Completed 1 "" "", fs)
  end.

(** No tool works: the directory is not a git repository. *)
Definition no_repository (command : list string) (fs : node)
  : completed * node :=
  (Completed 128 "" "fatal: not a git repository", fs).

(** A tool chain that exits 0 without writing anything, and a checkout
    whose linux-x64 publish directory holds only notes. *)
Definition idle_toolchain (command : list string) (fs : node)
  : completed * node :=
  (Completed 0 "" "", fs).

Definition fs_stale_publish : node :=
  Dir [("repo",
        Dir [("bin",
              Dir [("Release",
                    Dir [("net9.0",
                          Dir [("linux-x64",
                                Dir [("publish",
                                      Dir [("notes.txt", File 10 420 Owner);
                                           ("logs", Dir [])])])])])])])].


End BuildSamples.

(* ================================================================== *)
(** * Properties of the build verifier *)
(* ================================================================== *)

Import VerifyBuild.

(** ** Validation of a copied artifact *)

(** Symbolic execution of the monadic primitives: the script's control
    flow reduces, the primitives on data stay folded. *)
#[local] Arguments Z.testbit : simpl never.
#[local] Arguments Z.ltb : simpl never.
#[local] Arguments Z.leb : simpl never.
#[local] Arguments Z.eqb : simpl never.
#[local] Arguments String.eqb : simpl never.
#[local] Arguments String.append : simpl never.
#[local] Arguments lookup : simpl never.
#[local] Arguments join2 : simpl never.
#[local] Arguments path_join : simpl never.
#[local] Arguments split_path : simpl never.
#[local] Arguments contains : simpl never.
#[local] Arguments startswith : simpl never.
#[local] Arguments endswith : simpl never.
#[local] Arguments str_of_Z : simpl never.
#[local] Arguments find_executable : simpl never.

Ltac py_step :=
  repeat
    (progress
       (unfold bind, ret, emit, get_env, set_env, raise, sys_exit, print,
          print_no_newline, VerifyBuild.print_colored,
          VerifyDocker.print_colored, try_except, try_finally;
        cbn [fst snd env trace negb andb orb
             is_CalledProcessError any_Exception])).

(** What [check_executable] computes, as a function of what the path
    names: it always returns, and the answer is the conjunction of the three
    checks. *)
Lemma check_executable_value (fs : node) (tr : list event)
    (file_path platform_name : string) :
  fst (check_executable file_path platform_name (World fs tr)) =
  Ret (match lookup fs file_path with
       | Some (File size mode who) =>
           (MIN_FILE_SIZE <=? size)
           && (String.eqb platform_name "win-x64" || permits who mode X_OK)
       | _ => false
       end).
Proof.
  unfold check_executable, getsize, isfile, os_access_X. py_step.
  destruct (lookup fs file_path) as [[size mode who | es] | ] eqn:L;
    py_step; try reflexivity.
  rewrite L. py_step.
  destruct (Z.ltb_spec size MIN_FILE_SIZE) as [S | S]; py_step.
  - replace (MIN_FILE_SIZE <=? size) with false by lia. reflexivity.
  - replace (MIN_FILE_SIZE <=? size) with true by lia.
    destruct (String.eqb platform_name "win-x64"); py_step; [reflexivity | ].
    destruct (permits who mode X_OK); reflexivity.
Qed.

(** [check_executable] never changes the file system. *)
Lemma check_executable_env (w : world node)
    (file_path platform_name : string) :
  env (snd (check_executable file_path platform_name w)) = env w.
Proof.
  destruct w as [fs tr].
  unfold check_executable, getsize, isfile, os_access_X. py_step.
  destruct (lookup fs file_path) as [[size mode who | es] | ] eqn:L;
    py_step; try reflexivity.
  rewrite L. py_step.
  destruct (size <? MIN_FILE_SIZE); py_step; [reflexivity | ].
  destruct (negb (String.eqb platform_name "win-x64")
            && negb (permits who mode X_OK));
    reflexivity.
Qed.

(** What [os.access(_, X_OK)] reads for a regular file. *)
Lemma os_access_X_file (fs : node) (path : string) (size mode : Z)
    (who : accessor) :
  lookup fs path = Some (File size mode who) ->
  os_access_X fs path
  = match who with
    | Owner => Z.testbit mode 6
    | Group => Z.testbit mode 3
    | Others => Z.testbit mode 0
    | Superuser => Z.testbit mode 6 || Z.testbit mode 3 || Z.testbit mode 0
    end.
Proof.
  intros L. unfold os_access_X. rewrite L. destruct who; reflexivity.
Qed.

(** C4 (as stated): the claim asks for a size that exceeds the threshold
    and for the executable permission bit of the file.  A file of exactly
    [MIN_FILE_SIZE] bytes is accepted, so the claim read with a strict
    comparison is false.  And what the code asks is whether the calling
    process may execute the file: for the superuser a file passes whose
    owner may not execute it, and for its owner a file fails that carries
    an execute bit, the one of the group; so the claim is false both when
    its permission bit is read as the bit of the owner and when it is read
    as any of the three execute bits. *)
Lemma check_executable_accepts_minimum_size :
  ~ (forall (fs : node) (tr : list event) (file_path platform_name : string),
        fst (check_executable file_path platform_name (World fs tr)) = Ret true
        <->
        exists size mode who,
          lookup fs file_path = Some (File size mode who)
          /\ MIN_FILE_SIZE < size
          /\ (platform_name <> "win-x64" -> Z.testbit mode X_BIT = true))
  /\ ~ (forall (fs : node) (tr : list event)
               (file_path platform_name : string),
           fst (check_executable file_path platform_name (World fs tr))
           = Ret true
           <->
           exists size mode who,
             lookup fs file_path = Some (File size mode who)
             /\ MIN_FILE_SIZE <= size
             /\ (platform_name <> "win-x64" -> Z.testbit mode X_BIT = true))
  /\ ~ (forall (fs : node) (tr : list event)
               (file_path platform_name : string),
           fst (check_executable file_path platform_name (World fs tr))
           = Ret true
           <->
           exists size mode who,
             lookup fs file_path = Some (File size mode who)
             /\ MIN_FILE_SIZE <= size
             /\ (platform_name <> "win-x64" ->
                 Z.testbit mode 6 || Z.testbit mode 3 || Z.testbit mode 0
                 = true)).
Proof.
  split; [ | split].
  - intros claim.
    destruct (claim Samples.fs_minimum [] "/b" "linux-x64") as [to_spec _].
    destruct to_spec as (size & mode & who & L & S & _).
    + rewrite check_executable_value. reflexivity.
    + vm_compute in L. injection L as <- <- <-. vm_compute in S.
      discriminate.
  - intros claim.
    destruct (claim Samples.fs_group_executable [] "/root" "linux-x64")
      as [to_spec _].
    destruct to_spec as (size & mode & who & L & _ & X).
    + rewrite check_executable_value. reflexivity.
    + vm_compute in L. injection L as <- <- <-.
      assert ("linux-x64" <> "win-x64") as NW by discriminate.
      specialize (X NW). vm_compute in X. discriminate X.
  - intros claim.
    destruct (claim Samples.fs_group_executable [] "/mine" "linux-x64")
      as [_ to_code].
    rewrite check_executable_value in to_code.
    assert (Ret false = Ret true :> outcome bool) as Absurd.
    { apply to_code. exists 2000000, 428, Owner.
      split; [reflexivity | ]. split; [discriminate | ].
      intros _. reflexivity. }
    discriminate Absurd.
Qed.

(** C4 (amended): [check_executable] always returns, and it reports success
    exactly when the path names a regular file of at least [MIN_FILE_SIZE]
    bytes that, unless the platform is win-x64, the calling process may
    execute: [os.access] reads the execute bit of the class of the process
    for the file, and for the superuser any of the three execute bits.  So
    a file below the threshold fails on every platform, and a non-Windows
    file that may not be executed fails whatever its size. *)
Theorem check_executable_iff :
  forall (fs : node) (tr : list event) (file_path platform_name : string),
    (exists ok,
        fst (check_executable file_path platform_name (World fs tr)) = Ret ok)
    /\ (fst (check_executable file_path platform_name (World fs tr)) = Ret true
        <->
        exists size mode who,
          lookup fs file_path = Some (File size mode who)
          /\ MIN_FILE_SIZE <= size
          /\ (platform_name <> "win-x64" -> os_access_X fs file_path = true))
    /\ (forall size mode who,
          lookup fs file_path = Some (File size mode who) ->
          os_access_X fs file_path
          = match who with
            | Owner => Z.testbit mode 6
            | Group => Z.testbit mode 3
            | Others => Z.testbit mode 0
            | Superuser =>
                Z.testbit mode 6 || Z.testbit mode 3 || Z.testbit mode 0
            end)
    /\ (forall size mode who,
          lookup fs file_path = Some (File size mode who) ->
          size < MIN_FILE_SIZE ->
          fst (check_executable file_path platform_name (World fs tr))
          = Ret false)
    /\ (forall size mode who,
          lookup fs file_path = Some (File size mode who) ->
          platform_name <> "win-x64" ->
          os_access_X fs file_path = false ->
          fst (check_executable file_path platform_name (World fs tr))
          = Ret false).
Proof.
  intros fs tr file_path platform_name.
  rewrite check_executable_value.
  split; [eexists; reflexivity | ].
  split; [ | split; [ | split]].
  - unfold os_access_X. split.
    + intros H. injection H as H.
      destruct (lookup fs file_path) as [[size mode who | es] | ];
        try discriminate.
      apply andb_true_iff in H as [S X].
      exists size, mode, who. split; [reflexivity | ]. split; [lia | ].
      intros NW. apply orb_true_iff in X as [X | X]; [ | exact X].
      apply String.eqb_eq in X. contradiction.
    + intros (size & mode & who & L & S & X). rewrite L in X |- *.
      replace (MIN_FILE_SIZE <=? size) with true by lia.
      destruct (String.eqb_spec platform_name "win-x64") as [-> | NW];
        [reflexivity | ].
      rewrite (X NW). reflexivity.
  - intros size mode who L. apply (os_access_X_file fs file_path size). exact L.
  - intros size mode who -> S.
    replace (MIN_FILE_SIZE <=? size) with false by lia. reflexivity.
  - intros size mode who L NW X. unfold os_access_X in X. rewrite L in X |- *.
    rewrite X.
    destruct (String.eqb_spec platform_name "win-x64") as [-> | _];
      [contradiction | ].
    rewrite andb_false_r. reflexivity.
Qed.

(** ** What a computation can add to the trace *)

Section Emits.

Context {E : Type} (P : event -> Prop).

Lemma emits_ret {A} (a : A) : emits P (ret a : M E A).
Proof. intros w. exists []. cbn. rewrite app_nil_r. auto. Qed.

Lemma emits_raise {A} (e : exn) : emits P (raise e : M E A).
Proof. intros w. exists []. cbn. rewrite app_nil_r. auto. Qed.

Lemma emits_sys_exit {A} (c : Z) : emits P (sys_exit c : M E A).
Proof. intros w. exists []. cbn. rewrite app_nil_r. auto. Qed.

Lemma emits_get_env : emits P (get_env : M E E).
Proof. intros w. exists []. cbn. rewrite app_nil_r. auto. Qed.

Lemma emits_set_env (e : E) : emits P (set_env e).
Proof. intros w. exists []. cbn. rewrite app_nil_r. auto. Qed.

Lemma emits_emit (ev : event) : P ev -> emits P (emit ev : M E unit).
Proof. intros H w. exists [ev]. cbn. auto. Qed.

Lemma emits_bind {A B} (m : M E A) (k : A -> M E B) :
  emits P m -> (forall a, emits P (k a)) -> emits P (bind m k).
Proof.
  intros Hm Hk w. unfold bind.
  destruct (Hm w) as (evs1 & T1 & F1).
  destruct (m w) as [[a | e | c] w1]; cbn in T1 |- *.
  - destruct (Hk a w1) as (evs2 & T2 & F2).
    exists (evs1 ++ evs2)%list. rewrite T2, T1, app_assoc.
    split; [reflexivity | apply Forall_app; auto].
  - exists evs1. auto.
  - exists evs1. auto.
Qed.

Lemma emits_try_except {A} (catches : exn -> bool) (body : M E A)
    (handler : exn -> M E A) :
  emits P body -> (forall e, emits P (handler e)) ->
  emits P (try_except catches body handler).
Proof.
  intros Hb Hh w. unfold try_except.
  destruct (Hb w) as (evs1 & T1 & F1).
  destruct (body w) as [[a | e | c] w1]; cbn in T1 |- *;
    try (exists evs1; auto; fail).
  destruct (catches e); [ | exists evs1; auto].
  destruct (Hh e w1) as (evs2 & T2 & F2).
  exists (evs1 ++ evs2)%list. rewrite T2, T1, app_assoc.
  split; [reflexivity | apply Forall_app; auto].
Qed.

Lemma emits_try_finally {A} (body : M E A) (fin : M E unit) :
  emits P body -> emits P fin -> emits P (try_finally body fin).
Proof.
  intros Hb Hf w. unfold try_finally.
  destruct (Hb w) as (evs1 & T1 & F1).
  destruct (body w) as [o w1]; cbn in T1.
  destruct (Hf w1) as (evs2 & T2 & F2).
  exists (evs1 ++ evs2)%list.
  destruct (fin w1) as [[[] | e | c] w2]; cbn in T2 |- *;
    rewrite T2, T1, app_assoc;
    (split; [reflexivity | apply Forall_app; auto]).
Qed.

Lemma emits_for_each {A} (l : list A) (body : A -> M E unit) :
  (forall a, emits P (body a)) -> emits P (for_each l body).
Proof.
  intros Hb. induction l as [ | a l IH]; cbn [for_each].
  - apply emits_ret.
  - apply emits_bind; auto.
Qed.

Lemma emits_print (message : string) :
  P (Out (message ++ nl)) -> emits P (print message : M E unit).
Proof. intros H. apply emits_emit, H. Qed.

(** A weaker property of the events is emitted as well. *)
Lemma emits_weaken {A} (Q : event -> Prop) (m : M E A) :
  (forall ev, Q ev -> P ev) -> emits Q m -> emits P m.
Proof.
  intros QP Hm w. destruct (Hm w) as (evs & T & F).
  exists evs. split; [exact T | ].
  eapply Forall_impl; [exact QP | exact F].
Qed.

End Emits.

(** Decompose a computation along its control flow, leaving one goal per
    emitted event. *)
Ltac emits_split :=
  repeat
    first
      [ apply emits_ret | apply emits_raise | apply emits_sys_exit
      | apply emits_get_env | apply emits_set_env
      | apply emits_bind; [ | intros ]
      | apply emits_try_except; [ | intros ]
      | apply emits_try_finally
      | apply emits_for_each; intros
      | apply emits_print
      | apply emits_emit
      | match goal with
        | |- emits _ (let _ := _ in _) => cbv zeta
        | |- emits _ (if ?c then _ else _) => destruct c
        | |- emits _ (match ?x with _ => _ end) => destruct x
        end ].

(** ** Effects of one platform's build *)

(** What [build_for_platform] does to the outside: it runs the publish
    command for its platform, copies only to the versioned target name, and
    changes permission bits only of that target, only to [0o755], and only
    when the platform is not win-x64. *)
Lemma build_for_platform_effects
    (system : list string -> node -> completed * node)
    (launch : string -> option launch_error)
    (glob_dirs : node -> string -> list string)
    (platform_name version build_dir assets_dir : string) :
  emits
    (fun ev =>
       match ev with
       | Out _ => True
       | Run command => command = publish_command platform_name version
       | Copy2 _ dst =>
           dst = path_join assets_dir [target_name version platform_name]
       | Chmod path mode =>
           platform_name <> "win-x64"
           /\ path = path_join assets_dir [target_name version platform_name]
           /\ mode = 493
       | Sleep _ | Makedirs _ => False
       end)
    (build_for_platform system launch glob_dirs platform_name version
                        build_dir assets_dir).
Proof.
  unfold build_for_platform, subprocess_run, copy2, chmod, check_executable,
    getsize, listdir, print_colored, print_no_newline.
  destruct (String.eqb_spec platform_name "win-x64") as [W | W];
    cbn [negb]; emits_split; auto.
Qed.

Lemma bind_Ret {E A B} (m : M E A) (k : A -> M E B) (w w' : world E) (b : B) :
  bind m k w = (Ret b, w') ->
  exists a w1, m w = (Ret a, w1) /\ k a w1 = (Ret b, w').
Proof.
  unfold bind. destruct (m w) as [[a | e | c] w1]; intros H;
    try discriminate H.
  exists a, w1. auto.
Qed.

Lemma bind_assoc {E A B C} (m : M E A) (k : A -> M E B) (h : B -> M E C)
    (w : world E) :
  bind (bind m k) h w = bind m (fun a => bind (k a) h) w.
Proof.
  unfold bind. destruct (m w) as [[a | e | c] w1]; reflexivity.
Qed.

Lemma bind_ext {E A B} (m : M E A) (k k' : A -> M E B) (w : world E) :
  (forall a w1, k a w1 = k' a w1) -> bind m k w = bind m k' w.
Proof.
  intros H. unfold bind. destruct (m w) as [[a | e | c] w1]; auto.
Qed.

(** How [bind] and [try_except] continue from a known outcome. *)
Lemma bind_of_Ret {E A B} (m : M E A) (k : A -> M E B) (w w1 : world E)
    (a : A) :
  m w = (Ret a, w1) -> bind m k w = k a w1.
Proof. intros H. unfold bind. rewrite H. reflexivity. Qed.

Lemma bind_of_Raise {E A B} (m : M E A) (k : A -> M E B) (w w1 : world E)
    (e : exn) :
  m w = (Raise e, w1) -> bind m k w = (Raise e, w1).
Proof. intros H. unfold bind. rewrite H. reflexivity. Qed.

Lemma bind_of_SysExit {E A B} (m : M E A) (k : A -> M E B) (w w1 : world E)
    (c : Z) :
  m w = (SysExit c, w1) -> bind m k w = (SysExit c, w1).
Proof. intros H. unfold bind. rewrite H. reflexivity. Qed.


Lemma try_except_of_Raise {E A} (catches : exn -> bool) (body : M E A)
    (handler : exn -> M E A) (w w1 : world E) (e : exn) :
  body w = (Raise e, w1) -> catches e = true ->
  try_except catches body handler w = handler e w1.
Proof. intros H C. unfold try_except. rewrite H, C. reflexivity. Qed.

Lemma try_except_of_SysExit {E A} (catches : exn -> bool) (body : M E A)
    (handler : exn -> M E A) (w w1 : world E) (c : Z) :
  body w = (SysExit c, w1) ->
  try_except catches body handler w = (SysExit c, w1).
Proof. intros H. unfold try_except. rewrite H. reflexivity. Qed.

(** Invert a chain of [bind]s that ended in a normal return. *)
Ltac bind_inv H :=
  repeat
    match type of H with
    | bind _ _ _ = (Ret _, _) =>
        let a := fresh "a" in
        let w := fresh "w" in
        let Hm := fresh "Hm" in
        apply bind_Ret in H as (a & w & Hm & H)
    end.

(** A successful [build_for_platform] ends with a successful
    [check_executable] of the versioned target. *)
Lemma build_for_platform_true
    (system : list string -> node -> completed * node)
    (launch : string -> option launch_error)
    (glob_dirs : node -> string -> list string)
    (platform_name version build_dir assets_dir : string) (w w' : world node) :
  build_for_platform system launch glob_dirs platform_name version build_dir
                     assets_dir w
  = (Ret true, w') ->
  exists w3,
    check_executable
      (path_join assets_dir [target_name version platform_name])
      platform_name w3 = (Ret true, w').
Proof.
  unfold build_for_platform. intros H.
  bind_inv H.
  match type of H with
  | (if negb ?built then _ else _) _ = _ =>
      destruct built; cbn [negb] in H; [ | discriminate H]
  end.
  bind_inv H.
  match type of H with
  | context [find_executable ?fs ?dir ?p] =>
      destruct (find_executable fs dir p) as [[ | c s] | ]
  end;
    bind_inv H; try discriminate H.
  eauto.
Qed.

(** When [build_for_platform] succeeds, the release-assets directory holds
    a regular file under the versioned target name. *)
Lemma build_for_platform_true_target
    (system : list string -> node -> completed * node)
    (launch : string -> option launch_error)
    (glob_dirs : node -> string -> list string)
    (platform_name version build_dir assets_dir : string) (w w' : world node) :
  build_for_platform system launch glob_dirs platform_name version build_dir
                     assets_dir w
  = (Ret true, w') ->
  exists size mode who,
    lookup (env w') (path_join assets_dir [target_name version platform_name])
    = Some (File size mode who)
    /\ MIN_FILE_SIZE <= size.
Proof.
  intros H. apply build_for_platform_true in H as [[fs tr] H].
  pose proof (check_executable_env (World fs tr)
                (path_join assets_dir [target_name version platform_name])
                platform_name) as Henv.
  pose proof (check_executable_value fs tr
                (path_join assets_dir [target_name version platform_name])
                platform_name) as Hval.
  rewrite H in Henv, Hval. cbn [fst snd env] in Henv, Hval.
  rewrite Henv.
  destruct (lookup fs _) as [[size mode who | es] | ]; try discriminate Hval.
  injection Hval as Hval. symmetry in Hval.
  apply andb_true_iff in Hval as [S _].
  exists size, mode, who. split; [reflexivity | lia].
Qed.

(** C9: for version 1.2.3 the copies are named
    [RewindSubtitleDisplayerForPlex_1.2.3_win-x64.exe] and
    [RewindSubtitleDisplayerForPlex_1.2.3_linux-x64]; in general the name is
    the product name, the version and the platform joined by underscores,
    followed by [.exe] exactly when the platform is win-x64.  Every copy
    [build_for_platform] makes goes to that name in the release-assets
    directory, a successful build leaves a regular file there, and on a
    tool chain that builds both platforms the run ends with both files in
    [/repo/release-assets]. *)
Theorem target_name_embeds_version_and_platform :
  target_name "1.2.3" "win-x64"
  = "RewindSubtitleDisplayerForPlex_1.2.3_win-x64.exe"
  /\ target_name "1.2.3" "linux-x64"
     = "RewindSubtitleDisplayerForPlex_1.2.3_linux-x64"
  /\ (forall version platform_name,
        exists ext,
          target_name version platform_name
          = "RewindSubtitleDisplayerForPlex_" ++ version ++ "_"
            ++ platform_name ++ ext
          /\ (platform_name = "win-x64" -> ext = ".exe")
          /\ (platform_name <> "win-x64" -> ext = ""))
  /\ (forall system launch glob_dirs version platform_name build_dir
             assets_dir,
        emits
          (fun ev =>
             forall src dst,
               ev = Copy2 src dst ->
               dst = path_join assets_dir [target_name version platform_name])
          (build_for_platform system launch glob_dirs platform_name version
                              build_dir assets_dir))
  /\ (forall system launch glob_dirs version platform_name build_dir
             assets_dir w w',
        build_for_platform system launch glob_dirs platform_name version
                           build_dir assets_dir w
        = (Ret true, w') ->
        exists size mode who,
          lookup (env w')
                 (path_join assets_dir [target_name version platform_name])
          = Some (File size mode who))
  /\ (let r := main (Samples.toolchain "net9.0" 2000000 493)
                    Samples.installed Samples.no_patterns "1.2.3"
                    ["win-x64"; "linux-x64"] (World Samples.fs_repo []) in
      fst r = Ret 0
      /\ lookup (env (snd r))
           "/repo/release-assets/RewindSubtitleDisplayerForPlex_1.2.3_win-x64.exe"
         = Some (File 2000000 493 Owner)
      /\ lookup (env (snd r))
           "/repo/release-assets/RewindSubtitleDisplayerForPlex_1.2.3_linux-x64"
         = Some (File 2000000 493 Owner)).
Proof.
  split; [reflexivity | ]. split; [reflexivity | ].
  split.
  { intros version platform_name. unfold target_name.
    destruct (String.eqb_spec platform_name "win-x64") as [W | W].
    - exists ".exe". repeat split; auto. contradiction.
    - exists "". repeat split; auto. contradiction. }
  split.
  { intros. eapply emits_weaken; [ | apply build_for_platform_effects].
    intros ev Hev src dst ->. exact Hev. }
  split.
  { intros system launch glob_dirs version platform_name build_dir
      assets_dir w w' H.
    apply build_for_platform_true_target in H as (size & mode & who & L & _).
    eauto. }
  cbv zeta. split; [ | split]; vm_compute; reflexivity.
Qed.

(** C10: for win-x64 the execute bit plays no part.  [check_executable]
    accepts every regular file of at least [MIN_FILE_SIZE] bytes whatever
    its permission bits, [build_for_platform] never calls [chmod] for
    win-x64, and every [chmod] it does call is the one that makes the copy
    of another platform executable. *)
Theorem win_x64_ignores_the_execute_bit :
  forall (system : list string -> node -> completed * node)
         (launch : string -> option launch_error)
         (glob_dirs : node -> string -> list string)
         (version build_dir assets_dir : string),
    (forall fs tr file_path size mode who,
        lookup fs file_path = Some (File size mode who) ->
        MIN_FILE_SIZE <= size ->
        fst (check_executable file_path "win-x64" (World fs tr)) = Ret true)
    /\ emits (fun ev => forall path mode, ev <> Chmod path mode)
             (build_for_platform system launch glob_dirs "win-x64" version
                                 build_dir assets_dir)
    /\ (forall platform_name,
          emits
            (fun ev =>
               forall path mode,
                 ev = Chmod path mode ->
                 platform_name <> "win-x64"
                 /\ path = path_join assets_dir
                                     [target_name version platform_name]
                 /\ mode = 493)
            (build_for_platform system launch glob_dirs platform_name version
                                build_dir assets_dir)).
Proof.
  intros system launch glob_dirs version build_dir assets_dir.
  split; [ | split].
  - intros fs tr file_path size mode who L S.
    rewrite check_executable_value, L.
    replace (MIN_FILE_SIZE <=? size) with true by lia. reflexivity.
  - eapply emits_weaken; [ | apply build_for_platform_effects].
    intros ev Hev path mode ->. destruct Hev as [W _]. apply W. reflexivity.
  - intros platform_name.
    eapply emits_weaken; [ | apply build_for_platform_effects].
    intros ev Hev path mode ->. exact Hev.
Qed.

(** An instance of C10: a win-x64 file of the minimum size without any
    execute bit passes, and the same file fails for linux-x64. *)
Lemma win_x64_ignores_the_execute_bit_example :
  fst (check_executable "/a" "win-x64" (World Samples.fs_minimum [])) = Ret true
  /\ fst (check_executable "/a" "linux-x64" (World Samples.fs_minimum []))
     = Ret false.
Proof.
  split.
  - apply (proj1 (win_x64_ignores_the_execute_bit
                    (Samples.toolchain "net9.0" 0 0) Samples.installed
                    Samples.no_patterns "" "" "")
             Samples.fs_minimum [] "/a" 1000000 420 Owner);
      [reflexivity | discriminate].
  - reflexivity.
Defined.

(** ** The first events of a computation *)

Section Begins.

Context {E : Type}.

Lemma begins_nil {A} (m : M E A) : emits (fun _ => True) m -> begins [] m.
Proof.
  intros Hm w. destruct (Hm w) as (evs & T & _). exists evs. exact T.
Qed.

Lemma begins_emit_bind {B} (ev : event) (pre : list event)
    (k : unit -> M E B) :
  begins pre (k tt) -> begins (ev :: pre) (bind (emit ev) k).
Proof.
  intros Hk w. unfold bind, emit; cbn [fst snd].
  destruct (Hk (World (env w) (trace w ++ [ev]))) as (evs & T).
  exists evs. rewrite T. cbn [trace]. rewrite <- app_assoc. reflexivity.
Qed.

Lemma begins_bind {A B} (pre : list event) (m : M E A) (k : A -> M E B) :
  begins pre m -> (forall a, emits (fun _ => True) (k a)) ->
  begins pre (bind m k).
Proof.
  intros Hm Hk w. unfold bind.
  destruct (Hm w) as (evs1 & T1).
  destruct (m w) as [[a | e | c] w1]; cbn [snd] in T1 |- *; eauto.
  destruct (Hk a w1) as (evs2 & T2 & _).
  exists (evs1 ++ evs2)%list. rewrite T2, T1, <- !app_assoc. reflexivity.
Qed.

Lemma begins_try_except {A} (pre : list event) (catches : exn -> bool)
    (body : M E A) (handler : exn -> M E A) :
  begins pre body -> (forall e, emits (fun _ => True) (handler e)) ->
  begins pre (try_except catches body handler).
Proof.
  intros Hb Hh w. unfold try_except.
  destruct (Hb w) as (evs1 & T1).
  destruct (body w) as [[a | e | c] w1]; cbn [snd] in T1 |- *; eauto.
  destruct (catches e); eauto.
  destruct (Hh e w1) as (evs2 & T2 & _).
  exists (evs1 ++ evs2)%list. rewrite T2, T1, <- !app_assoc. reflexivity.
Qed.

End Begins.

(** ** The loop over the requested platforms *)

Section PlatformLoop.

Variable system : list string -> node -> completed * node.
Variable launch : string -> option launch_error.
Variable glob_dirs : node -> string -> list string.
Variables version build_dir assets_dir : string.

Local Notation build_for_platform :=
  (fun platform_name =>
     VerifyBuild.build_for_platform system launch glob_dirs platform_name
                                    version build_dir assets_dir).
Local Notation platform_loop :=
  (VerifyBuild.platform_loop system launch glob_dirs version build_dir
                             assets_dir).

Lemma build_for_platform_emits (platform_name : string) :
  emits (fun _ => True) (build_for_platform platform_name).
Proof.
  eapply emits_weaken; [ | apply build_for_platform_effects]. auto.
Qed.

Lemma platform_loop_emits (success : bool) (platforms : list string) :
  emits (fun _ => True) (platform_loop success platforms).
Proof.
  revert success.
  induction platforms as [ | p rest IH]; intros success;
    cbn [VerifyBuild.platform_loop].
  - apply emits_ret.
  - apply emits_bind.
    + unfold print_colored. emits_split; auto.
    + intros _. apply emits_bind; [apply build_for_platform_emits | ].
      intros ok. apply IH.
Qed.

(** [build_for_platform] starts by announcing the platform and running
    the publish command for it. *)
Lemma build_for_platform_begins (platform_name : string) :
  begins [colored (nl ++ "Building for " ++ platform_name ++ "...")
                  Colors.YELLOW;
          Run (publish_command platform_name version)]
         (build_for_platform platform_name).
Proof.
  unfold VerifyBuild.build_for_platform, print_colored at 1, print.
  apply begins_emit_bind.
  apply begins_bind.
  - apply begins_try_except.
    + apply begins_bind; [ | intros; apply emits_ret].
      unfold subprocess_run. apply begins_emit_bind.
      apply begins_nil. emits_split; auto.
    + intros e. unfold print_colored. emits_split; auto.
  - intros built.
    unfold copy2, chmod, check_executable, getsize, listdir, print_colored,
      print_no_newline.
    emits_split; auto.
Qed.

(** Once [success] is false it stays false. *)
Lemma platform_loop_false (platforms : list string) (w w' : world node)
    (r : bool) :
  platform_loop false platforms w = (Ret r, w') -> r = false.
Proof.
  revert w. induction platforms as [ | p rest IH]; intros w H;
    cbn [VerifyBuild.platform_loop] in H.
  - injection H as <- _. reflexivity.
  - bind_inv H.
    match type of H with
    | context [if negb ?ok then _ else _] => destruct ok; cbn [negb] in H
    end; eapply IH; exact H.
Qed.


End PlatformLoop.


(** ** Locating the built binary *)

(** X3: on win-x64 the result is one of the paths [glob] gives for [*.exe]
    in the directory, one that contains the product name as a whole path,
    and there is no result exactly when none of these paths does. *)
Lemma find_executable_win (glob_dirs : node -> string -> list string)
    (fs : node) (directory : string) :
  (forall f,
      find_executable glob_dirs fs directory "win-x64" = Some f ->
      In f (glob_exe glob_dirs fs directory) /\ contains PRODUCT f = true)
  /\ (find_executable glob_dirs fs directory "win-x64" = None <->
      forall f,
        In f (glob_exe glob_dirs fs directory) -> contains PRODUCT f = false).
Proof.
  unfold find_executable. rewrite String.eqb_refl. split.
  - intros f H. apply find_some in H. exact H.
  - split.
    + intros H f Hin. exact (find_none _ _ H f Hin).
    + intros H. destruct (find _ _) as [f | ] eqn:F; [ | reflexivity].
      apply find_some in F as [Hin Hc]. rewrite (H f Hin) in Hc.
      discriminate Hc.
Qed.

(** X2: on every platform other than win-x64 the result is a file met by
    the walk whose own name contains the product name and which may be
    executed; there is no result exactly when the walk meets no such
    file. *)
Lemma find_executable_other (glob_dirs : node -> string -> list string)
    (fs : node) (directory platform : string) :
  platform <> "win-x64" ->
  (forall f,
      find_executable glob_dirs fs directory platform = Some f ->
      exists root dirs files file,
        In (root, dirs, files) (os_walk fs directory)
        /\ In file files
        /\ contains PRODUCT file = true
        /\ f = join2 root file
        /\ os_access_X fs f = true)
  /\ (find_executable glob_dirs fs directory platform = None <->
      forall root dirs files file,
        In (root, dirs, files) (os_walk fs directory) ->
        In file files ->
        contains PRODUCT file = true ->
        os_access_X fs (join2 root file) = false).
Proof.
  intros NW. unfold find_executable.
  destruct (String.eqb_spec platform "win-x64") as [W | _]; [contradiction | ].
  set (candidates :=
         flat_map
           (fun '(root, _, files) =>
              flat_map
                (fun file =>
                   if contains PRODUCT file
                   then if os_access_X fs (join2 root file)
                        then [join2 root file] else []
                   else [])
                files)
           (os_walk fs directory)).
  assert (forall f,
             In f candidates <->
             exists root dirs files file,
               In (root, dirs, files) (os_walk fs directory)
               /\ In file files
               /\ contains PRODUCT file = true
               /\ f = join2 root file
               /\ os_access_X fs f = true) as Hin.
  { intros f. unfold candidates. rewrite in_flat_map. split.
    - intros ([[root dirs] files] & Hw & Hf).
      apply in_flat_map in Hf as (file & Hfile & Hf).
      destruct (contains PRODUCT file) eqn:C; [ | destruct Hf].
      destruct (os_access_X fs (join2 root file)) eqn:X; [ | destruct Hf].
      destruct Hf as [<- | []].
      exists root, dirs, files, file. auto.
    - intros (root & dirs & files & file & Hw & Hfile & C & -> & X).
      exists (root, dirs, files). split; [exact Hw | ].
      apply in_flat_map. exists file. split; [exact Hfile | ].
      rewrite C, X. left. reflexivity. }
  split.
  - intros f H. apply Hin.
    destruct candidates as [ | c cs]; [discriminate H | ].
    injection H as ->. left. reflexivity.
  - split.
    + intros H root dirs files file Hw Hfile C.
      destruct (os_access_X fs (join2 root file)) eqn:X; [ | reflexivity].
      destruct candidates as [ | c cs]; [ | discriminate H].
      destruct (proj2 (Hin (join2 root file))).
      exists root, dirs, files, file. auto.
    + intros H. destruct candidates as [ | c cs] eqn:Cs; [reflexivity | ].
      destruct (proj1 (Hin c) (or_introl eq_refl))
        as (root & dirs & files & file & Hw & Hfile & C & -> & X).
      rewrite (H root dirs files file Hw Hfile C) in X. discriminate X.
Qed.

(** An instance of X2: in the sample publish directory the search for
    linux-x64 passes over the debug file and returns the product. *)
Lemma find_executable_other_example :
  "linux-x64" <> "win-x64"
  /\ exists root dirs files file,
       In (root, dirs, files) (os_walk Samples.fs_linux_publish "/publish")
       /\ In file files
       /\ contains PRODUCT file = true
       /\ "/publish/native/RewindSubtitleDisplayerForPlex" = join2 root file
       /\ os_access_X Samples.fs_linux_publish
            "/publish/native/RewindSubtitleDisplayerForPlex" = true.
Proof.
  assert ("linux-x64" <> "win-x64") as Other by discriminate.
  split; [exact Other | ].
  apply (proj1 (find_executable_other Samples.no_patterns
                  Samples.fs_linux_publish "/publish" "linux-x64" Other)).
  vm_compute. reflexivity.
Defined.

(** C7 (what the code does on its failing inputs).  With the checkout in a
    directory named after the product, the win-x64 search returns
    [createdump.exe], a file whose name does not contain the product name,
    although the product is in the same directory: that branch tests the
    name against the whole path, where the branch for the other platforms
    tests the file name and returns the product here.  And when the publish
    directory does not exist, nothing is found and [build_for_platform]
    raises [FileNotFoundError] from [os.listdir] instead of reporting a
    failure for the platform. *)
Theorem find_executable_win_accepts_foreign_file :
  find_executable Samples.no_patterns Samples.fs_named_checkout
                  Samples.named_checkout_publish_dir "win-x64"
  = Some (Samples.named_checkout_publish_dir ++ "/createdump.exe")
  /\ contains PRODUCT "createdump.exe" = false
  /\ find_executable Samples.no_patterns Samples.fs_named_checkout
                     Samples.named_checkout_publish_dir "linux-x64"
     = Some (Samples.named_checkout_publish_dir
             ++ "/RewindSubtitleDisplayerForPlex.exe")
  /\ find_executable Samples.no_patterns Samples.fs_repo
                     "/repo/bin/Release/net9.0/win-x64/publish" "win-x64"
     = None
  /\ fst (build_for_platform (Samples.toolchain "net8.0" 2000000 493)
            Samples.installed Samples.no_patterns
            "win-x64" "1.2.3" "/repo/bin/Release/net9.0"
            "/repo/release-assets" (World Samples.fs_repo []))
     = Raise FileNotFoundError.
Proof. repeat split; vm_compute; reflexivity. Qed.

(** ** The exit status *)

(** C1 (what the code does on its failing input).  The tool chain builds
    every platform but for another target framework, so the expected
    publish directory of win-x64 does not exist.  The run ends with an
    uncaught [FileNotFoundError] (exit status 1) while listing that
    directory, and linux-x64, requested after win-x64, is never built. *)
Theorem missing_publish_dir_stops_the_remaining_platforms :
  let r := main (Samples.toolchain "net8.0" 2000000 493) Samples.installed
                Samples.no_patterns "1.2.3" ["win-x64"; "linux-x64"]
                (World Samples.fs_repo []) in
  fst r = Raise FileNotFoundError
  /\ run (Samples.toolchain "net8.0" 2000000 493) Samples.installed
         Samples.no_patterns "1.2.3" ["win-x64"; "linux-x64"]
         (World Samples.fs_repo []) = 1
  /\ In (Run (publish_command "win-x64" "1.2.3")) (trace (snd r))
  /\ ~ In (Run (publish_command "linux-x64" "1.2.3")) (trace (snd r)).
Proof.
  cbv zeta. split; [vm_compute; reflexivity | ].
  split; [vm_compute; reflexivity | ].
  split.
  - vm_compute. do 4 right. left. reflexivity.
  - vm_compute. intros H.
    repeat (destruct H as [H | H]; [discriminate H | ]). exact H.
Qed.

(* ================================================================== *)
(** * Properties of the container verifier *)
(* ================================================================== *)

Import VerifyDocker.

Lemma same_command_eq (a b : list string) :
  same_command a b = true <-> a = b.
Proof.
  revert b. induction a as [ | x a IH]; intros [ | y b]; cbn;
    try (split; [discriminate | discriminate]); [tauto | ].
  rewrite andb_true_iff, String.eqb_eq, IH.
  split; [intros [-> ->]; reflexivity | intros H; injection H; auto].
Qed.

Lemma occurrences_app (command : list string) (tr1 tr2 : list event) :
  occurrences command (tr1 ++ tr2)
  = (occurrences command tr1 + occurrences command tr2)%nat.
Proof.
  induction tr1 as [ | ev tr1 IH]; [reflexivity | ].
  destruct ev; cbn [app occurrences]; rewrite IH; lia.
Qed.

Lemma occurrences_none (command : list string) (tr : list event) :
  Forall (fun ev => ev <> Run command) tr -> occurrences command tr = 0%nat.
Proof.
  induction 1 as [ | ev tr Hev _ IH]; [reflexivity | ].
  destruct ev; cbn [occurrences]; try exact IH.
  destruct (same_command command0 command) eqn:S; [ | exact IH].
  apply same_command_eq in S. subst. contradiction.
Qed.

Section ContainerVerifier.

Variable R : Type.
Variable runtime : list string -> R -> completed * R.
Variable launch : string -> option launch_error.
Variable wait : Z -> R -> R.
Variable host_makedirs : string -> R -> option exn * R.
Variable json_loads : string -> option json.
Variable abspath : string -> string.
Variable str_of_exn : exn -> string.
Variable repr_container : json -> string.
Variable format_mb : Z -> string.

Local Notation run_command := (VerifyDocker.run_command R runtime launch).
Local Notation check_docker_running :=
  (VerifyDocker.check_docker_running R runtime launch wait).
Local Notation pull_docker_image :=
  (VerifyDocker.pull_docker_image R runtime launch).
Local Notation inspect_docker_image :=
  (VerifyDocker.inspect_docker_image R runtime launch json_loads
                                     repr_container format_mb).
Local Notation run_docker_container :=
  (VerifyDocker.run_docker_container R runtime launch host_makedirs).
Local Notation check_container_logs :=
  (VerifyDocker.check_container_logs R runtime launch wait).
Local Notation cleanup := (VerifyDocker.cleanup R runtime launch).
Local Notation fatal_stages :=
  (VerifyDocker.fatal_stages R runtime launch wait host_makedirs json_loads
                             repr_container format_mb).
Local Notation pipeline :=
  (VerifyDocker.pipeline R runtime launch wait host_makedirs json_loads
                         repr_container format_mb).
Local Notation main :=
  (VerifyDocker.main R runtime launch wait host_makedirs json_loads abspath
                     str_of_exn repr_container format_mb).
Local Notation run :=
  (VerifyDocker.run R runtime launch wait host_makedirs json_loads abspath
                    str_of_exn repr_container format_mb).

(** ** Running one command *)

(** A program that cannot be started: [subprocess.run] raises, and
    [run_command], which catches [CalledProcessError] only, lets the
    exception through whatever [check] says. *)
Lemma run_command_not_started (program : string) (args : list string)
    (check capture_output : bool) (why : launch_error) (w : world R) :
  launch program = Some why ->
  run_command (program :: args) check capture_output w
  = (Raise (launch_exception why),
     World (env w) (trace w ++ [Run (program :: args)])).
Proof.
  intros L. unfold VerifyDocker.run_command, subprocess_run. py_step.
  rewrite L. py_step. destruct why; reflexivity.
Qed.

Lemma run_command_unchecked (program : string) (args : list string)
    (capture_output : bool) (w : world R) :
  launch program = None ->
  run_command (program :: args) false capture_output w
  = (Ret (if capture_output then fst (runtime (program :: args) (env w))
          else Completed
                 (returncode (fst (runtime (program :: args) (env w))))
                 "" ""),
     World (snd (runtime (program :: args) (env w)))
           (trace w ++ [Run (program :: args)])).
Proof.
  intros L. unfold VerifyDocker.run_command, subprocess_run.
  py_step. rewrite L. py_step. reflexivity.
Qed.

Lemma run_command_checked (program : string) (args : list string)
    (w : world R) :
  launch program = None ->
  run_command (program :: args) true true w
  = if returncode (fst (runtime (program :: args) (env w))) =? 0
    then (Ret (fst (runtime (program :: args) (env w))),
          World (snd (runtime (program :: args) (env w)))
                (trace w ++ [Run (program :: args)]))
    else (SysExit 1,
          World (snd (runtime (program :: args) (env w)))
                (trace w ++ Run (program :: args)
                   :: error_report (program :: args)
                        (fst (runtime (program :: args) (env w))))).
Proof.
  intros L.
  unfold VerifyDocker.run_command, subprocess_run, error_report, colored, line.
  py_step. rewrite L. py_step.
  destruct (returncode (fst (runtime (program :: args) (env w))) =? 0);
    py_step; [reflexivity | ].
  destruct (String.eqb (stdout (fst (runtime (program :: args) (env w)))) "");
    destruct (String.eqb (stderr (fst (runtime (program :: args) (env w))))
                         "");
    py_step; cbn [app]; repeat rewrite <- app_assoc; reflexivity.
Qed.

(** ** The teardown *)

(** The three ways through [cleanup]: the container is kept; it is stopped
    and removed; or [docker] cannot be started, and the attempt to stop the
    container raises before anything is removed. *)
Lemma cleanup_cases (container_name config_dir : string)
    (keep_container : bool) (w : world R) :
  cleanup container_name config_dir keep_container w
  = if keep_container then
      (Ret tt,
       World (env w) (trace w ++ cleanup_events container_name true))
    else
      match launch "docker" with
      | None =>
          (Ret tt,
           World (snd (runtime (rm_command container_name)
                         (snd (runtime (stop_command container_name)
                                       (env w)))))
                 (trace w ++ cleanup_events container_name false))
      | Some why =>
          (Raise (launch_exception why),
           World (env w)
                 (trace w ++ aborted_cleanup_events container_name))
      end.
Proof.
  unfold VerifyDocker.cleanup, cleanup_events, aborted_cleanup_events, colored.
  destruct keep_container; cbn [negb].
  - py_step. cbn [app]. rewrite <- app_assoc. reflexivity.
  - unfold bind at 1. unfold bind at 1.
    unfold print_colored at 1, print, emit. cbn [fst snd].
    unfold bind at 1. unfold stop_command at 1.
    destruct (launch "docker") as [why | ] eqn:L.
    + rewrite (run_command_not_started _ _ _ _ why) by exact L.
      cbn [env trace]. rewrite <- app_assoc. reflexivity.
    + rewrite run_command_unchecked by exact L.
      unfold bind at 1. unfold rm_command at 1.
      rewrite run_command_unchecked by exact L.
      py_step. cbn [app]. repeat rewrite <- app_assoc. reflexivity.
Qed.

(** ** The guarded block of [main] *)

(** [main] is its guarded block followed by the teardown; what the
    teardown raises replaces the outcome of the guarded block. *)
Lemma main_cases (version : string) (image : option string)
    (container_name config_dir : string) (keep_container : bool)
    (w : world R) :
  let guarded :=
    try_except any_Exception
      (pipeline (image_name version image) container_name (abspath config_dir))
      (fun e =>
         print_colored ("Error during verification: " ++ str_of_exn e)
                       Colors.RED ;;;
         ret 1)
      (World (env w)
         (trace w
          ++ [colored ("Verifying Docker image: " ++ image_name version image)
                      Colors.YELLOW])) in
  let torn_down :=
    cleanup container_name (abspath config_dir) keep_container
            (snd guarded) in
  main version image container_name config_dir keep_container w
  = (match fst torn_down with
     | Ret _ => fst guarded
     | Raise e => Raise e
     | SysExit c => SysExit c
     end,
     snd torn_down).
Proof.
  cbv zeta. unfold VerifyDocker.main.
  unfold bind at 1, print_colored at 1, print, emit; cbn [fst snd].
  unfold try_finally, colored.
  destruct (try_except _ _ _ _) as [o w1]. cbn [fst snd].
  destruct (VerifyDocker.cleanup _ _ _ _ _ _ _) as [[[] | e | c] w2];
    reflexivity.
Qed.

(** Nothing before the teardown stops or removes the test container: the
    only removal in the pipeline is the forced one, [docker rm -f]. *)
Lemma pipeline_no_teardown (image container_name config_dir : string) :
  emits
    (fun ev =>
       ev <> Run (stop_command container_name)
       /\ ev <> Run (rm_command container_name))
    (try_except any_Exception
       (pipeline image container_name config_dir)
       (fun e =>
          print_colored ("Error during verification: " ++ str_of_exn e)
                        Colors.RED ;;;
          ret 1)).
Proof.
  unfold VerifyDocker.pipeline, VerifyDocker.check_docker_running,
    VerifyDocker.pull_docker_image, VerifyDocker.inspect_docker_image,
    VerifyDocker.run_docker_container, VerifyDocker.check_container_logs,
    VerifyDocker.run_command, subprocess_run, sleep, makedirs, item0, getitem,
    get, items, megabytes, print_colored, stop_command, rm_command.
  cbn iota. emits_split; split; congruence.
Qed.

(** C2 (amended): whatever the runtime does, the trace of a run is what
    happened before the teardown followed by the events of the teardown,
    and nothing before the teardown stops or removes the test container.
    When the container is kept the teardown issues neither command.
    Otherwise it issues the stop command exactly once; when the [docker]
    program can be started the remove command follows, exactly once, and
    these are the last commands of the run; when it cannot, the attempt to
    stop is the last event of the run, [main] ends with the exception of
    that attempt, and the remove command is not issued. *)
Theorem cleanup_happens_exactly_once :
  forall (version : string) (image : option string)
         (container_name config_dir : string) (keep_container : bool)
         (w : world R),
    let teardown :=
      if keep_container then cleanup_events container_name true
      else
        match launch "docker" with
        | None => cleanup_events container_name false
        | Some _ => aborted_cleanup_events container_name
        end in
    exists before,
      trace (snd (main version image container_name config_dir
                       keep_container w))
      = (trace w ++ before ++ teardown)%list
      /\ Forall (fun ev =>
                   ev <> Run (stop_command container_name)
                   /\ ev <> Run (rm_command container_name)) before
      /\ occurrences (stop_command container_name) (before ++ teardown)
         = (if keep_container then 0 else 1)%nat
      /\ occurrences (rm_command container_name) (before ++ teardown)
         = (if keep_container then 0
            else match launch "docker" with
                 | None => 1
                 | Some _ => 0
                 end)%nat
      /\ (keep_container = false ->
          forall why,
            launch "docker" = Some why ->
            fst (main version image container_name config_dir
                      keep_container w)
            = Raise (launch_exception why)).
Proof.
  intros version image container_name config_dir keep_container w.
  cbv zeta. rewrite main_cases. cbv zeta.
  destruct (pipeline_no_teardown (image_name version image) container_name
              (abspath config_dir)
              (World (env w)
                 (trace w
                  ++ [colored ("Verifying Docker image: "
                               ++ image_name version image) Colors.YELLOW])))
    as (evs & T & F).
  rewrite cleanup_cases. cbn [snd trace] in T.
  exists (colored ("Verifying Docker image: " ++ image_name version image)
                  Colors.YELLOW :: evs).
  assert (Forall (fun ev =>
                    ev <> Run (stop_command container_name)
                    /\ ev <> Run (rm_command container_name))
                 (colored ("Verifying Docker image: "
                           ++ image_name version image) Colors.YELLOW :: evs))
    as F'.
  { constructor; [ | exact F]. unfold colored. split; discriminate. }
  split.
  { destruct keep_container; [ | destruct (launch "docker")];
      cbn [snd trace]; rewrite T; cbn [app];
      repeat rewrite <- app_assoc; reflexivity. }
  split; [exact F' | ].
  rewrite !occurrences_app.
  rewrite (occurrences_none (stop_command container_name)),
          (occurrences_none (rm_command container_name)).
  - unfold cleanup_events, aborted_cleanup_events, colored, stop_command,
      rm_command.
    split; [ | split].
    + destruct keep_container; [ | destruct (launch "docker")];
        cbn [app occurrences same_command];
        rewrite ?String.eqb_refl; reflexivity.
    + destruct keep_container; [ | destruct (launch "docker")];
        cbn [app occurrences same_command];
        rewrite ?String.eqb_refl; reflexivity.
    + intros -> why L. rewrite L. reflexivity.
  - eapply Forall_impl; [ | exact F']. intros ev H. apply H.
  - eapply Forall_impl; [ | exact F']. intros ev H. apply H.
Qed.

(** ** When the [docker] program can be started *)

Section DockerStarts.

Hypothesis docker_starts : launch "docker" = None.

Lemma cleanup_run (container_name config_dir : string) (keep_container : bool)
    (w : world R) :
  cleanup container_name config_dir keep_container w
  = (Ret tt,
     World (if keep_container then env w
            else snd (runtime (rm_command container_name)
                        (snd (runtime (stop_command container_name) (env w)))))
           (trace w ++ cleanup_events container_name keep_container)).
Proof.
  rewrite cleanup_cases, docker_starts. destruct keep_container; reflexivity.
Qed.

(** Then the teardown always returns: the outcome of [main] is the outcome
    of the guarded block. *)
Lemma main_unfold (version : string) (image : option string)
    (container_name config_dir : string) (keep_container : bool)
    (w : world R) :
  let guarded :=
    try_except any_Exception
      (pipeline (image_name version image) container_name (abspath config_dir))
      (fun e =>
         print_colored ("Error during verification: " ++ str_of_exn e)
                       Colors.RED ;;;
         ret 1)
      (World (env w)
         (trace w
          ++ [colored ("Verifying Docker image: " ++ image_name version image)
                      Colors.YELLOW])) in
  main version image container_name config_dir keep_container w
  = (fst guarded,
     snd (cleanup container_name (abspath config_dir) keep_container
                  (snd guarded))).
Proof.
  cbv zeta. rewrite main_cases. cbv zeta. rewrite cleanup_run. reflexivity.
Qed.

(** ** Readiness of the runtime *)

(** The ways through [check_docker_running]: the runtime answers the first
    query; or the start is attempted, and when [sudo] can be started the
    runtime is given five seconds and queried once more, and when it cannot
    the attempt raises. *)
Lemma check_docker_running_run (w : world R) :
  let r1 := runtime ["docker"; "info"] (env w) in
  let r2 := runtime ["sudo"; "dockerd"; ">"; "/tmp/docker.log"; "2>&1"; "&"]
                    (snd r1) in
  let r3 := runtime ["docker"; "info"] (wait 5 (snd r2)) in
  check_docker_running w
  = if returncode (fst r1) =? 0 then
      (Ret tt,
       World (snd r1)
         (trace w
          ++ [colored "Checking if Docker is running..." Colors.YELLOW;
              Run ["docker"; "info"];
              colored "Docker is running." Colors.GREEN]))
    else
      match launch "sudo" with
      | Some why =>
          (Raise (launch_exception why),
           World (snd r1)
             (trace w
              ++ [colored "Checking if Docker is running..." Colors.YELLOW;
                  Run ["docker"; "info"];
                  colored "Docker is not running. Starting Docker..."
                          Colors.YELLOW;
                  Run ["sudo"; "dockerd"; ">"; "/tmp/docker.log"; "2>&1";
                       "&"]]))
      | None =>
          (if returncode (fst r3) =? 0 then Ret tt else SysExit 1,
           World (snd r3)
             (trace w
              ++ [colored "Checking if Docker is running..." Colors.YELLOW;
                  Run ["docker"; "info"];
                  colored "Docker is not running. Starting Docker..."
                          Colors.YELLOW;
                  Run ["sudo"; "dockerd"; ">"; "/tmp/docker.log"; "2>&1";
                       "&"];
                  line "Waiting for Docker to start...";
                  Sleep 5;
                  Run ["docker"; "info"];
                  if returncode (fst r3) =? 0
                  then colored "Docker is running." Colors.GREEN
                  else colored
                         "Failed to start Docker. Please start it manually."
                         Colors.RED]))
      end.
Proof.
  cbv zeta. unfold VerifyDocker.check_docker_running, sleep, colored, line.
  unfold bind at 1, print_colored at 1, print, emit; cbn [fst snd].
  unfold bind at 1. rewrite run_command_unchecked by exact docker_starts.
  cbn [env trace].
  destruct (returncode (fst (runtime ["docker"; "info"] (env w))) =? 0);
    cbn [negb].
  - py_step. cbn [app]. repeat rewrite <- app_assoc. reflexivity.
  - unfold bind at 1. unfold bind at 1.
    unfold print_colored at 1, print, emit; cbn [fst snd].
    unfold bind at 1.
    destruct (launch "sudo") as [why | ] eqn:S.
    + rewrite (run_command_not_started _ _ _ _ why) by exact S.
      cbn [env trace]. repeat rewrite <- app_assoc. reflexivity.
    + rewrite run_command_unchecked by exact S. cbn [env trace].
      unfold bind at 1, print, emit; cbn [fst snd].
      unfold bind at 1. unfold bind at 1, emit; cbn [fst snd].
      unfold bind at 1, get_env; cbn [fst snd env].
      unfold set_env; cbn [fst snd env trace].
      unfold bind at 1.
      rewrite run_command_unchecked by exact docker_starts.
      cbn [env trace].
      match goal with
      | |- context [returncode (fst ?r) =? 0] =>
          destruct (returncode (fst r) =? 0)
      end; py_step; cbn [app]; repeat rewrite <- app_assoc; reflexivity.
Qed.

(** ** After the readiness check *)

(** Nothing after the readiness check queries or starts the runtime. *)
Lemma pipeline_rest_emits (image container_name config_dir : string) :
  emits
    (fun ev =>
       ev <> Run ["docker"; "info"]
       /\ ev <> Run ["sudo"; "dockerd"; ">"; "/tmp/docker.log"; "2>&1"; "&"])
    (pull_docker_image image ;;;
     image_info <- inspect_docker_image image ;;
     container_id <- run_docker_container image container_name config_dir ;;
     logs <- check_container_logs container_name 10 ;;
     print_colored (nl ++ "Docker image verification successful!")
                   Colors.GREEN ;;;
     ret 0).
Proof.
  unfold VerifyDocker.pull_docker_image, VerifyDocker.inspect_docker_image,
    VerifyDocker.run_docker_container, VerifyDocker.check_container_logs,
    VerifyDocker.run_command, subprocess_run, sleep, makedirs, item0, getitem,
    get, items, megabytes, print_colored.
  cbn iota. emits_split; split; congruence.
Qed.

Lemma bind_trace_extends {A B} (P : event -> Prop) (m : M R A)
    (k : A -> M R B) (w : world R) :
  (forall a, emits P (k a)) ->
  exists evs,
    trace (snd (bind m k w)) = (trace (snd (m w)) ++ evs)%list
    /\ Forall P evs.
Proof.
  intros Hk. unfold bind. destruct (m w) as [[a | e | c] w1]; cbn [snd];
    try (exists []; rewrite app_nil_r; auto; fail).
  destruct (Hk a w1) as (evs & T & F). eauto.
Qed.

Lemma try_except_trace_extends {A} (P : event -> Prop)
    (catches : exn -> bool) (body : M R A) (handler : exn -> M R A)
    (w : world R) :
  (forall e, emits P (handler e)) ->
  exists evs,
    trace (snd (try_except catches body handler w))
    = (trace (snd (body w)) ++ evs)%list
    /\ Forall P evs.
Proof.
  intros Hh. unfold try_except.
  destruct (body w) as [[a | e | c] w1]; cbn [snd];
    try (exists []; rewrite app_nil_r; auto; fail).
  destruct (catches e); [ | exists []; rewrite app_nil_r; auto].
  destruct (Hh e w1) as (evs & T & F). eauto.
Qed.

(** C5 (amended): when the first readiness query is answered with a
    failure, the verifier tries to start the runtime.  When the start
    command can itself be executed, it waits five seconds and queries the
    runtime once more, and whatever happens next it neither queries nor
    starts the runtime again; when that second query fails as well, the run
    ends with exit status 1 after exactly these events and the teardown.
    When the start command cannot be executed, the attempt raises, there is
    no wait and no second query, and the run ends with exit status 1 after
    the report of the error and the teardown.  In both cases no image is
    ever pulled. *)
Theorem unreachable_runtime_is_started_and_checked_once_more :
  forall (version : string) (image : option string)
         (container_name config_dir : string) (keep_container : bool)
         (w : world R),
    returncode (fst (runtime ["docker"; "info"] (env w))) <> 0 ->
    let st1 := snd (runtime ["docker"; "info"] (env w)) in
    let st2 :=
      snd (runtime ["sudo"; "dockerd"; ">"; "/tmp/docker.log"; "2>&1"; "&"]
                   st1) in
    let second := fst (runtime ["docker"; "info"] (wait 5 st2)) in
    let attempt :=
      [colored ("Verifying Docker image: " ++ image_name version image)
               Colors.YELLOW;
       colored "Checking if Docker is running..." Colors.YELLOW;
       Run ["docker"; "info"];
       colored "Docker is not running. Starting Docker..." Colors.YELLOW;
       Run ["sudo"; "dockerd"; ">"; "/tmp/docker.log"; "2>&1"; "&"]] in
    let readiness :=
      [colored ("Verifying Docker image: " ++ image_name version image)
               Colors.YELLOW;
       colored "Checking if Docker is running..." Colors.YELLOW;
       Run ["docker"; "info"];
       colored "Docker is not running. Starting Docker..." Colors.YELLOW;
       Run ["sudo"; "dockerd"; ">"; "/tmp/docker.log"; "2>&1"; "&"];
       line "Waiting for Docker to start...";
       Sleep 5;
       Run ["docker"; "info"]] in
    (launch "sudo" = None ->
     (exists rest,
         trace (snd (main version image container_name config_dir
                          keep_container w))
         = (trace w ++ readiness ++ rest)%list
         /\ Forall
              (fun ev =>
                 ev <> Run ["docker"; "info"]
                 /\ ev <> Run ["sudo"; "dockerd"; ">"; "/tmp/docker.log";
                               "2>&1"; "&"]) rest)
     /\ (returncode second <> 0 ->
         fst (main version image container_name config_dir keep_container w)
         = SysExit 1
         /\ run version image container_name config_dir keep_container w = 1
         /\ trace (snd (main version image container_name config_dir
                             keep_container w))
            = (trace w ++ readiness
               ++ [colored "Failed to start Docker. Please start it manually."
                           Colors.RED]
               ++ cleanup_events container_name keep_container)%list
         /\ forall name,
              ~ In (Run ["docker"; "pull"; name])
                   (readiness
                    ++ [colored
                          "Failed to start Docker. Please start it manually."
                          Colors.RED]
                    ++ cleanup_events container_name keep_container)))
    /\ (forall why,
          launch "sudo" = Some why ->
          let reported :=
            colored ("Error during verification: "
                     ++ str_of_exn (launch_exception why)) Colors.RED in
          fst (main version image container_name config_dir keep_container w)
          = Ret 1
          /\ run version image container_name config_dir keep_container w = 1
          /\ trace (snd (main version image container_name config_dir
                              keep_container w))
             = (trace w ++ attempt ++ [reported]
                ++ cleanup_events container_name keep_container)%list
          /\ forall name,
               ~ In (Run ["docker"; "pull"; name])
                    (attempt ++ [reported]
                     ++ cleanup_events container_name keep_container)).
Proof.
  intros version image container_name config_dir keep_container w Down.
  cbv zeta.
  apply Z.eqb_neq in Down.
  pose proof (check_docker_running_run
                (World (env w)
                   (trace w
                    ++ [colored ("Verifying Docker image: "
                                 ++ image_name version image) Colors.YELLOW])))
    as Hrun.
  cbv zeta in Hrun. cbn [env trace] in Hrun. rewrite Down in Hrun.
  split; [intros Sudo; rewrite Sudo in Hrun; split | ].
  - rewrite main_unfold. cbv zeta. rewrite cleanup_run. cbn [snd trace].
    set (P := fun ev =>
                ev <> Run ["docker"; "info"]
                /\ ev <> Run ["sudo"; "dockerd"; ">"; "/tmp/docker.log";
                              "2>&1"; "&"]).
    destruct (try_except_trace_extends P any_Exception
                (pipeline (image_name version image) container_name
                          (abspath config_dir))
                (fun e =>
                   print_colored ("Error during verification: "
                                  ++ str_of_exn e) Colors.RED ;;;
                   ret 1)
                (World (env w)
                   (trace w
                    ++ [colored ("Verifying Docker image: "
                                 ++ image_name version image) Colors.YELLOW])))
      as (evs1 & T1 & F1).
    { intros e. unfold print_colored, P. emits_split; split; discriminate. }
    rewrite T1. unfold VerifyDocker.pipeline.
    destruct (bind_trace_extends P check_docker_running
                (fun _ =>
                   pull_docker_image (image_name version image) ;;;
                   image_info <- inspect_docker_image
                                   (image_name version image) ;;
                   container_id <- run_docker_container
                                     (image_name version image) container_name
                                     (abspath config_dir) ;;
                   logs <- check_container_logs container_name 10 ;;
                   print_colored
                     (nl ++ "Docker image verification successful!")
                     Colors.GREEN ;;;
                   ret 0)
                (World (env w)
                   (trace w
                    ++ [colored ("Verifying Docker image: "
                                 ++ image_name version image) Colors.YELLOW])))
      as (evs2 & T2 & F2).
    { intros _. apply pipeline_rest_emits. }
    rewrite T2, Hrun. cbn [snd trace].
    match goal with
    | |- context [if ?c then colored ?a ?x else colored ?b ?y] =>
        exists ((if c then colored a x else colored b y)
                :: (evs2 ++ evs1
                    ++ cleanup_events container_name keep_container)%list)
    end.
    split.
    + repeat rewrite <- app_assoc. cbn [app]. reflexivity.
    + constructor.
      { unfold P, colored.
        match goal with
        | |- context [if ?c then _ else _] => destruct c
        end; split; discriminate. }
      apply Forall_app. split; [exact F2 | ].
      apply Forall_app. split; [exact F1 | ].
      unfold cleanup_events, colored, stop_command, rm_command, P.
      destruct keep_container; cbn [app];
        repeat (constructor; [split; discriminate | ]); constructor.
  - intros Down2. apply Z.eqb_neq in Down2. rewrite Down2 in Hrun.
    assert (main version image container_name config_dir keep_container w
            = (SysExit 1,
               snd (cleanup container_name (abspath config_dir) keep_container
                      (snd (check_docker_running
                              (World (env w)
                                 (trace w
                                  ++ [colored ("Verifying Docker image: "
                                               ++ image_name version image)
                                              Colors.YELLOW])))))))
      as Hmain.
    { rewrite main_unfold. cbv zeta.
      erewrite try_except_of_SysExit;
        [ | unfold VerifyDocker.pipeline; apply bind_of_SysExit; exact Hrun].
      rewrite Hrun. reflexivity. }
    unfold VerifyDocker.run. rewrite Hmain, Hrun, cleanup_run.
    cbn [fst snd trace exit_code].
    split; [reflexivity | ]. split; [reflexivity | ].
    split.
    + repeat rewrite <- app_assoc. cbn [app]. reflexivity.
    + intros name Hin. unfold cleanup_events, colored, line in Hin.
      destruct keep_container; cbn [app In] in Hin;
        unfold stop_command, rm_command in Hin;
        repeat (destruct Hin as [Hin | Hin]; [discriminate Hin | ]);
        exact Hin.
  - intros why Sudo. rewrite Sudo in Hrun.
    assert (main version image container_name config_dir keep_container w
            = (Ret 1,
               snd (cleanup container_name (abspath config_dir) keep_container
                      (World
                         (env (snd (check_docker_running
                                      (World (env w)
                                         (trace w
                                          ++ [colored
                                                ("Verifying Docker image: "
                                                 ++ image_name version image)
                                                Colors.YELLOW])))))
                         (trace (snd (check_docker_running
                                        (World (env w)
                                           (trace w
                                            ++ [colored
                                                  ("Verifying Docker image: "
                                                   ++ image_name version image)
                                                  Colors.YELLOW]))))
                          ++ [colored ("Error during verification: "
                                       ++ str_of_exn (launch_exception why))
                                      Colors.RED])))))
      as Hmain.
    { rewrite main_unfold. cbv zeta.
      erewrite try_except_of_Raise;
        [ | unfold VerifyDocker.pipeline; apply bind_of_Raise; exact Hrun
          | reflexivity].
      rewrite Hrun. unfold colored. py_step. reflexivity. }
    unfold VerifyDocker.run. rewrite Hmain, Hrun, cleanup_run.
    cbn [fst snd env trace exit_code].
    split; [reflexivity | ]. split; [reflexivity | ].
    split.
    + repeat rewrite <- app_assoc. cbn [app]. reflexivity.
    + intros name Hin. unfold cleanup_events, colored, line in Hin.
      destruct keep_container; cbn [app In] in Hin;
        unfold stop_command, rm_command in Hin;
        repeat (destruct Hin as [Hin | Hin]; [discriminate Hin | ]);
        exact Hin.
Qed.

(** ** Pull and inspect *)

Lemma pull_docker_image_run (image : string) (w : world R) :
  let r := runtime ["docker"; "pull"; image] (env w) in
  pull_docker_image image w
  = if returncode (fst r) =? 0 then
      (Ret tt,
       World (snd r)
         (trace w
          ++ [colored ("Pulling Docker image: " ++ image) Colors.YELLOW;
              Run ["docker"; "pull"; image];
              colored "Image pulled successfully." Colors.GREEN]))
    else
      (SysExit 1,
       World (snd r)
         (trace w
          ++ [colored ("Pulling Docker image: " ++ image) Colors.YELLOW;
              Run ["docker"; "pull"; image]]
          ++ error_report ["docker"; "pull"; image] (fst r))).
Proof.
  cbv zeta. unfold VerifyDocker.pull_docker_image, colored.
  unfold bind at 1, print_colored at 1, print, emit; cbn [fst snd].
  unfold bind at 1. rewrite run_command_checked by exact docker_starts.
  cbn [env trace].
  destruct (returncode (fst (runtime ["docker"; "pull"; image] (env w))) =? 0).
  - py_step. cbn [app]. repeat rewrite <- app_assoc. reflexivity.
  - cbn [app]. repeat rewrite <- app_assoc. reflexivity.
Qed.

(** An inspect command that succeeds but prints a value that counts as
    false, such as the empty list, ends the run. *)
Lemma inspect_docker_image_empty (image : string) (w : world R) (j : json) :
  let r := runtime ["docker"; "inspect"; image] (env w) in
  returncode (fst r) = 0 ->
  json_loads (stdout (fst r)) = Some j ->
  truthy j = false ->
  inspect_docker_image image w
  = (SysExit 1,
     World (snd r)
       (trace w
        ++ [colored ("Inspecting Docker image: " ++ image) Colors.YELLOW;
            Run ["docker"; "inspect"; image];
            colored "Failed to get image information." Colors.RED])).
Proof.
  cbv zeta. intros Hrc Hj Hempty.
  unfold VerifyDocker.inspect_docker_image, colored.
  unfold bind at 1, print_colored at 1, print, emit; cbn [fst snd].
  unfold bind at 1. rewrite run_command_checked by exact docker_starts.
  cbn [env trace].
  rewrite Hrc, Z.eqb_refl. cbv beta iota.
  unfold bind at 1. rewrite Hj. unfold ret at 1. cbv beta iota.
  rewrite Hempty. cbn [negb].
  py_step. cbn [app]. repeat rewrite <- app_assoc. reflexivity.
Qed.

Lemma error_report_is_output (command : list string) (p : completed) :
  Forall is_output (error_report command p).
Proof.
  unfold error_report, colored, line.
  destruct (negb (String.eqb (stdout p) ""));
    destruct (negb (String.eqb (stderr p) ""));
    cbn [app]; repeat constructor.
Qed.

(** ** The log scan *)

Lemma for_each_warnings (test : string -> bool) (text : string -> string)
    (color : string) (patterns : list string) (w : world R) :
  for_each patterns
    (fun pattern =>
       if test pattern then print_colored (text pattern) color else ret tt) w
  = (Ret tt,
     World (env w)
       (trace w
        ++ map (fun pattern => colored (text pattern) color)
               (filter test patterns))).
Proof.
  revert w. induction patterns as [ | p rest IH]; intros [st tr];
    cbn [for_each filter map].
  - unfold ret. cbn [env trace]. rewrite app_nil_r. reflexivity.
  - unfold bind at 1. destruct (test p).
    + unfold print_colored, print, emit. cbn [fst snd env trace].
      rewrite IH. cbn [env trace map]. unfold colored.
      rewrite <- app_assoc. reflexivity.
    + unfold ret at 1. rewrite IH. reflexivity.
Qed.

(** The two ways through [check_container_logs]: the logs are fetched,
    printed and scanned, which only prints warnings; or fetching them fails,
    which ends the run. *)
Lemma check_container_logs_run (container_name : string) (w : world R) :
  let r := runtime ["docker"; "logs"; container_name] (wait 2 (env w)) in
  check_container_logs container_name 10 w
  = if returncode (fst r) =? 0 then
      (Ret (stdout (fst r)),
       World (snd r)
         (trace w
          ++ [colored "Checking container logs (waiting up to 10 seconds)..."
                      Colors.YELLOW;
              Sleep 2;
              Run ["docker"; "logs"; container_name];
              colored "Container logs:" Colors.BLUE;
              line (stdout (fst r))]
          ++ log_warnings (stdout (fst r))))
    else
      (SysExit 1,
       World (snd r)
         (trace w
          ++ [colored "Checking container logs (waiting up to 10 seconds)..."
                      Colors.YELLOW;
              Sleep 2;
              Run ["docker"; "logs"; container_name]]
          ++ error_report ["docker"; "logs"; container_name] (fst r))).
Proof.
  cbv zeta. unfold VerifyDocker.check_container_logs, sleep, log_warnings.
  unfold bind at 1, print_colored at 1, print, emit; cbn [fst snd].
  unfold bind at 1. unfold bind at 1, emit; cbn [fst snd].
  unfold bind at 1, get_env; cbn [fst snd env].
  unfold set_env; cbn [fst snd env trace].
  unfold bind at 1. rewrite run_command_checked by exact docker_starts.
  cbn [env trace].
  destruct (returncode
              (fst (runtime ["docker"; "logs"; container_name]
                            (wait 2 (env w)))) =? 0).
  - unfold bind at 1, print_colored at 1, print, emit; cbn [fst snd].
    unfold bind at 1; cbn [fst snd].
    unfold bind at 1.
    rewrite (for_each_warnings
               (fun pattern =>
                  contains pattern
                    (stdout (fst (runtime ["docker"; "logs"; container_name]
                                          (wait 2 (env w))))))
               (fun pattern =>
                  "WARNING: Found potential error in logs: '" ++ pattern ++ "'")
               Colors.YELLOW).
    unfold ret, colored, line. cbn [env trace].
    repeat rewrite <- app_assoc. reflexivity.
  - unfold colored. cbn [app]. repeat rewrite <- app_assoc. reflexivity.
Qed.

End DockerStarts.

(** The guarded block is the four fatal stages followed by the log scan
    and the report of success. *)
Lemma pipeline_after_fatal_stages (image container_name config_dir : string)
    (w : world R) :
  pipeline image container_name config_dir w
  = bind (fatal_stages image container_name config_dir)
         (fun container_id =>
            logs <- check_container_logs container_name 10 ;;
            print_colored (nl ++ "Docker image verification successful!")
                          Colors.GREEN ;;;
            ret 0) w.
Proof.
  unfold VerifyDocker.pipeline, VerifyDocker.fatal_stages.
  rewrite bind_assoc. apply bind_ext. intros _ w1.
  rewrite bind_assoc. apply bind_ext. intros _ w2.
  rewrite bind_assoc. reflexivity.
Qed.

(** ** What a returned readiness check tells *)

(** Without the [docker] program the readiness check raises at its first
    query, so a readiness check that returned has started [docker]. *)
Lemma check_docker_running_not_started (why : launch_error) (w : world R) :
  launch "docker" = Some why ->
  check_docker_running w
  = (Raise (launch_exception why),
     World (env w)
       (trace w
        ++ [colored "Checking if Docker is running..." Colors.YELLOW;
            Run ["docker"; "info"]])).
Proof.
  intros L. unfold VerifyDocker.check_docker_running, colored.
  unfold bind at 1, print_colored at 1, print, emit; cbn [fst snd].
  unfold bind at 1. rewrite (run_command_not_started _ _ _ _ why) by exact L.
  cbn [env trace]. rewrite <- app_assoc. reflexivity.
Qed.

Lemma check_docker_running_started (w : world R) :
  fst (check_docker_running w) = Ret tt -> launch "docker" = None.
Proof.
  destruct (launch "docker") as [why | ] eqn:L; [ | reflexivity].
  rewrite (check_docker_running_not_started why w L).
  intros H. discriminate H.
Qed.

Lemma fatal_stages_started (image container_name config_dir : string)
    (w : world R) (container_id : string) :
  fst (fatal_stages image container_name config_dir w) = Ret container_id ->
  launch "docker" = None.
Proof.
  unfold VerifyDocker.fatal_stages, bind at 1.
  pose proof (check_docker_running_started w) as Started.
  destruct (check_docker_running w) as [[[] | e | c] w1]; cbn [fst] in *;
    [intros _; apply Started; reflexivity | | ];
    intros H; discriminate H.
Qed.

(** C8: once the runtime is ready, a pull that exits with a non-zero code
    ends the run with exit status 1, and so does an inspect whose output
    decodes to an empty value; in both cases the trace continues with the
    failing stage only (its command and what is printed about it) and
    then the teardown, so no later stage runs. *)
Theorem pull_failure_and_empty_inspect_are_fatal :
  forall (version : string) (image : option string)
         (container_name config_dir : string) (keep_container : bool)
         (w : world R),
    let name := image_name version image in
    let ready :=
      check_docker_running
        (World (env w)
           (trace w
            ++ [colored ("Verifying Docker image: " ++ name) Colors.YELLOW])) in
    fst ready = Ret tt ->
    let pulled := runtime ["docker"; "pull"; name] (env (snd ready)) in
    let inspected := runtime ["docker"; "inspect"; name] (snd pulled) in
    (returncode (fst pulled) <> 0 ->
     fst (main version image container_name config_dir keep_container w)
     = SysExit 1
     /\ run version image container_name config_dir keep_container w = 1
     /\ trace (snd (main version image container_name config_dir
                         keep_container w))
        = (trace (snd ready)
           ++ [colored ("Pulling Docker image: " ++ name) Colors.YELLOW;
               Run ["docker"; "pull"; name]]
           ++ error_report ["docker"; "pull"; name] (fst pulled)
           ++ cleanup_events container_name keep_container)%list
     /\ Forall is_output (error_report ["docker"; "pull"; name] (fst pulled)))
    /\ (returncode (fst pulled) = 0 ->
        returncode (fst inspected) = 0 ->
        forall j,
          json_loads (stdout (fst inspected)) = Some j ->
          truthy j = false ->
          fst (main version image container_name config_dir keep_container w)
          = SysExit 1
          /\ run version image container_name config_dir keep_container w = 1
          /\ trace (snd (main version image container_name config_dir
                              keep_container w))
             = (trace (snd ready)
                ++ [colored ("Pulling Docker image: " ++ name) Colors.YELLOW;
                    Run ["docker"; "pull"; name];
                    colored "Image pulled successfully." Colors.GREEN;
                    colored ("Inspecting Docker image: " ++ name)
                            Colors.YELLOW;
                    Run ["docker"; "inspect"; name];
                    colored "Failed to get image information." Colors.RED]
                ++ cleanup_events container_name keep_container)%list).
Proof.
  intros version image container_name config_dir keep_container w.
  cbv zeta. intros Ready.
  pose proof (check_docker_running_started _ Ready) as Docker.
  set (name := image_name version image) in *.
  set (w0 := World (env w)
               (trace w
                ++ [colored ("Verifying Docker image: " ++ name)
                            Colors.YELLOW])) in *.
  destruct (check_docker_running w0) as [o w1] eqn:Hready.
  cbn [fst snd] in Ready |- *. subst o.
  pose proof (pull_docker_image_run Docker name w1) as Hpull.
  cbv zeta in Hpull.
  split.
  - intros Failed. apply Z.eqb_neq in Failed. rewrite Failed in Hpull.
    assert (main version image container_name config_dir keep_container w
            = (SysExit 1,
               snd (cleanup container_name (abspath config_dir) keep_container
                      (snd (pull_docker_image name w1))))) as Hmain.
    { rewrite (main_unfold Docker). cbv zeta. fold name. fold w0.
      erewrite try_except_of_SysExit;
        [ | unfold VerifyDocker.pipeline;
            erewrite bind_of_Ret by exact Hready;
            apply bind_of_SysExit; exact Hpull].
      rewrite Hpull. reflexivity. }
    unfold VerifyDocker.run. rewrite Hmain, Hpull, (cleanup_run Docker).
    cbn [fst snd trace exit_code].
    split; [reflexivity | ]. split; [reflexivity | ].
    split; [ | apply error_report_is_output].
    repeat rewrite <- app_assoc. reflexivity.
  - intros Pulled Inspected j Hj Hempty.
    rewrite Pulled, Z.eqb_refl in Hpull.
    pose proof (inspect_docker_image_empty Docker name
                  (snd (pull_docker_image name w1)) j) as Hinspect.
    cbv zeta in Hinspect. rewrite Hpull in Hinspect.
    cbn [snd env trace] in Hinspect.
    specialize (Hinspect Inspected Hj Hempty).
    assert (main version image container_name config_dir keep_container w
            = (SysExit 1,
               snd (cleanup container_name (abspath config_dir) keep_container
                      (snd (inspect_docker_image name
                              (snd (pull_docker_image name w1)))))))
      as Hmain.
    { rewrite (main_unfold Docker). cbv zeta. fold name. fold w0.
      erewrite try_except_of_SysExit;
        [ | unfold VerifyDocker.pipeline;
            erewrite bind_of_Ret by exact Hready;
            erewrite bind_of_Ret by exact Hpull;
            apply bind_of_SysExit; exact Hinspect].
      rewrite Hpull. cbn [snd]. rewrite Hinspect. reflexivity. }
    unfold VerifyDocker.run. rewrite Hmain, Hpull. cbn [snd].
    rewrite Hinspect, (cleanup_run Docker).
    cbn [fst snd trace exit_code].
    split; [reflexivity | ]. split; [reflexivity | ].
    repeat rewrite <- app_assoc. reflexivity.
Qed.


End ContainerVerifier.

(** ** Instances on a concrete runtime *)



(** C2 (as stated): the claim has the stop and the removal of the test
    container attempted exactly once in every run that does not keep it.
    On a host without the [docker] program the readiness query raises, the
    error is reported, and the teardown raises in its turn when it tries to
    stop the container: the removal is never attempted. *)
Lemma removal_is_not_attempted_without_docker :
  ~ (forall (R : Type) (runtime : list string -> R -> completed * R)
            (launch : string -> option launch_error)
            (wait : Z -> R -> R)
            (host_makedirs : string -> R -> option exn * R)
            (json_loads : string -> option json)
            (abspath : string -> string) (str_of_exn : exn -> string)
            (repr_container : json -> string) (format_mb : Z -> string)
            (version : string) (image : option string)
            (container_name config_dir : string) (keep_container : bool)
            (st : R),
        let events :=
          trace (snd (main R runtime launch wait host_makedirs json_loads
                           abspath str_of_exn repr_container format_mb
                           version image container_name config_dir
                           keep_container (World st []))) in
        occurrences (stop_command container_name) events
        = (if keep_container then 0 else 1)%nat
        /\ occurrences (rm_command container_name) events
           = (if keep_container then 0 else 1)%nat).
Proof.
  intros claim.
  specialize (claim unit (DockerSamples.runtime 0 0 0 "inspect-output" "")
                MoreSamples.without_docker
                DockerSamples.wait DockerSamples.host_makedirs
                DockerSamples.json_loads DockerSamples.abspath
                DockerSamples.str_of_exn DockerSamples.repr_container
                DockerSamples.format_mb "latest" None "plex-subtitles-test"
                "./docker-test-config" false tt).
  cbv zeta in claim. destruct claim as [_ Removed].
  vm_compute in Removed. discriminate Removed.
Qed.

(** C5 (as stated): the claim has every run whose first readiness query
    fails wait and query the runtime once more.  On a host that has
    [docker] but not [sudo] the first query is answered with code 1, the
    attempt to start the runtime raises, and the run ends without a wait
    and with that one query only. *)
Lemma missing_sudo_skips_the_wait_and_the_second_check :
  ~ (forall (R : Type) (runtime : list string -> R -> completed * R)
            (launch : string -> option launch_error)
            (wait : Z -> R -> R)
            (host_makedirs : string -> R -> option exn * R)
            (json_loads : string -> option json)
            (abspath : string -> string) (str_of_exn : exn -> string)
            (repr_container : json -> string) (format_mb : Z -> string)
            (version : string) (image : option string)
            (container_name config_dir : string) (keep_container : bool)
            (st : R),
        launch "docker" = None ->
        returncode (fst (runtime ["docker"; "info"] st)) <> 0 ->
        let events :=
          trace (snd (main R runtime launch wait host_makedirs json_loads
                           abspath str_of_exn repr_container format_mb
                           version image container_name config_dir
                           keep_container (World st []))) in
        In (Sleep 5) events
        /\ occurrences ["docker"; "info"] events = 2%nat).
Proof.
  intros claim.
  specialize (claim unit (DockerSamples.runtime 1 0 0 "inspect-output" "")
                MoreSamples.without_sudo
                DockerSamples.wait DockerSamples.host_makedirs
                DockerSamples.json_loads DockerSamples.abspath
                DockerSamples.str_of_exn DockerSamples.repr_container
                DockerSamples.format_mb "latest" None "plex-subtitles-test"
                "./docker-test-config" false tt).
  cbv zeta in claim.
  destruct claim as [_ Twice]; [reflexivity | discriminate | ].
  vm_compute in Twice. discriminate Twice.
Qed.

(** An instance of C5: the runtime never answers; with [sudo] the run
    ends with exit status 1 after the second query, and without [sudo] it
    returns 1 after the failed attempt to start the runtime. *)
Lemma unreachable_runtime_example :
  returncode
    (fst (DockerSamples.runtime 1 0 0 "inspect-output" ""
                                ["docker"; "info"] tt)) <> 0
  /\ fst (DockerSamples.main_on 1 0 0 "inspect-output" "" false) = SysExit 1
  /\ fst (MoreSamples.main_with MoreSamples.without_sudo 1 0 0
                                "inspect-output" "" false) = Ret 1.
Proof.
  assert (returncode
            (fst (DockerSamples.runtime 1 0 0 "inspect-output" ""
                                        ["docker"; "info"] tt)) <> 0)
    as Down by discriminate.
  split; [exact Down | ]. split.
  - exact (proj1
             (proj2
                (proj1
                   (unreachable_runtime_is_started_and_checked_once_more unit
                      (DockerSamples.runtime 1 0 0 "inspect-output" "")
                      DockerSamples.installed
                      DockerSamples.wait DockerSamples.host_makedirs
                      DockerSamples.json_loads DockerSamples.abspath
                      DockerSamples.str_of_exn DockerSamples.repr_container
                      DockerSamples.format_mb eq_refl "latest" None
                      "plex-subtitles-test" "./docker-test-config" false
                      (World tt []) Down)
                   eq_refl)
                Down)).
  - exact (proj1
             (proj2
                (unreachable_runtime_is_started_and_checked_once_more unit
                   (DockerSamples.runtime 1 0 0 "inspect-output" "")
                   MoreSamples.without_sudo
                   DockerSamples.wait DockerSamples.host_makedirs
                   DockerSamples.json_loads DockerSamples.abspath
                   DockerSamples.str_of_exn DockerSamples.repr_container
                   DockerSamples.format_mb eq_refl "latest" None
                   "plex-subtitles-test" "./docker-test-config" false
                   (World tt []) Down)
                NotInstalled eq_refl)).
Defined.

(** An instance of C8: the runtime is ready and the pull fails; the run
    ends with exit status 1.  With a successful pull and an inspect output
    that decodes to the empty list it ends with exit status 1 as well. *)
Lemma pull_failure_and_empty_inspect_example :
  fst (DockerSamples.main_on 0 1 0 "inspect-output" "" false) = SysExit 1
  /\ fst (DockerSamples.main_on 0 0 0 "empty-list" "" false) = SysExit 1.
Proof.
  split.
  - refine (proj1
              (proj1
                 (pull_failure_and_empty_inspect_are_fatal unit
                    (DockerSamples.runtime 0 1 0 "inspect-output" "")
                    DockerSamples.installed
                    DockerSamples.wait DockerSamples.host_makedirs
                    DockerSamples.json_loads DockerSamples.abspath
                    DockerSamples.str_of_exn DockerSamples.repr_container
                    DockerSamples.format_mb "latest" None
                    "plex-subtitles-test" "./docker-test-config" false
                    (World tt []) _)
                 _)).
    + vm_compute. reflexivity.
    + vm_compute. discriminate.
  - refine (proj1
              (proj2
                 (pull_failure_and_empty_inspect_are_fatal unit
                    (DockerSamples.runtime 0 0 0 "empty-list" "")
                    DockerSamples.installed
                    DockerSamples.wait DockerSamples.host_makedirs
                    DockerSamples.json_loads DockerSamples.abspath
                    DockerSamples.str_of_exn DockerSamples.repr_container
                    DockerSamples.format_mb "latest" None
                    "plex-subtitles-test" "./docker-test-config" false
                    (World tt []) _)
                 _ _ (JArray []) _ _)).
    + vm_compute. reflexivity.
    + vm_compute. reflexivity.
    + vm_compute. reflexivity.
    + vm_compute. reflexivity.
    + reflexivity.
Defined.

(* ================================================================== *)
(** * More about the build verifier: paths and the exit status *)
(* ================================================================== *)

Import VerifyBuild.

(** ** Components of a joined path *)

Lemma split_acc_nonempty (cur s : string) :
  cur <> "" -> split_acc cur s <> [].
Proof.
  revert cur. induction s as [ | c s IH]; intros cur Hcur; cbn [split_acc].
  - destruct (String.eqb_spec cur ""); [contradiction | discriminate].
  - destruct (Ascii.eqb c "/").
    + destruct (String.eqb_spec cur ""); [contradiction | discriminate].
    + apply IH. destruct cur; discriminate.
Qed.

Lemma split_acc_app_slash (cur a b : string) :
  split_acc cur (a ++ String "/" b)
  = (split_acc cur a ++ split_acc "" b)%list.
Proof.
  revert cur. induction a as [ | c a IH]; intros cur.
  - change ("" ++ String "/" b) with (String "/" b). cbn [split_acc].
    rewrite Ascii.eqb_refl.
    destruct (String.eqb cur ""); reflexivity.
  - change (String c a ++ String "/" b) with (String c (a ++ String "/" b)).
    cbn [split_acc]. destruct (Ascii.eqb c "/").
    + rewrite IH, app_assoc. reflexivity.
    + apply IH.
Qed.

Lemma endswith_slash (a : string) :
  endswith "/" a = true -> exists a0, a = a0 ++ "/".
Proof.
  induction a as [ | c a IH].
  - discriminate.
  - change (endswith "/" (String c a))
      with (String.eqb "/" (String c a) || endswith "/" a).
    destruct (String.eqb_spec "/" (String c a)) as [E | _]; cbn [orb].
    + intros _. exists "". rewrite <- E. reflexivity.
    + intros H. destruct (IH H) as [a0 ->]. exists (String c a0). reflexivity.
Qed.

Lemma append_assoc (a b c : string) : (a ++ b) ++ c = a ++ (b ++ c).
Proof.
  induction a as [ | x a IH]; [reflexivity | ].
  change ((String x a ++ b) ++ c) with (String x ((a ++ b) ++ c)).
  rewrite IH. reflexivity.
Qed.

(** Joining a relative name to a directory appends the components of the
    name to those of the directory. *)
Lemma split_path_join2 (a b : string) :
  startswith "/" b = false ->
  split_path (join2 a b) = (split_path a ++ split_path b)%list.
Proof.
  intros Hrel. unfold join2, split_path. rewrite Hrel.
  destruct (String.eqb_spec a "") as [-> | Ha]; cbn [orb].
  - reflexivity.
  - destruct (endswith "/" a) eqn:Hend.
    + destruct (endswith_slash a Hend) as [a0 ->].
      rewrite append_assoc.
      change ("/" ++ b) with (String "/" b).
      change (a0 ++ "/") with (a0 ++ String "/" "").
      rewrite !split_acc_app_slash.
      change (split_acc "" "") with (@nil string).
      rewrite app_nil_r. reflexivity.
    + change ("/" ++ b) with (String "/" b). apply split_acc_app_slash.
Qed.

Lemma resolve_app (n : node) (p q : list string) :
  resolve n (p ++ q)
  = match resolve n p with
    | Some m => resolve m q
    | None => None
    end.
Proof.
  revert n. induction p as [ | c p IH]; intros n; cbn [app resolve].
  - reflexivity.
  - destruct n as [size mode who | es]; [reflexivity | ].
    destruct (find_entry c es); [apply IH | reflexivity].
Qed.

(** A regular file named by a name joined to a directory path lies in a
    directory that the directory path names. *)
Lemma lookup_joined_file (fs : node) (a : string) (c : ascii) (n : string)
    (size mode : Z) (who : accessor) :
  a <> "" ->
  Ascii.eqb c "/" = false ->
  lookup fs (join2 a (String c n)) = Some (File size mode who) ->
  exists es, lookup fs a = Some (Dir es).
Proof.
  intros Ha Hc. unfold lookup.
  destruct (String.eqb_spec (join2 a (String c n)) "");
    [intros H; discriminate H | ].
  destruct (String.eqb_spec a ""); [contradiction | ].
  rewrite split_path_join2.
  2:{ change (startswith "/" (String c n))
        with (Ascii.eqb "/" c && startswith "" n).
      rewrite Ascii.eqb_sym, Hc. reflexivity. }
  rewrite resolve_app.
  assert (split_path (String c n) <> []) as Hn.
  { unfold split_path. cbn [split_acc]. rewrite Hc.
    apply split_acc_nonempty. discriminate. }
  destruct (split_path (String c n)) as [ | c0 q]; [contradiction | ].
  destruct (resolve fs (split_path a)) as [[s m o | es] | ];
    cbn [resolve]; intros H; try discriminate H.
  eauto.
Qed.

(** ** Computations that never call [sys.exit] *)

Section NeverExits.

Context {E : Type}.

Lemma never_exits_ret {A} (a : A) : never_exits (ret a : M E A).
Proof. intros w. exact I. Qed.

Lemma never_exits_raise {A} (e : exn) : never_exits (raise e : M E A).
Proof. intros w. exact I. Qed.

Lemma never_exits_emit (ev : event) : never_exits (emit ev : M E unit).
Proof. intros w. exact I. Qed.

Lemma never_exits_get_env : never_exits (get_env : M E E).
Proof. intros w. exact I. Qed.

Lemma never_exits_set_env (e : E) : never_exits (set_env e).
Proof. intros w. exact I. Qed.

Lemma never_exits_bind {A B} (m : M E A) (k : A -> M E B) :
  never_exits m -> (forall a, never_exits (k a)) -> never_exits (bind m k).
Proof.
  intros Hm Hk w. unfold bind. specialize (Hm w).
  destruct (m w) as [[a | e | c] w1]; cbn [fst] in Hm |- *;
    [apply Hk | exact I | exact Hm].
Qed.

Lemma never_exits_try_except {A} (catches : exn -> bool) (body : M E A)
    (handler : exn -> M E A) :
  never_exits body -> (forall e, never_exits (handler e)) ->
  never_exits (try_except catches body handler).
Proof.
  intros Hb Hh w. unfold try_except. specialize (Hb w).
  destruct (body w) as [[a | e | c] w1]; cbn [fst] in Hb |- *;
    [exact I | | exact Hb].
  destruct (catches e); [apply Hh | exact I].
Qed.

Lemma never_exits_for_each {A} (l : list A) (body : A -> M E unit) :
  (forall a, never_exits (body a)) -> never_exits (for_each l body).
Proof.
  intros Hb. induction l as [ | a l IH]; cbn [for_each].
  - apply never_exits_ret.
  - apply never_exits_bind; auto.
Qed.

End NeverExits.

Ltac never_exits_split :=
  repeat
    first
      [ apply never_exits_ret | apply never_exits_raise
      | apply never_exits_emit | apply never_exits_get_env
      | apply never_exits_set_env
      | apply never_exits_bind; [ | intros ]
      | apply never_exits_try_except; [ | intros ]
      | apply never_exits_for_each; intros
      | match goal with
        | |- never_exits (let _ := _ in _) => cbv zeta
        | |- never_exits (if ?c then _ else _) => destruct c
        | |- never_exits (match ?x with _ => _ end) => destruct x
        end ].

(** ** The exit status of the build verifier *)

Section ExitStatus.

Variable system : list string -> node -> completed * node.
Variable launch : string -> option launch_error.
Variable glob_dirs : node -> string -> list string.
Variable version : string.

Local Notation build_for_platform :=
  (VerifyBuild.build_for_platform system launch glob_dirs).
Local Notation platform_loop :=
  (VerifyBuild.platform_loop system launch glob_dirs).
Local Notation loop_outcomes :=
  (VerifyBuild.loop_outcomes system launch glob_dirs).
Local Notation find_repo_root := (VerifyBuild.find_repo_root system launch).
Local Notation main := (VerifyBuild.main system launch glob_dirs).
Local Notation run := (VerifyBuild.run system launch glob_dirs).

Lemma build_for_platform_never_exits
    (platform_name build_dir assets_dir : string) :
  never_exits (build_for_platform platform_name version build_dir assets_dir).
Proof.
  unfold VerifyBuild.build_for_platform, subprocess_run, copy2, chmod, store,
    check_executable, getsize, listdir, print_colored, print_no_newline,
    print.
  cbn iota. never_exits_split.
Qed.

Lemma platform_loop_never_exits (build_dir assets_dir : string)
    (success : bool) (platforms : list string) :
  never_exits (platform_loop version build_dir assets_dir success platforms).
Proof.
  revert success.
  induction platforms as [ | p rest IH]; intros success;
    cbn [VerifyBuild.platform_loop].
  - apply never_exits_ret.
  - apply never_exits_bind.
    + unfold print_colored, print. never_exits_split.
    + intros _. apply never_exits_bind;
        [apply build_for_platform_never_exits | ].
      intros ok. apply IH.
Qed.

(** The warning about an unknown platform always returns. *)
Lemma warning_returns (platform_name : string) (w : world node) :
  (if negb (existsb (String.eqb platform_name) PLATFORMS)
   then print_colored ("WARNING: Unknown platform " ++ platform_name)
                      Colors.YELLOW
   else ret tt) w
  = (Ret tt,
     snd ((if negb (existsb (String.eqb platform_name) PLATFORMS)
           then print_colored ("WARNING: Unknown platform " ++ platform_name)
                              Colors.YELLOW
           else ret tt) w)).
Proof.
  destruct (negb (existsb (String.eqb platform_name) PLATFORMS)); reflexivity.
Qed.

(** The loop returns [True] from [success = True] exactly when every call
    of [build_for_platform] returned [True]. *)
Lemma loop_outcomes_true_iff (build_dir assets_dir : string)
    (platforms : list string) (w : world node) :
  loop_outcomes version build_dir assets_dir platforms w
  = map (fun _ => Ret true) platforms
  <-> exists w',
        platform_loop version build_dir assets_dir true platforms w
        = (Ret true, w').
Proof.
  revert w. induction platforms as [ | p rest IH]; intros w;
    cbn [VerifyBuild.loop_outcomes VerifyBuild.platform_loop map].
  - split; [intros _; eexists; reflexivity | reflexivity].
  - rewrite (bind_of_Ret _ _ _ _ _ (warning_returns p w)).
    set (w1 := snd ((if negb (existsb (String.eqb p) PLATFORMS)
                     then print_colored ("WARNING: Unknown platform " ++ p)
                                        Colors.YELLOW
                     else ret tt) w)).
    unfold bind.
    destruct (VerifyBuild.build_for_platform system launch glob_dirs p version
                build_dir assets_dir w1) as [[[ | ] | e | c] w2].
    + cbn [negb]. rewrite <- IH.
      split; [intros H; injection H; auto | intros ->; reflexivity].
    + cbn [negb]. split.
      * intros H. discriminate H.
      * intros [w' H]. apply platform_loop_false in H. discriminate H.
    + split; [intros H; discriminate H | intros [w' H]; discriminate H].
    + split; [intros H; discriminate H | intros [w' H]; discriminate H].
Qed.

(** When the loop over a non-empty list returns [True], its last call of
    [build_for_platform] returned [True] in the final world. *)
Lemma platform_loop_true_last (build_dir assets_dir : string)
    (platforms : list string) (w w' : world node) :
  platforms <> [] ->
  platform_loop version build_dir assets_dir true platforms w
  = (Ret true, w') ->
  exists platform_name wl,
    build_for_platform platform_name version build_dir assets_dir wl
    = (Ret true, w').
Proof.
  revert w. induction platforms as [ | p rest IH]; intros w Hne H;
    [contradiction | ].
  cbn [VerifyBuild.platform_loop] in H.
  rewrite (bind_of_Ret _ _ _ _ _ (warning_returns p w)) in H.
  apply bind_Ret in H as (ok & w2 & Hb & H).
  destruct ok; cbn [negb] in H.
  - destruct rest as [ | q rest'].
    + cbn [VerifyBuild.platform_loop] in H. injection H as <-. eauto.
    + eapply IH; [discriminate | exact H].
  - apply platform_loop_false in H. discriminate H.
Qed.

(** [find_repo_root] raises when [git] cannot be started; otherwise it
    returns what [git] printed, stripped, or exits with status 1. *)
Lemma find_repo_root_run (w : world node) :
  let r := system ["git"; "rev-parse"; "--show-toplevel"] (env w) in
  find_repo_root w
  = match launch "git" with
    | Some why =>
        (Raise (launch_exception why),
         World (env w)
               (trace w ++ [Run ["git"; "rev-parse"; "--show-toplevel"]]))
    | None =>
        if returncode (fst r) =? 0 then
          (Ret (strip (stdout (fst r))),
           World (snd r)
                 (trace w ++ [Run ["git"; "rev-parse"; "--show-toplevel"]]))
        else
          (SysExit 1,
           World (snd r)
                 (trace w
                  ++ [Run ["git"; "rev-parse"; "--show-toplevel"];
                      colored "Error: Not a git repository" Colors.RED]))
    end.
Proof.
  cbv zeta. unfold VerifyBuild.find_repo_root, subprocess_run, colored.
  py_step.
  destruct (launch "git") as [why | ]; py_step;
    [destruct why; reflexivity | ].
  destruct (returncode
              (fst (system ["git"; "rev-parse"; "--show-toplevel"] (env w)))
            =? 0); py_step; [reflexivity | ].
  rewrite <- app_assoc. reflexivity.
Qed.

Lemma makedirs_never_exits (path : string) : never_exits (makedirs path).
Proof. unfold makedirs. never_exits_split. Qed.

Lemma for_each_print_returns {A} (text : A -> string) (l : list A)
    (w : world node) :
  exists w', for_each l (fun item => print (text item)) w = (Ret tt, w').
Proof.
  revert w. induction l as [ | a l IH]; intros w; cbn [for_each].
  - eexists. reflexivity.
  - unfold bind, print, emit. cbn [fst snd]. apply IH.
Qed.

Lemma join2_nonempty (a b : string) : b <> "" -> join2 a b <> "".
Proof.
  intros Hb. unfold join2.
  destruct (startswith "/" b); [exact Hb | ].
  destruct (String.eqb a "" || endswith "/" a).
  - destruct a; [exact Hb | discriminate].
  - destruct a; discriminate.
Qed.

(** The end of a run whose loop returned [True]: the release-assets
    directory can be listed, so [main] returns 0. *)
Lemma main_after_success (assets_dir : string) (es : list (string * node))
    (w : world node) :
  lookup (env w) assets_dir = Some (Dir es) ->
  exists w',
    (print_colored (nl ++ "All build assets verified successfully!")
                   Colors.GREEN ;;;
     print ("Release assets are available in: " ++ assets_dir) ;;;
     items <- listdir assets_dir ;;
     for_each items (fun item => print ("  " ++ item)) ;;;
     ret 0) w = (Ret 0, w').
Proof.
  intros L. unfold listdir.
  unfold bind at 1, print_colored at 1, print at 1, emit; cbn [fst snd].
  unfold bind at 1, print at 1, emit; cbn [fst snd].
  unfold bind at 1. unfold bind at 1, get_env; cbn [fst snd env].
  rewrite L. unfold ret at 1.
  unfold bind at 1.
  match goal with
  | |- context [for_each ?l ?body ?w0] =>
      destruct (for_each_print_returns (fun item => "  " ++ item) l w0)
        as [w1 Hfor]
  end.
  rewrite Hfor. eexists. reflexivity.
Qed.

(** X1: for a non-empty list of platforms, the exit status of the build
    verifier is 0 exactly when the repository root was found, the
    release-assets directory could be created, and every call of
    [build_for_platform], one per requested platform and in their order,
    returned [True]. *)
Theorem exit_status_zero_iff_all_platforms_succeed :
  forall (platforms : list string) (w : world node),
    platforms <> [] ->
    (run version platforms w = 0
     <->
     exists repo_root w1 w2,
       find_repo_root w = (Ret repo_root, w1)
       /\ makedirs (path_join repo_root ["release-assets"]) w1 = (Ret tt, w2)
       /\ loop_outcomes version
            (path_join repo_root ["bin"; "Release"; "net9.0"])
            (path_join repo_root ["release-assets"]) platforms
            (World (env w2)
               (trace w2
                ++ [colored ("Verifying build assets for version " ++ version)
                            Colors.YELLOW]))
          = map (fun _ => Ret true) platforms).
Proof.
  intros platforms w Hne. unfold VerifyBuild.run, VerifyBuild.main.
  pose proof (find_repo_root_run w) as Hroot. cbv zeta in Hroot.
  destruct (launch "git") as [why | ].
  { rewrite (bind_of_Raise _ _ _ _ _ Hroot). cbn [fst exit_code].
    split; [discriminate | ].
    intros (repo_root & w1 & w2 & Hr & _). rewrite Hroot in Hr.
    discriminate Hr. }
  destruct (returncode
              (fst (system ["git"; "rev-parse"; "--show-toplevel"] (env w)))
            =? 0).
  2:{ rewrite (bind_of_SysExit _ _ _ _ _ Hroot). cbn [fst exit_code].
      split; [discriminate | ].
      intros (repo_root & w1 & w2 & Hr & _). rewrite Hroot in Hr.
      discriminate Hr. }
  rewrite (bind_of_Ret _ _ _ _ _ Hroot).
  set (repo_root :=
         strip (stdout (fst (system ["git"; "rev-parse"; "--show-toplevel"]
                                    (env w))))) in *.
  set (w1 := World (snd (system ["git"; "rev-parse"; "--show-toplevel"]
                                (env w)))
                   (trace w ++ [Run ["git"; "rev-parse"; "--show-toplevel"]]))
    in *.
  set (build_dir := path_join repo_root ["bin"; "Release"; "net9.0"]).
  set (assets_dir := path_join repo_root ["release-assets"]).
  pose proof (makedirs_never_exits assets_dir w1) as Hmk.
  destruct (makedirs assets_dir w1) as [[[] | e | c] w2] eqn:Emk;
    cbn [fst] in Hmk; [ | | contradiction].
  2:{ rewrite (bind_of_Raise _ _ _ _ _ Emk). cbn [fst exit_code].
      split; [discriminate | ].
      intros (r' & w1' & w2' & Hr & Hm & _). rewrite Hroot in Hr.
      injection Hr as <- <-. fold assets_dir in Hm. rewrite Emk in Hm.
      discriminate Hm. }
  rewrite (bind_of_Ret _ _ _ _ _ Emk).
  unfold bind at 1, print_colored at 1, print at 1, emit; cbn [fst snd].
  set (w3 := World (env w2)
               (trace w2
                ++ [Out ((Colors.YELLOW
                          ++ ("Verifying build assets for version " ++ version)
                          ++ Colors.NC) ++ nl)])).
  assert (forall P : Prop,
             (loop_outcomes version build_dir assets_dir platforms w3
              = map (fun _ => Ret true) platforms <-> P) ->
             ((exists r' w1' w2',
                  (Ret repo_root, w1) = (Ret r', w1')
                  /\ makedirs (path_join r' ["release-assets"]) w1'
                     = (Ret tt, w2')
                  /\ loop_outcomes version
                       (path_join r' ["bin"; "Release"; "net9.0"])
                       (path_join r' ["release-assets"]) platforms
                       (World (env w2')
                          (trace w2'
                           ++ [colored ("Verifying build assets for version "
                                        ++ version) Colors.YELLOW]))
                     = map (fun _ => Ret true) platforms) <-> P)) as Hex.
  { intros P HP. rewrite <- HP. split.
    - intros (r' & w1' & w2' & Hr & Hm & Ho).
      injection Hr as <- <-. fold assets_dir in Hm. rewrite Emk in Hm.
      injection Hm as <-. exact Ho.
    - intros Ho. exists repo_root, w1, w2. auto. }
  rewrite Hroot. apply iff_sym, Hex. clear Hex.
  rewrite loop_outcomes_true_iff.
  pose proof (platform_loop_never_exits build_dir assets_dir true platforms w3)
    as Hloop.
  destruct (VerifyBuild.platform_loop system launch glob_dirs version
              build_dir assets_dir true platforms w3)
    as [[[ | ] | e | c] w4] eqn:Eloop;
    cbn [fst] in Hloop; [ | | | contradiction].
  - rewrite (bind_of_Ret _ _ _ _ _ Eloop).
    destruct (platform_loop_true_last build_dir assets_dir platforms w3 w4
                Hne Eloop) as (p & wl & Hlast).
    apply build_for_platform_true_target in Hlast
      as (size & mode & who & Htarget & _).
    unfold path_join in Htarget at 1. cbn [fold_left] in Htarget.
    assert (exists es, lookup (env w4) assets_dir = Some (Dir es))
      as [es Hdir].
    { eapply (lookup_joined_file (env w4) assets_dir "R"
                ("ewindSubtitleDisplayerForPlex_" ++ version ++ "_" ++ p
                 ++ (if String.eqb p "win-x64" then ".exe" else ""))).
      - unfold assets_dir, path_join. cbn [fold_left].
        apply join2_nonempty. discriminate.
      - reflexivity.
      - exact Htarget. }
    destruct (main_after_success assets_dir es w4 Hdir) as [w5 Hend].
    rewrite Hend. cbn [fst exit_code].
    split; [intros _; reflexivity | eauto].
  - rewrite (bind_of_Ret _ _ _ _ _ Eloop). py_step. cbn [exit_code].
    split; [intros [w' H]; discriminate H | discriminate].
  - rewrite (bind_of_Raise _ _ _ _ _ Eloop). cbn [fst exit_code].
    split; [intros [w' H]; discriminate H | discriminate].
Qed.

End ExitStatus.

(** An instance of X1: on a tool chain that builds both requested
    platforms the exit status is 0. *)
Lemma exit_status_zero_example :
  ["win-x64"; "linux-x64"] <> []
  /\ VerifyBuild.run (Samples.toolchain "net9.0" 2000000 493)
       Samples.installed Samples.no_patterns "1.2.3"
       ["win-x64"; "linux-x64"] (World Samples.fs_repo []) = 0.
Proof.
  assert (["win-x64"; "linux-x64"] <> []) as Hne by discriminate.
  split; [exact Hne | ].
  apply (proj2 (exit_status_zero_iff_all_platforms_succeed
                  (Samples.toolchain "net9.0" 2000000 493)
                  Samples.installed Samples.no_patterns "1.2.3"
                  ["win-x64"; "linux-x64"] (World Samples.fs_repo []) Hne)).
  eexists. eexists. eexists.
  split; [vm_compute; reflexivity | ].
  split; vm_compute; reflexivity.
Defined.

(* ================================================================== *)
(** * More about the container verifier *)
(* ================================================================== *)

Import VerifyDocker.

(** A loop that only prints returns, with one line per item. *)
Lemma for_each_print_run {E A} (text : A -> string) (l : list A)
    (w : world E) :
  for_each l (fun item => print (text item)) w
  = (Ret tt,
     World (env w) (trace w ++ map (fun item => Out (text item ++ nl)) l)).
Proof.
  revert w. induction l as [ | a l IH]; intros [st tr]; cbn [for_each map].
  - unfold ret. cbn [env trace]. rewrite app_nil_r. reflexivity.
  - unfold bind, print, emit. cbn [fst snd env trace].
    rewrite IH. cbn [env trace]. rewrite <- app_assoc. reflexivity.
Qed.

(** ** Computations whose only exit code is 1 *)

Section ExitsOnlyWith.

Context {E : Type} (code : Z).











End ExitsOnlyWith.


Section ContainerVerifierMore.

Variable R : Type.
Variable runtime : list string -> R -> completed * R.
Variable launch : string -> option launch_error.
Variable wait : Z -> R -> R.
Variable host_makedirs : string -> R -> option exn * R.
Variable json_loads : string -> option json.
Variable abspath : string -> string.
Variable str_of_exn : exn -> string.
Variable repr_container : json -> string.
Variable format_mb : Z -> string.

Local Notation run_command := (VerifyDocker.run_command R runtime launch).
Local Notation check_docker_running :=
  (VerifyDocker.check_docker_running R runtime launch wait).
Local Notation pull_docker_image :=
  (VerifyDocker.pull_docker_image R runtime launch).
Local Notation inspect_docker_image :=
  (VerifyDocker.inspect_docker_image R runtime launch json_loads
                                     repr_container format_mb).
Local Notation run_docker_container :=
  (VerifyDocker.run_docker_container R runtime launch host_makedirs).
Local Notation check_container_logs :=
  (VerifyDocker.check_container_logs R runtime launch wait).
Local Notation cleanup := (VerifyDocker.cleanup R runtime launch).
Local Notation fatal_stages :=
  (VerifyDocker.fatal_stages R runtime launch wait host_makedirs json_loads
                             repr_container format_mb).
Local Notation pipeline :=
  (VerifyDocker.pipeline R runtime launch wait host_makedirs json_loads
                         repr_container format_mb).
Local Notation main :=
  (VerifyDocker.main R runtime launch wait host_makedirs json_loads abspath
                     str_of_exn repr_container format_mb).
Local Notation run :=
  (VerifyDocker.run R runtime launch wait host_makedirs json_loads abspath
                    str_of_exn repr_container format_mb).
Local Notation py_str := (VerifyDocker.py_str repr_container).

(** ** The exit status *)





(** X5: an exception raised anywhere in the guarded block is caught by
    [main], which prints the error and goes on to the teardown; the exit
    status is 1.  When the container is kept, or the [docker] program can
    be started, the teardown returns and so [main] returns 1.  When the
    container is not kept and [docker] cannot be started, the teardown
    raises when it tries to stop the container, and [main] ends with that
    exception. *)
Theorem exception_in_pipeline_gives_exit_status_one :
  forall (version : string) (image : option string)
         (container_name config_dir : string) (keep_container : bool)
         (w : world R) (e : exn),
    let guarded :=
      pipeline (image_name version image) container_name (abspath config_dir)
        (World (env w)
           (trace w
            ++ [colored ("Verifying Docker image: "
                         ++ image_name version image) Colors.YELLOW])) in
    fst guarded = Raise e ->
    run version image container_name config_dir keep_container w = 1
    /\ (keep_container = true \/ launch "docker" = None ->
        fst (main version image container_name config_dir keep_container w)
        = Ret 1
        /\ trace (snd (main version image container_name config_dir
                            keep_container w))
           = (trace (snd guarded)
              ++ [colored ("Error during verification: " ++ str_of_exn e)
                          Colors.RED]
              ++ cleanup_events container_name keep_container)%list)
    /\ (keep_container = false ->
        forall why,
          launch "docker" = Some why ->
          fst (main version image container_name config_dir keep_container w)
          = Raise (launch_exception why)
          /\ trace (snd (main version image container_name config_dir
                              keep_container w))
             = (trace (snd guarded)
                ++ [colored ("Error during verification: " ++ str_of_exn e)
                            Colors.RED]
                ++ aborted_cleanup_events container_name)%list).
Proof.
  intros version image container_name config_dir keep_container w e.
  cbv zeta. intros Raised.
  unfold VerifyDocker.run. rewrite main_cases. cbv zeta.
  rewrite cleanup_cases. unfold try_except.
  destruct (pipeline _ _ _ _) as [o w1]. cbn [fst snd] in Raised |- *.
  subst o. cbn [any_Exception]. unfold colored. py_step.
  destruct keep_container; [ | destruct (launch "docker") as [why0 | ]];
    cbn [fst snd trace exit_code].
  - split; [reflexivity | ]. split; [ | intros K; discriminate K].
    intros _. split; [reflexivity | ].
    repeat rewrite <- app_assoc. reflexivity.
  - split; [reflexivity | ].
    split; [intros [K | K]; discriminate K | ].
    intros _ why L. injection L as <-. split; [reflexivity | ].
    repeat rewrite <- app_assoc. reflexivity.
  - split; [reflexivity | ]. split; [ | intros _ why L; discriminate L].
    intros _. split; [reflexivity | ].
    repeat rewrite <- app_assoc. reflexivity.
Qed.

(** X6: when the four fatal stages have succeeded and [docker logs] exits
    with a non-zero code, the run reports the failed command, tears the
    container down and exits with status 1; the logs are neither printed
    nor scanned. *)
Theorem failed_log_fetch_is_fatal :
  forall (version : string) (image : option string)
         (container_name config_dir : string) (keep_container : bool)
         (w : world R) (container_id : string),
    let name := image_name version image in
    let started :=
      fatal_stages name container_name (abspath config_dir)
        (World (env w)
           (trace w
            ++ [colored ("Verifying Docker image: " ++ name) Colors.YELLOW])) in
    fst started = Ret container_id ->
    let fetched :=
      fst (runtime ["docker"; "logs"; container_name]
                   (wait 2 (env (snd started)))) in
    returncode fetched <> 0 ->
    fst (main version image container_name config_dir keep_container w)
    = SysExit 1
    /\ run version image container_name config_dir keep_container w = 1
    /\ trace (snd (main version image container_name config_dir
                        keep_container w))
       = (trace (snd started)
          ++ [colored "Checking container logs (waiting up to 10 seconds)..."
                      Colors.YELLOW;
              Sleep 2;
              Run ["docker"; "logs"; container_name]]
          ++ error_report ["docker"; "logs"; container_name] fetched
          ++ cleanup_events container_name keep_container)%list.
Proof.
  intros version image container_name config_dir keep_container w container_id.
  cbv zeta. intros Started Failed. apply Z.eqb_neq in Failed.
  pose proof (fatal_stages_started R runtime launch wait host_makedirs
                json_loads repr_container format_mb _ _ _ _ _ Started)
    as Docker.
  set (name := image_name version image) in *.
  set (w0 := World (env w)
               (trace w
                ++ [colored ("Verifying Docker image: " ++ name)
                            Colors.YELLOW])) in *.
  destruct (fatal_stages name container_name (abspath config_dir) w0)
    as [o w4] eqn:Hstages.
  cbn [fst snd] in Started, Failed |- *. subst o.
  pose proof (check_container_logs_run R runtime launch wait Docker
                container_name w4) as Hlogs.
  cbv zeta in Hlogs. rewrite Failed in Hlogs.
  assert (pipeline name container_name (abspath config_dir) w0
          = (SysExit 1, snd (check_container_logs container_name 10 w4)))
    as Hpipe.
  { rewrite pipeline_after_fatal_stages.
    erewrite bind_of_Ret by exact Hstages.
    erewrite bind_of_SysExit by exact Hlogs.
    rewrite Hlogs. reflexivity. }
  unfold VerifyDocker.run. rewrite main_unfold by exact Docker. cbv zeta.
  fold name. fold w0.
  erewrite try_except_of_SysExit by exact Hpipe.
  rewrite Hlogs, cleanup_run by exact Docker. cbn [fst snd trace exit_code].
  split; [reflexivity | ]. split; [reflexivity | ].
  repeat rewrite <- app_assoc. reflexivity.
Qed.

(** ** Inspecting the image *)

(** After a successful inspect command whose output decodes to a value
    that counts as true, the function goes on with the decoded value. *)
Lemma inspect_docker_image_decoded (image : string) (w : world R) (j : json) :
  launch "docker" = None ->
  let r := runtime ["docker"; "inspect"; image] (env w) in
  returncode (fst r) = 0 ->
  json_loads (stdout (fst r)) = Some j ->
  truthy j = true ->
  inspect_docker_image image w
  = (first <- item0 j ;;
     image_id <- getitem first "Id" ;;
     created <- getitem first "Created" ;;
     size <- getitem first "Size" ;;
     print ("Image ID: " ++ py_str image_id) ;;;
     print ("Created: " ++ py_str created) ;;;
     mb <- megabytes format_mb size ;;
     print ("Size: " ++ py_str size ++ " bytes (" ++ mb ++ " MB)") ;;;
     config <- get first "Config" (JObject []) ;;
     labels <- get config "Labels" (JObject []) ;;
     print (nl ++ "Image Labels:") ;;;
     pairs <- items labels ;;
     for_each pairs
       (fun kv => print ("  " ++ fst kv ++ ": " ++ py_str (snd kv))) ;;;
     ret j)
      (World (snd r)
         (trace w
          ++ [colored ("Inspecting Docker image: " ++ image) Colors.YELLOW;
              Run ["docker"; "inspect"; image]])).
Proof.
  intros Docker. cbv zeta. intros Hrc Hj Htrue.
  unfold VerifyDocker.inspect_docker_image, colored.
  unfold bind at 1, print_colored at 1, print at 1, emit; cbn [fst snd].
  unfold bind at 1. rewrite run_command_checked by exact Docker.
  cbn [env trace].
  rewrite Hrc, Z.eqb_refl. cbv beta iota.
  unfold bind at 1. rewrite Hj. unfold ret at 1. cbv beta iota.
  rewrite Htrue. cbn [negb].
  rewrite <- app_assoc. reflexivity.
Qed.


(** X8: when the first element of the inspect output is an object that
    lacks [Id], [Created] or [Size], [inspect_docker_image] raises
    [KeyError] before it prints anything about the image; when the three
    are there but [Size] is not a number, it raises [TypeError] after the
    identifier and the creation time have been printed. *)
Theorem inspect_incomplete_metadata_raises :
  forall (image : string) (w : world R)
         (members : list (string * json)) (others : list json),
    launch "docker" = None ->
    let r := runtime ["docker"; "inspect"; image] (env w) in
    returncode (fst r) = 0 ->
    json_loads (stdout (fst r)) = Some (JArray (JObject members :: others)) ->
    (assoc "Id" members = None
     \/ assoc "Created" members = None
     \/ assoc "Size" members = None ->
     inspect_docker_image image w
     = (Raise KeyError,
        World (snd r)
          (trace w
           ++ [colored ("Inspecting Docker image: " ++ image) Colors.YELLOW;
               Run ["docker"; "inspect"; image]])))
    /\ (forall image_id created size,
          assoc "Id" members = Some image_id ->
          assoc "Created" members = Some created ->
          assoc "Size" members = Some size ->
          (forall n, size <> JInt n) ->
          (forall b, size <> JBool b) ->
          inspect_docker_image image w
          = (Raise TypeError,
             World (snd r)
               (trace w
                ++ [colored ("Inspecting Docker image: " ++ image)
                            Colors.YELLOW;
                    Run ["docker"; "inspect"; image];
                    line ("Image ID: " ++ py_str image_id);
                    line ("Created: " ++ py_str created)]))).
Proof.
  intros image w members others Docker. cbv zeta. intros Hrc Hj.
  rewrite (inspect_docker_image_decoded image w _ Docker Hrc Hj eq_refl).
  unfold item0, getitem, get, items, megabytes, line.
  split.
  - intros Missing. py_step.
    destruct (assoc "Id" members) as [image_id | ]; py_step;
      [ | reflexivity].
    destruct (assoc "Created" members) as [created | ]; py_step;
      [ | reflexivity].
    destruct (assoc "Size" members) as [size | ]; py_step;
      [ | reflexivity].
    destruct Missing as [H | [H | H]]; discriminate H.
  - intros image_id created size Hid Hcreated Hsize NotInt NotBool.
    py_step. rewrite Hid. py_step. rewrite Hcreated. py_step.
    rewrite Hsize. py_step.
    destruct size as [ | b | n | s | l | m]; py_step;
      try (repeat rewrite <- app_assoc; reflexivity).
    + exfalso. exact (NotBool b eq_refl).
    + exfalso. exact (NotInt n eq_refl).
Qed.


(** ** Starting the container *)

(** X10: [run_docker_container] first creates the configuration directory;
    if that fails it raises before any container is removed or started.
    Otherwise it force-removes a container of the same name, which raises
    when the [docker] program cannot be started, and goes on whatever that
    removal returned; then it starts the new container: a non-zero code of
    [docker run] ends the run with [sys.exit(1)], and on success the
    identifier returned is the output of [docker run] stripped of
    surrounding white space. *)
Theorem run_docker_container_behaviour :
  forall (image container_name config_dir : string) (w : world R),
    let made := host_makedirs config_dir (env w) in
    let removed :=
      runtime ["docker"; "rm"; "-f"; container_name] (snd made) in
    let run_command_line :=
      ["docker"; "run"; "-d"; "--name"; container_name;
       "-v"; config_dir ++ ":/app/config"; image;
       "-auth-device-name"; "DockerTest"] in
    let started := runtime run_command_line (snd removed) in
    run_docker_container image container_name config_dir w
    = match fst made with
      | Some e =>
          (Raise e,
           World (snd made)
             (trace w
              ++ [colored ("Running Docker container from image: " ++ image)
                          Colors.YELLOW;
                  Makedirs config_dir]))
      | None =>
          match launch "docker" with
          | Some why =>
              (Raise (launch_exception why),
               World (snd made)
                 (trace w
                  ++ [colored ("Running Docker container from image: "
                               ++ image) Colors.YELLOW;
                      Makedirs config_dir;
                      Run ["docker"; "rm"; "-f"; container_name]]))
          | None =>
              if returncode (fst started) =? 0 then
                (Ret (strip (stdout (fst started))),
                 World (snd started)
                   (trace w
                    ++ [colored ("Running Docker container from image: "
                                 ++ image) Colors.YELLOW;
                        Makedirs config_dir;
                        Run ["docker"; "rm"; "-f"; container_name];
                        Run run_command_line;
                        colored ("Container started with ID: "
                                 ++ strip (stdout (fst started)))
                                Colors.GREEN]))
              else
                (SysExit 1,
                 World (snd started)
                   (trace w
                    ++ [colored ("Running Docker container from image: "
                                 ++ image) Colors.YELLOW;
                        Makedirs config_dir;
                        Run ["docker"; "rm"; "-f"; container_name];
                        Run run_command_line]
                    ++ error_report run_command_line (fst started)))
          end
      end.
Proof.
  intros image container_name config_dir w. cbv zeta.
  unfold VerifyDocker.run_docker_container, makedirs, colored.
  unfold bind at 1, print_colored at 1, print at 1, emit; cbn [fst snd].
  unfold bind at 1. unfold bind at 1, emit; cbn [fst snd].
  unfold bind at 1, get_env; cbn [fst snd env].
  unfold bind at 1, set_env; cbn [fst snd env trace].
  destruct (fst (host_makedirs config_dir (env w))) as [e | ].
  - unfold raise. repeat rewrite <- app_assoc. reflexivity.
  - unfold ret at 1. cbv beta iota.
    unfold bind at 1.
    destruct (launch "docker") as [why | ] eqn:Docker.
    + rewrite (run_command_not_started _ _ _ _ _ _ _ why) by exact Docker.
      cbn [env trace]. repeat rewrite <- app_assoc. reflexivity.
    + rewrite run_command_unchecked by exact Docker. cbn [env trace].
      unfold bind at 1. rewrite run_command_checked by exact Docker.
      cbn [env trace].
      match goal with
      | |- context [returncode (fst ?r) =? 0] =>
          destruct (returncode (fst r) =? 0)
      end.
      * py_step. cbn [app]. repeat rewrite <- app_assoc. reflexivity.
      * cbn [app]. repeat rewrite <- app_assoc. reflexivity.
Qed.

(** ** A runtime that comes up *)

Lemma after_pull_emits (image container_name config_dir : string) :
  emits (fun _ => True)
    (image_info <- inspect_docker_image image ;;
     container_id <- run_docker_container image container_name config_dir ;;
     logs <- check_container_logs container_name 10 ;;
     print_colored (nl ++ "Docker image verification successful!")
                   Colors.GREEN ;;;
     ret 0).
Proof.
  unfold VerifyDocker.inspect_docker_image,
    VerifyDocker.run_docker_container, VerifyDocker.check_container_logs,
    VerifyDocker.run_command, subprocess_run, sleep, makedirs, item0, getitem,
    get, items, megabytes, print_colored.
  cbn iota. emits_split; exact I.
Qed.

(** X11: when the first readiness query fails, the start command can be
    executed and the query after it succeeds, the readiness check returns
    and the run goes on: the next events are the message that the runtime
    is running and the pull of the image. *)
Theorem started_runtime_lets_the_run_continue :
  forall (version : string) (image : option string)
         (container_name config_dir : string) (keep_container : bool)
         (w : world R),
    launch "docker" = None ->
    launch "sudo" = None ->
    returncode (fst (runtime ["docker"; "info"] (env w))) <> 0 ->
    let st1 := snd (runtime ["docker"; "info"] (env w)) in
    let st2 :=
      snd (runtime ["sudo"; "dockerd"; ">"; "/tmp/docker.log"; "2>&1"; "&"]
                   st1) in
    returncode (fst (runtime ["docker"; "info"] (wait 5 st2))) = 0 ->
    exists rest,
      trace (snd (main version image container_name config_dir
                       keep_container w))
      = (trace w
         ++ [colored ("Verifying Docker image: " ++ image_name version image)
                     Colors.YELLOW;
             colored "Checking if Docker is running..." Colors.YELLOW;
             Run ["docker"; "info"];
             colored "Docker is not running. Starting Docker..."
                     Colors.YELLOW;
             Run ["sudo"; "dockerd"; ">"; "/tmp/docker.log"; "2>&1"; "&"];
             line "Waiting for Docker to start...";
             Sleep 5;
             Run ["docker"; "info"];
             colored "Docker is running." Colors.GREEN;
             colored ("Pulling Docker image: " ++ image_name version image)
                     Colors.YELLOW;
             Run ["docker"; "pull"; image_name version image]]
         ++ rest)%list.
Proof.
  intros version image container_name config_dir keep_container w Docker Sudo
    Down.
  cbv zeta. intros Up. apply Z.eqb_neq in Down.
  set (name := image_name version image).
  pose proof (check_docker_running_run R runtime launch wait Docker
                (World (env w)
                   (trace w
                    ++ [colored ("Verifying Docker image: " ++ name)
                                Colors.YELLOW]))) as Hready.
  cbv zeta in Hready. cbn [env trace] in Hready.
  rewrite Down, Sudo, Up, Z.eqb_refl in Hready.
  rewrite main_unfold by exact Docker. cbv zeta.
  rewrite cleanup_run by exact Docker. cbn [snd trace].
  fold name.
  set (w0 := World (env w)
               (trace w
                ++ [colored ("Verifying Docker image: " ++ name)
                            Colors.YELLOW])) in *.
  destruct (try_except_trace_extends R (fun _ => True) any_Exception
              (pipeline name container_name (abspath config_dir))
              (fun e =>
                 print_colored ("Error during verification: " ++ str_of_exn e)
                               Colors.RED ;;;
                 ret 1) w0) as (evs1 & T1 & _).
  { intros e. unfold print_colored. emits_split; exact I. }
  rewrite T1. unfold VerifyDocker.pipeline.
  erewrite bind_of_Ret by exact Hready.
  match goal with
  | |- context [bind (pull_docker_image name) ?k ?w1] =>
      destruct (bind_trace_extends R (fun _ => True)
                  (pull_docker_image name) k w1) as (evs2 & T2 & _);
        [intros _; apply after_pull_emits | ];
        rewrite T2;
        rewrite (pull_docker_image_run R runtime launch Docker name w1)
  end.
  cbv zeta. cbn [env trace].
  match goal with
  | |- context [returncode (fst ?r) =? 0] =>
      destruct (returncode (fst r) =? 0)
  end; cbn [snd trace]; eexists;
    repeat rewrite <- app_assoc; cbn [app]; reflexivity.
Qed.

End ContainerVerifierMore.

(** An instance of X5: the inspect output cannot be decoded, so
    [json.loads] raises inside the guarded block and the run returns 1;
    and on a host without [docker] the first query raises inside the
    guarded block and the teardown raises [FileNotFoundError] again. *)
Lemma exception_in_pipeline_example :
  fst (DockerSamples.main_on 0 0 0 "not json" "" false) = Ret 1
  /\ fst (MoreSamples.main_with MoreSamples.without_docker 0 0 0
                                "inspect-output" "" false)
     = Raise FileNotFoundError.
Proof.
  split.
  - refine (proj1
              (proj1
                 (proj2
                    (exception_in_pipeline_gives_exit_status_one unit
                       (DockerSamples.runtime 0 0 0 "not json" "")
                       DockerSamples.installed
                       DockerSamples.wait DockerSamples.host_makedirs
                       DockerSamples.json_loads DockerSamples.abspath
                       DockerSamples.str_of_exn DockerSamples.repr_container
                       DockerSamples.format_mb "latest" None
                       "plex-subtitles-test" "./docker-test-config" false
                       (World tt []) JSONDecodeError _))
                 (or_intror eq_refl))).
    vm_compute. reflexivity.
  - refine (proj1
              (proj2
                 (proj2
                    (exception_in_pipeline_gives_exit_status_one unit
                       (DockerSamples.runtime 0 0 0 "inspect-output" "")
                       MoreSamples.without_docker
                       DockerSamples.wait DockerSamples.host_makedirs
                       DockerSamples.json_loads DockerSamples.abspath
                       DockerSamples.str_of_exn DockerSamples.repr_container
                       DockerSamples.format_mb "latest" None
                       "plex-subtitles-test" "./docker-test-config" false
                       (World tt []) FileNotFoundError _))
                 eq_refl NotInstalled eq_refl)).
    vm_compute. reflexivity.
Defined.

(** An instance of X6: everything succeeds up to the start of the
    container and [docker logs] exits with code 1. *)
Lemma failed_log_fetch_example :
  fst (DockerSamples.main_on 0 0 1 "inspect-output" "" false) = SysExit 1.
Proof.
  refine (proj1
            (failed_log_fetch_is_fatal unit
               (DockerSamples.runtime 0 0 1 "inspect-output" "")
               DockerSamples.installed
               DockerSamples.wait DockerSamples.host_makedirs
               DockerSamples.json_loads DockerSamples.abspath
               DockerSamples.str_of_exn DockerSamples.repr_container
               DockerSamples.format_mb "latest" None "plex-subtitles-test"
               "./docker-test-config" false (World tt []) "4f2a9c" _ _)).
  - vm_compute. reflexivity.
  - vm_compute. discriminate.
Defined.


(** An instance of X8: the metadata has no [Size]. *)
Lemma inspect_incomplete_metadata_example :
  fst (inspect_docker_image unit
         (DockerSamples.runtime 0 0 0 "sizeless" "")
         DockerSamples.installed MoreSamples.json_loads
         DockerSamples.repr_container DockerSamples.format_mb "image"
         (World tt []))
  = Raise KeyError.
Proof.
  rewrite (proj1
             (inspect_incomplete_metadata_raises unit
                (DockerSamples.runtime 0 0 0 "sizeless" "")
                DockerSamples.installed
                MoreSamples.json_loads DockerSamples.repr_container
                DockerSamples.format_mb "image" (World tt [])
                [("Id", JString "sha256:0f3c");
                 ("Created", JString "2025-01-01T00:00:00Z")]
                [] eq_refl eq_refl eq_refl)
             (or_intror (or_intror eq_refl))).
  reflexivity.
Defined.


(** An instance of X11: a runtime that answers only after the start
    attempt and the wait; the run goes on and returns 0. *)
Lemma started_runtime_example :
  returncode (fst (MoreSamples.starting_runtime ["docker"; "info"] 0%nat)) <> 0
  /\ In (Run ["docker"; "pull";
              "ghcr.io/thetechnetwork/plex-show-subtitles-on-rewind:latest"])
        (trace
           (snd (main nat MoreSamples.starting_runtime
                      DockerSamples.installed
                      MoreSamples.starting_wait
                      (fun path st => (None, st)) DockerSamples.json_loads
                      DockerSamples.abspath DockerSamples.str_of_exn
                      DockerSamples.repr_container DockerSamples.format_mb
                      "latest" None "plex-subtitles-test"
                      "./docker-test-config" false (World 0%nat [])))).
Proof.
  assert (returncode
            (fst (MoreSamples.starting_runtime ["docker"; "info"] 0%nat)) <> 0)
    as Down by discriminate.
  split; [exact Down | ].
  destruct (started_runtime_lets_the_run_continue nat
              MoreSamples.starting_runtime DockerSamples.installed
              MoreSamples.starting_wait
              (fun path st => (None, st)) DockerSamples.json_loads
              DockerSamples.abspath DockerSamples.str_of_exn
              DockerSamples.repr_container DockerSamples.format_mb
              "latest" None "plex-subtitles-test" "./docker-test-config"
              false (World 0%nat []) eq_refl eq_refl Down eq_refl)
    as [rest ->].
  cbn [trace app In]. do 10 right. left. reflexivity.
Defined.

(* ================================================================== *)
(** * More about the build verifier: the paths through one build *)
(* ================================================================== *)

Import VerifyBuild.

Section BuildPaths.

Variable system : list string -> node -> completed * node.
Variable launch : string -> option launch_error.
Variable glob_dirs : node -> string -> list string.

Local Notation find_executable := (VerifyBuild.find_executable glob_dirs).
Local Notation build_for_platform :=
  (VerifyBuild.build_for_platform system launch glob_dirs).
Local Notation platform_loop :=
  (VerifyBuild.platform_loop system launch glob_dirs).
Local Notation find_repo_root := (VerifyBuild.find_repo_root system launch).
Local Notation main := (VerifyBuild.main system launch glob_dirs).
Local Notation run := (VerifyBuild.run system launch glob_dirs).

(** Without the [dotnet] program the publish command raises, and nothing
    in [build_for_platform] catches that. *)
Lemma build_for_platform_not_started
    (platform_name version build_dir assets_dir : string) (w : world node)
    (why : launch_error) :
  launch "dotnet" = Some why ->
  build_for_platform platform_name version build_dir assets_dir w
  = (Raise (launch_exception why),
     World (env w)
       (trace w
        ++ [colored (nl ++ "Building for " ++ platform_name ++ "...")
                    Colors.YELLOW;
            Run (publish_command platform_name version)])).
Proof.
  intros L.
  unfold VerifyBuild.build_for_platform, subprocess_run, colored.
  unfold bind at 1, print_colored at 1, print at 1, emit; cbn [fst snd].
  unfold bind at 1, try_except.
  unfold bind at 1. unfold bind at 1, emit; cbn [fst snd].
  unfold publish_command at 1. cbv iota. rewrite L.
  unfold raise. destruct why; cbn [launch_exception is_CalledProcessError];
    cbn [env trace]; rewrite <- app_assoc; reflexivity.
Qed.

(** The publish command and what follows it. *)
Lemma build_for_platform_after_publish
    (platform_name version build_dir assets_dir : string) (w : world node) :
  launch "dotnet" = None ->
  let r := system (publish_command platform_name version) (env w) in
  let w1 :=
    World (snd r)
      (trace w
       ++ [colored (nl ++ "Building for " ++ platform_name ++ "...")
                   Colors.YELLOW;
           Run (publish_command platform_name version)]) in
  build_for_platform platform_name version build_dir assets_dir w
  = if returncode (fst r) =? 0 then
      (let publish_dir := path_join build_dir [platform_name; "publish"] in
       match find_executable (snd r) publish_dir platform_name with
       | None | Some EmptyString =>
           print_colored
             ("ERROR: Could not find executable for " ++ platform_name)
             Colors.RED ;;;
           print "Contents of publish directory:" ;;;
           items <- listdir publish_dir ;;
           for_each items (fun item => print ("  " ++ item)) ;;;
           ret false
       | Some executable =>
           print ("Found executable: " ++ executable) ;;;
           copy2 executable
                 (path_join assets_dir [target_name version platform_name]) ;;;
           (if negb (String.eqb platform_name "win-x64")
            then chmod (path_join assets_dir
                                  [target_name version platform_name]) 493
            else ret tt) ;;;
           check_executable
             (path_join assets_dir [target_name version platform_name])
             platform_name
       end) w1
    else
      (Ret false,
       World (snd r)
         (trace w
          ++ [colored (nl ++ "Building for " ++ platform_name ++ "...")
                      Colors.YELLOW;
              Run (publish_command platform_name version);
              colored ("ERROR: Build failed for " ++ platform_name)
                      Colors.RED])).
Proof.
  intros L. cbv zeta.
  unfold VerifyBuild.build_for_platform, subprocess_run, colored.
  unfold bind at 1, print_colored at 1, print at 1, emit; cbn [fst snd].
  unfold bind at 1, try_except.
  unfold bind at 1. unfold bind at 1, emit; cbn [fst snd].
  unfold publish_command at 1. cbv iota. rewrite L.
  fold (publish_command platform_name version).
  unfold bind at 1, get_env; cbn [fst snd env].
  unfold bind at 1, set_env; cbn [fst snd env trace andb].
  destruct (returncode
              (fst (system (publish_command platform_name version) (env w)))
            =? 0); cbn [negb].
  - unfold ret at 1. cbv beta iota. unfold ret at 1. cbv beta iota.
    cbn [negb]. unfold bind at 1, get_env; cbn [fst snd env].
    rewrite <- app_assoc. reflexivity.
  - unfold raise at 1. cbv beta iota. cbn [is_CalledProcessError].
    py_step. repeat rewrite <- app_assoc. reflexivity.
Qed.

(** A build that returned has started [dotnet]. *)
Lemma build_for_platform_started
    (platform_name version build_dir assets_dir : string) (w w' : world node)
    (ok : bool) :
  build_for_platform platform_name version build_dir assets_dir w
  = (Ret ok, w') ->
  launch "dotnet" = None.
Proof.
  destruct (launch "dotnet") as [why | ] eqn:L; [ | reflexivity].
  rewrite (build_for_platform_not_started _ _ _ _ _ why L).
  intros H. discriminate H.
Qed.

(** X12: when the publish command exits with a non-zero code,
    [build_for_platform] reports the failed build and returns [False]; it
    looks for no executable and copies nothing, and the file system is the
    one the tool chain left. *)
Theorem failed_publish_returns_false :
  forall (platform_name version build_dir assets_dir : string)
         (w : world node),
    launch "dotnet" = None ->
    let r := system (publish_command platform_name version) (env w) in
    returncode (fst r) <> 0 ->
    build_for_platform platform_name version build_dir assets_dir w
    = (Ret false,
       World (snd r)
         (trace w
          ++ [colored (nl ++ "Building for " ++ platform_name ++ "...")
                      Colors.YELLOW;
              Run (publish_command platform_name version);
              colored ("ERROR: Build failed for " ++ platform_name)
                      Colors.RED])).
Proof.
  intros platform_name version build_dir assets_dir w Dotnet. cbv zeta.
  intros Failed. apply Z.eqb_neq in Failed.
  rewrite build_for_platform_after_publish by exact Dotnet. cbv zeta.
  rewrite Failed. reflexivity.
Qed.

(** X13: when the build succeeds and no executable is found,
    [build_for_platform] prints the error and the heading of the listing
    and then lists the publish directory: if it is a directory, one line
    per entry is printed and the result is [False]; if it does not exist or
    is a regular file, [os.listdir] raises and the function does not
    return. *)
Theorem missing_executable_lists_the_publish_directory :
  forall (platform_name version build_dir assets_dir : string)
         (w : world node),
    launch "dotnet" = None ->
    let r := system (publish_command platform_name version) (env w) in
    let publish_dir := path_join build_dir [platform_name; "publish"] in
    let reported :=
      (trace w
       ++ [colored (nl ++ "Building for " ++ platform_name ++ "...")
                   Colors.YELLOW;
           Run (publish_command platform_name version);
           colored ("ERROR: Could not find executable for " ++ platform_name)
                   Colors.RED;
           line "Contents of publish directory:"])%list in
    returncode (fst r) = 0 ->
    find_executable (snd r) publish_dir platform_name = None ->
    build_for_platform platform_name version build_dir assets_dir w
    = match lookup (snd r) publish_dir with
      | Some (Dir es) =>
          (Ret false,
           World (snd r)
             (reported ++ map (fun entry => line ("  " ++ fst entry)) es))
      | Some (File _ _ _) =>
          (Raise NotADirectoryError, World (snd r) reported)
      | None => (Raise FileNotFoundError, World (snd r) reported)
      end.
Proof.
  intros platform_name version build_dir assets_dir w Dotnet. cbv zeta.
  intros Built Missing.
  rewrite build_for_platform_after_publish by exact Dotnet. cbv zeta.
  rewrite Built, Z.eqb_refl, Missing. unfold listdir, colored, line.
  unfold bind at 1, print_colored at 1, print at 1, emit; cbn [fst snd].
  unfold bind at 1, print at 1, emit; cbn [fst snd].
  unfold bind at 1. unfold bind at 1, get_env; cbn [fst snd env].
  destruct (lookup _ _) as [[size mode who | es] | ].
  - unfold raise. cbn [env trace].
    repeat rewrite <- app_assoc. reflexivity.
  - unfold ret at 1. cbv beta iota.
    erewrite bind_of_Ret
      by exact (for_each_print_run (fun item => "  " ++ item) (map fst es) _).
    unfold ret. cbn [env trace]. rewrite map_map.
    repeat rewrite <- app_assoc. reflexivity.
  - unfold raise. cbn [env trace].
    repeat rewrite <- app_assoc. reflexivity.
Qed.

(** X15: outside a git repository the build verifier prints the error and
    exits with status 1 straight away: no directory is created and nothing
    is built. *)
Theorem outside_a_repository_nothing_is_built :
  forall (version : string) (platforms : list string) (w : world node),
    launch "git" = None ->
    let r := system ["git"; "rev-parse"; "--show-toplevel"] (env w) in
    returncode (fst r) <> 0 ->
    main version platforms w
    = (SysExit 1,
       World (snd r)
         (trace w
          ++ [Run ["git"; "rev-parse"; "--show-toplevel"];
              colored "Error: Not a git repository" Colors.RED]))
    /\ run version platforms w = 1.
Proof.
  intros version platforms w Git. cbv zeta. intros Failed.
  apply Z.eqb_neq in Failed.
  pose proof (find_repo_root_run system launch w) as Hroot.
  cbv zeta in Hroot. rewrite Git, Failed in Hroot.
  unfold VerifyBuild.run, VerifyBuild.main.
  rewrite (bind_of_SysExit _ _ _ _ _ Hroot). auto.
Qed.

(** X16: [check_executable] only looks: it leaves the file system as it
    is, and after the heading it prints exactly one verdict, which names
    the first check that failed (not found, too small with the size, not
    executable) or says that the file passed. *)
Theorem check_executable_prints_one_verdict :
  forall (fs : node) (tr : list event) (file_path platform_name : string),
    check_executable file_path platform_name (World fs tr)
    = let verdict :=
        match lookup fs file_path with
        | Some (File size mode who) =>
            if size <? MIN_FILE_SIZE then
              (false,
               colored ("FAILED - File too small (" ++ str_of_Z size
                        ++ " bytes)") Colors.RED)
            else if negb (String.eqb platform_name "win-x64")
                    && negb (os_access_X fs file_path) then
              (false, colored "FAILED - File not executable" Colors.RED)
            else (true, colored "PASSED" Colors.GREEN)
        | _ => (false, colored "FAILED - File not found" Colors.RED)
        end in
      (Ret (fst verdict),
       World fs
         (tr ++ [Out ("Checking " ++ platform_name ++ " executable: ");
                 snd verdict])).
Proof.
  intros fs tr file_path platform_name. cbv zeta.
  unfold check_executable, getsize, isfile, colored. py_step.
  destruct (lookup fs file_path) as [[size mode who | es] | ] eqn:L; py_step;
    try (rewrite <- app_assoc; reflexivity).
  rewrite L. py_step.
  destruct (size <? MIN_FILE_SIZE); py_step;
    [rewrite <- app_assoc; reflexivity | ].
  destruct (negb (String.eqb platform_name "win-x64")
            && negb (os_access_X fs file_path)); py_step;
    rewrite <- app_assoc; reflexivity.
Qed.


(** The trace only grows along the loop. *)
Lemma platform_loop_keeps_trace (version build_dir assets_dir : string)
    (success : bool) (platforms : list string) (w : world node) (ev : event) :
  In ev (trace w) ->
  In ev (trace (snd (platform_loop version build_dir assets_dir success
                                   platforms w))).
Proof.
  intros Hin.
  destruct (platform_loop_emits system launch glob_dirs version build_dir
              assets_dir success platforms w) as (evs & -> & _).
  apply in_or_app. auto.
Qed.

(** X19: when the loop over the requested platforms returns, the publish
    command has been run for every requested platform: a build or a
    validation that reports failure does not keep the later platforms from
    being built. *)
Theorem returning_loop_built_every_platform :
  forall (version build_dir assets_dir : string) (success : bool)
         (platforms : list string) (w w' : world node) (r : bool),
    platform_loop version build_dir assets_dir success platforms w
    = (Ret r, w') ->
    forall platform_name,
      In platform_name platforms ->
      In (Run (publish_command platform_name version)) (trace w').
Proof.
  intros version build_dir assets_dir success platforms.
  revert success.
  induction platforms as [ | p rest IH]; intros success w w' r H q Hq.
  - destruct Hq.
  - cbn [VerifyBuild.platform_loop] in H.
    apply bind_Ret in H as ([] & w1 & Hwarn & H).
    apply bind_Ret in H as (ok & w2 & Hbuild & H).
    destruct Hq as [<- | Hq]; [ | eapply IH; eassumption].
    pose proof (platform_loop_keeps_trace version build_dir assets_dir
                  (if negb ok then false else success) rest w2
                  (Run (publish_command p version))) as Hkeep.
    rewrite H in Hkeep. apply Hkeep.
    destruct (build_for_platform_begins system launch glob_dirs version
                build_dir assets_dir p w1) as (evs & T).
    rewrite Hbuild in T. cbn [snd] in T. rewrite T.
    apply in_or_app. right. cbn [app In]. auto.
Qed.

(** ** A platform outside the known set *)



End BuildPaths.



(* ================================================================== *)
(** * More about the build verifier: the copied artifact *)
(* ================================================================== *)

(** ** Writing into the tree *)

Lemma find_entry_set_entry (c : string) (n : node)
    (es : list (string * node)) :
  find_entry c (set_entry c n es) = Some n.
Proof.
  induction es as [ | [k v] es IH]; cbn [set_entry find_entry].
  - rewrite String.eqb_refl. reflexivity.
  - destruct (String.eqb k c) eqn:K; cbn [find_entry].
    + rewrite String.eqb_refl. reflexivity.
    + rewrite K. exact IH.
Qed.

(** What was put at a path is what the path resolves to afterwards. *)
Lemma resolve_put (n n' : node) (p : list string) (new : node) :
  put n p new = inr n' -> resolve n' p = Some new.
Proof.
  revert n n'. induction p as [ | c p IH]; intros n n' H; cbn [put] in H.
  - destruct n; [ | discriminate H]. injection H as <-. reflexivity.
  - destruct n as [size mode who | es]; [discriminate H | ].
    destruct (find_entry c es) as [child | ].
    + destruct (put child p new) as [e | child'] eqn:P; [discriminate H | ].
      injection H as <-. cbn [resolve].
      rewrite find_entry_set_entry. eapply IH. exact P.
    + destruct p; [ | discriminate H]. injection H as <-.
      cbn [resolve]. rewrite find_entry_set_entry. reflexivity.
Qed.

(** Putting something below a directory leaves a directory there. *)
Lemma put_keeps_directory (n n' : node) (p q : list string) (new : node)
    (es : list (string * node)) :
  resolve n p = Some (Dir es) ->
  put n (p ++ q) new = inr n' ->
  exists es', resolve n' p = Some (Dir es').
Proof.
  revert n n' es. induction p as [ | c p IH]; intros n n' es R H.
  - cbn [resolve] in R. injection R as ->. cbn [app] in H.
    destruct q as [ | c q]; cbn [put] in H; [discriminate H | ].
    destruct (find_entry c es) as [child | ].
    + destruct (put child q new); [discriminate H | ].
      injection H as <-. cbn [resolve]. eauto.
    + destruct q; [ | discriminate H]. injection H as <-.
      cbn [resolve]. eauto.
  - cbn [resolve] in R. cbn [app put] in H.
    destruct n as [size mode who | es0]; [discriminate R | ].
    destruct (find_entry c es0) as [child | ]; [ | discriminate R].
    destruct (put child (p ++ q) new) as [e | child'] eqn:P;
      [discriminate H | ].
    injection H as <-. cbn [resolve]. rewrite find_entry_set_entry.
    eapply IH; eassumption.
Qed.

Lemma lookup_file_shape (fs : node) (path : string) (size mode : Z)
    (who : accessor) :
  lookup fs path = Some (File size mode who) ->
  path <> ""
  /\ endswith "/" path = false
  /\ resolve fs (split_path path) = Some (File size mode who).
Proof.
  unfold lookup.
  destruct (String.eqb_spec path ""); [intros H; discriminate H | ].
  destruct (resolve fs (split_path path)) as [[s m a | es] | ];
    intros H; try discriminate H.
  destruct (endswith "/" path); [discriminate H | ].
  injection H as -> -> ->. auto.
Qed.

Lemma lookup_directory_shape (fs : node) (path : string)
    (es : list (string * node)) :
  lookup fs path = Some (Dir es) ->
  path <> "" /\ resolve fs (split_path path) = Some (Dir es).
Proof.
  unfold lookup.
  destruct (String.eqb_spec path ""); [intros H; discriminate H | ].
  destruct (resolve fs (split_path path)) as [[s m a | es0] | ];
    intros H; try discriminate H.
  - destruct (endswith "/" path); discriminate H.
  - auto.
Qed.

(** A regular file written at a path is found there. *)
Lemma lookup_write_file (fs fs' : node) (path : string) (size mode : Z)
    (who : accessor) :
  write_file fs path (File size mode who) = inr fs' ->
  lookup fs' path = Some (File size mode who).
Proof.
  unfold write_file, lookup.
  destruct (String.eqb path ""); [intros H; discriminate H | ].
  destruct (endswith "/" path); [intros H; discriminate H | ].
  intros H. rewrite (resolve_put _ _ _ _ H). reflexivity.
Qed.

Lemma basename_acc_no_leading_slash (s cur : string) :
  startswith "/" cur = false ->
  startswith "/"
    ((fix go (cur s : string) : string :=
        match s with
        | EmptyString => cur
        | String c s' =>
            if Ascii.eqb c "/"%char then go "" s'
            else go (cur ++ String c "") s'
        end) cur s) = false.
Proof.
  revert cur. induction s as [ | c s IH]; intros cur H.
  - exact H.
  - destruct (Ascii.eqb c "/") eqn:C.
    + apply IH. reflexivity.
    + apply IH. destruct cur as [ | a cur].
      * change ("" ++ String c "") with (String c "").
        change (startswith "/" (String c ""))
          with (Ascii.eqb "/" c && startswith "" "").
        rewrite Ascii.eqb_sym, C. reflexivity.
      * change (String a cur ++ String c "")
          with (String a (cur ++ String c "")).
        change (startswith "/" (String a (cur ++ String c "")))
          with (Ascii.eqb "/" a && startswith "" (cur ++ String c "")).
        change (startswith "/" (String a cur))
          with (Ascii.eqb "/" a && startswith "" cur) in H.
        destruct (Ascii.eqb "/" a); [ | reflexivity].
        destruct cur; discriminate H.
Qed.

Lemma basename_no_leading_slash (s : string) :
  startswith "/" (basename s) = false.
Proof. apply basename_acc_no_leading_slash. reflexivity. Qed.

(** ** What [copy2] and [chmod] did when they return *)

Lemma store_returned (path : string) (new : node) (w w' : world node) :
  store path new w = (Ret tt, w') ->
  write_file (env w) path new = inr (env w').
Proof.
  unfold store. unfold bind at 1, get_env; cbn [fst snd env].
  destruct (write_file (env w) path new) as [e | fs'];
    [intros H; discriminate H | ].
  unfold set_env. intros H. injection H as <-. reflexivity.
Qed.

(** A copy that returned: the source is a regular file, and the target
    holds its size and its permission bits; the target keeps the class it
    had for the calling process, or is a new file of that process. *)
Lemma copy2_returned (src dst d : string) (w w' : world node) :
  copy2 src dst w = (Ret d, w') ->
  exists size mode who holder,
    lookup (env w) src = Some (File size mode who)
    /\ d = (if isdir (env w) dst then join2 dst (basename src) else dst)
    /\ write_file (env w) d (File size mode holder) = inr (env w').
Proof.
  unfold copy2.
  unfold bind at 1, emit; cbn [fst snd].
  unfold bind at 1, get_env; cbn [fst snd env].
  set (target := if isdir (env w) dst then join2 dst (basename src) else dst).
  set (w1 := World (env w) (trace w ++ [Copy2 src dst])).
  intros H. apply bind_Ret in H as ([] & w2 & Hsame & H).
  assert (w2 = w1) as ->.
  { revert Hsame.
    destruct (lookup (env w) src); [ | unfold ret; congruence].
    destruct (lookup (env w) target); [ | unfold ret; congruence].
    destruct (list_eq_dec string_dec (split_path src) (split_path target));
      unfold ret, raise; congruence. }
  destruct (lookup (env w) src) as [[size mode who | es] | ];
    try discriminate H.
  destruct (permits who mode R_OK); cbn [negb] in H; [ | discriminate H].
  assert (forall holder,
             (store target (File size mode holder) ;;; ret target) w1
             = (Ret d, w') ->
             d = target
             /\ write_file (env w) target (File size mode holder)
                = inr (env w')) as Stored.
  { intros holder S. apply bind_Ret in S as ([] & w2 & S & Hret).
    apply store_returned in S. cbn [env w1] in S.
    unfold ret in Hret. injection Hret as <- <-. auto. }
  destruct (lookup (env w) target) as [[s0 m0 holder | es] | ].
  - destruct (permits holder m0 W_OK); cbn [negb] in H; [ | discriminate H].
    destruct (owns holder).
    + apply Stored in H as [-> W]. exists size, mode, who, holder. auto.
    + apply bind_Ret in H as ([] & w2 & _ & H). discriminate H.
  - apply Stored in H as [-> W]. exists size, mode, who, (creator who). auto.
  - apply Stored in H as [-> W]. exists size, mode, who, (creator who). auto.
Qed.

(** A change of mode that returned: the file is the caller's own. *)
Lemma chmod_returned (path : string) (mode : Z) (w w' : world node) :
  chmod path mode w = (Ret tt, w') ->
  match lookup (env w) path with
  | Some (File size _ who) =>
      owns who = true
      /\ put (env w) (split_path path) (File size mode who) = inr (env w')
  | Some (Dir _) => env w' = env w
  | None => False
  end.
Proof.
  unfold chmod.
  unfold bind at 1, emit; cbn [fst snd].
  unfold bind at 1, get_env; cbn [fst snd env].
  destruct (lookup (env w) path) as [[size m who | es] | ].
  - destruct (owns who); [ | intros H; discriminate H].
    destruct (put (env w) (split_path path) (File size mode who))
      as [e | fs']; [intros H; discriminate H | ].
    unfold set_env. cbn [env trace]. intros H. injection H as <-.
    split; reflexivity.
  - unfold ret. intros H. injection H as <-. reflexivity.
  - intros H. discriminate H.
Qed.

Lemma lookup_of_resolve (fs : node) (path : string) (n : node) :
  path <> "" ->
  (endswith "/" path = false \/ is_dir n = true) ->
  resolve fs (split_path path) = Some n ->
  lookup fs path = Some n.
Proof.
  intros Hne Hshape R. unfold lookup.
  destruct (String.eqb_spec path ""); [contradiction | ].
  rewrite R. destruct n as [size mode who | es]; [ | reflexivity].
  destruct Hshape as [-> | D]; [reflexivity | discriminate D].
Qed.

Section CopiedArtifact.

Variable system : list string -> node -> completed * node.
Variable launch : string -> option launch_error.
Variable glob_dirs : node -> string -> list string.

Local Notation find_executable := (VerifyBuild.find_executable glob_dirs).
Local Notation build_for_platform :=
  (VerifyBuild.build_for_platform system launch glob_dirs).

(** X14: when [build_for_platform] returns [True], the [dotnet] program
    could be started, the build exited with code 0, an executable was found
    in the publish directory, and the release-assets directory holds under
    the versioned target name a regular file of the size of that
    executable, at least the minimum size; its permission bits are [0o755],
    or those of the executable when the platform is win-x64. *)
Theorem successful_build_copies_the_located_executable :
  forall (platform_name version build_dir assets_dir : string)
         (w w' : world node),
    build_for_platform platform_name version build_dir assets_dir w
    = (Ret true, w') ->
    let r := system (publish_command platform_name version) (env w) in
    launch "dotnet" = None
    /\ returncode (fst r) = 0
    /\ exists executable size mode who holder,
         find_executable (snd r)
                         (path_join build_dir [platform_name; "publish"])
                         platform_name = Some executable
         /\ lookup (snd r) executable = Some (File size mode who)
         /\ MIN_FILE_SIZE <= size
         /\ lookup (env w')
                   (path_join assets_dir [target_name version platform_name])
            = Some (File size
                         (if String.eqb platform_name "win-x64"
                          then mode else 493)
                         holder).
Proof.
  intros platform_name version build_dir assets_dir w w' H. cbv zeta.
  destruct (launch "dotnet") as [why | ] eqn:Dotnet.
  { rewrite (build_for_platform_not_started system launch glob_dirs
               platform_name version build_dir assets_dir w why Dotnet) in H.
    discriminate H. }
  split; [reflexivity | ].
  rewrite build_for_platform_after_publish in H by exact Dotnet.
  cbv zeta in H.
  set (target := path_join assets_dir [target_name version platform_name])
    in *.
  set (fs1 := snd (system (publish_command platform_name version) (env w)))
    in *.
  destruct (Z.eqb_spec
              (returncode
                 (fst (system (publish_command platform_name version)
                              (env w)))) 0) as [Built | _];
    [ | discriminate H].
  split; [exact Built | ].
  destruct (find_executable fs1 _ platform_name) as [[ | c s] | ] eqn:F;
    try (bind_inv H; discriminate H).
  set (executable := String c s) in *.
  apply bind_Ret in H as ([] & wa & Hprint & H).
  unfold print, emit in Hprint. injection Hprint as <-.
  apply bind_Ret in H as (d & wb & Hcopy & H).
  apply bind_Ret in H as ([] & wc & Hchmod & H).
  apply copy2_returned in Hcopy
    as (size & mode & who & holder & Lsrc & Hd & Hwrite).
  cbn [env] in Lsrc, Hd, Hwrite.
  pose proof (check_executable_env wc target platform_name) as Henv.
  rewrite H in Henv. cbn [snd] in Henv.
  destruct wc as [fsc trc].
  pose proof (check_executable_value fsc trc target platform_name) as Hval.
  rewrite H in Hval. cbn [fst env] in Hval, Henv, Hchmod.
  injection Hval as Hval. symmetry in Hval.
  exists executable, size, mode, who, holder.
  split; [reflexivity | ]. split; [exact Lsrc | ].
  rewrite Henv.
  assert (lookup (env wb) target = Some (File size mode holder)
          \/ exists es, lookup (env wb) target = Some (Dir es)) as Hb.
  { unfold isdir in Hd.
    destruct (lookup fs1 target) as [[s0 m0 a0 | es] | ] eqn:Lt; subst d;
      try (left; eapply lookup_write_file; exact Hwrite).
    right. apply lookup_directory_shape in Lt as [Hne Rt].
    unfold write_file in Hwrite.
    destruct (String.eqb _ ""); [discriminate Hwrite | ].
    destruct (endswith "/" _); [discriminate Hwrite | ].
    unfold target in Hwrite at 1. fold target in Hwrite.
    rewrite split_path_join2 in Hwrite by apply basename_no_leading_slash.
    destruct (put_keeps_directory _ _ _ _ _ _ Rt Hwrite) as [es' R'].
    exists es'. apply lookup_of_resolve; auto. }
  assert (lookup fsc target
          = Some (File size
                       (if String.eqb platform_name "win-x64"
                        then mode else 493)
                       holder)
          \/ exists es, lookup fsc target = Some (Dir es)) as Hc.
  { destruct (String.eqb platform_name "win-x64"); cbn [negb] in Hchmod.
    - unfold ret in Hchmod. injection Hchmod as Hwb. rewrite Hwb in Hb.
      exact Hb.
    - apply chmod_returned in Hchmod. cbn [env] in Hchmod.
      destruct Hb as [Lb | [es Lb]]; rewrite Lb in Hchmod.
      + destruct Hchmod as [_ Hchmod].
        left. apply lookup_file_shape in Lb as (Hne & Hend & _).
        apply lookup_of_resolve; auto.
        eapply resolve_put. exact Hchmod.
      + right. exists es. rewrite Hchmod. exact Lb. }
  destruct Hc as [Lc | [es Lc]]; rewrite Lc in Hval; [ | discriminate Hval].
  apply andb_true_iff in Hval as [S _].
  split; [lia | exact Lc].
Qed.

End CopiedArtifact.


(** ** Instances on concrete tool chains *)

(** An instance of X12: the tool chain fails for linux-x64. *)
Lemma failed_publish_example :
  returncode
    (fst (BuildSamples.failing_toolchain
            (publish_command "linux-x64" "1.2.3") Samples.fs_repo)) <> 0
  /\ fst (build_for_platform BuildSamples.failing_toolchain
            Samples.installed Samples.no_patterns "linux-x64" "1.2.3"
            "/repo/bin/Release/net9.0" "/repo/release-assets"
            (World Samples.fs_repo []))
     = Ret false.
Proof.
  assert (returncode
            (fst (BuildSamples.failing_toolchain
                    (publish_command "linux-x64" "1.2.3") Samples.fs_repo))
          <> 0) as Failed by discriminate.
  split; [exact Failed | ].
  rewrite (failed_publish_returns_false BuildSamples.failing_toolchain
             Samples.installed Samples.no_patterns
             "linux-x64" "1.2.3" "/repo/bin/Release/net9.0"
             "/repo/release-assets" (World Samples.fs_repo []) eq_refl
             Failed).
  reflexivity.
Defined.

(** An instance of X13: the publish directory holds no product; its two
    entries are listed and the result is [False]. *)
Lemma missing_executable_example :
  build_for_platform BuildSamples.idle_toolchain Samples.installed
    Samples.no_patterns "linux-x64" "1.2.3"
    "/repo/bin/Release/net9.0" "/repo/release-assets"
    (World BuildSamples.fs_stale_publish [])
  = (Ret false,
     World BuildSamples.fs_stale_publish
       [colored (nl ++ "Building for linux-x64...") Colors.YELLOW;
        Run (publish_command "linux-x64" "1.2.3");
        colored "ERROR: Could not find executable for linux-x64" Colors.RED;
        line "Contents of publish directory:";
        line "  notes.txt";
        line "  logs"]).
Proof.
  rewrite (missing_executable_lists_the_publish_directory
             BuildSamples.idle_toolchain Samples.installed
             Samples.no_patterns "linux-x64" "1.2.3"
             "/repo/bin/Release/net9.0" "/repo/release-assets"
             (World BuildSamples.fs_stale_publish []) eq_refl eq_refl
             eq_refl).
  reflexivity.
Defined.

(** An instance of X14: a linux-x64 build whose executable has the bits
    [0o775] leaves a copy of the same size with the bits [0o755]. *)
Lemma successful_build_example :
  exists size holder,
    2000000 <= size
    /\ lookup
         (env (snd (build_for_platform
                      (Samples.toolchain "net9.0" 2000000 509)
                      Samples.installed Samples.no_patterns
                      "linux-x64" "1.2.3" "/repo/bin/Release/net9.0"
                      "/repo/release-assets" (World BuildSamples.fs_ready []))))
         "/repo/release-assets/RewindSubtitleDisplayerForPlex_1.2.3_linux-x64"
       = Some (File size 493 holder).
Proof.
  destruct (successful_build_copies_the_located_executable
              (Samples.toolchain "net9.0" 2000000 509)
              Samples.installed Samples.no_patterns "linux-x64" "1.2.3"
              "/repo/bin/Release/net9.0" "/repo/release-assets"
              (World BuildSamples.fs_ready [])
              (snd (build_for_platform
                      (Samples.toolchain "net9.0" 2000000 509)
                      Samples.installed Samples.no_patterns "linux-x64"
                      "1.2.3" "/repo/bin/Release/net9.0"
                      "/repo/release-assets" (World BuildSamples.fs_ready []))))
    as (_ & _ & executable & size & mode & who & holder & Hfound & Hsrc & _
        & Htarget).
  - vm_compute. reflexivity.
  - exists size, holder. split; [ | exact Htarget].
    vm_compute in Hfound. injection Hfound as <-.
    vm_compute in Hsrc. injection Hsrc as <- _ _. discriminate.
Defined.

(** An instance of X15: no git repository. *)
Lemma outside_a_repository_example :
  returncode
    (fst (BuildSamples.no_repository ["git"; "rev-parse"; "--show-toplevel"]
            Samples.fs_repo)) <> 0
  /\ VerifyBuild.run BuildSamples.no_repository Samples.installed
       Samples.no_patterns "1.2.3" PLATFORMS (World Samples.fs_repo []) = 1.
Proof.
  assert (returncode
            (fst (BuildSamples.no_repository
                    ["git"; "rev-parse"; "--show-toplevel"] Samples.fs_repo))
          <> 0) as Failed by discriminate.
  split; [exact Failed | ].
  exact (proj2 (outside_a_repository_nothing_is_built
                  BuildSamples.no_repository Samples.installed
                  Samples.no_patterns "1.2.3" PLATFORMS
                  (World Samples.fs_repo []) eq_refl Failed)).
Defined.


(** An instance of X19: the build of win-x64 fails and the loop still
    builds linux-x64. *)
Lemma returning_loop_example :
  In (Run (publish_command "linux-x64" "1.2.3"))
     (trace
        (snd (platform_loop BuildSamples.failing_toolchain Samples.installed
                Samples.no_patterns "1.2.3"
                "/repo/bin/Release/net9.0" "/repo/release-assets" true
                ["win-x64"; "linux-x64"] (World BuildSamples.fs_ready [])))).
Proof.
  refine (returning_loop_built_every_platform BuildSamples.failing_toolchain
            Samples.installed Samples.no_patterns
            "1.2.3" "/repo/bin/Release/net9.0" "/repo/release-assets" true
            ["win-x64"; "linux-x64"] (World BuildSamples.fs_ready []) _ false
            _ "linux-x64" _).
  - vm_compute. reflexivity.
  - right. left. reflexivity.
Defined.
